(** * Verification of the input-abstraction layer of sdl_game

    The repository holds two input managers for the same concept:

    - the capability-delegation design ([InputManager.h] and the second half
      of [sdl_steam_input.cpp]): one device object per category
      ([KeyboardInput], [MouseInput], [GamepadInput], [SteamDeckInput]) behind
      an [InputManager] that delegates to them; modelled in [Module Devices];
    - the binding-table design (first half of [sdl_steam_input.cpp]): one
      class with per-category snapshots, a table of callbacks per physical
      input and an event handler; modelled in [Module Bindings].

    Both read the SDL2 library.  What SDL answers during one frame is the
    record [Platform] of [Module SDL]; SDL's constants are those of the SDL2
    headers.

    C++ [float] values are modelled as exact rationals [Q]: every float
    operation is taken without rounding.  [Module Binary32] gives the IEEE
    binary32 reading of the axis arithmetic of both designs, and the
    properties relate it to the rational one on every 16-bit raw axis
    value. *)

From Stdlib Require Import ZArith QArith Qabs Qminmax Lqa Lia List Bool SpecFloat.
From stdpp Require Import gmap list strings.

Local Open Scope Z_scope.

(** ** Rational helpers standing for the float comparisons of the source *)

Definition Qltb (x y : Q) : bool := negb (Qle_bool y x).

(** ** The SDL2 platform as the code reads it *)

Module SDL.

(** Constants of the SDL2 headers used by the source. *)
Definition SDL_NUM_SCANCODES : nat := 512.
Definition SDL_CONTROLLER_BUTTON_MAX : nat := 21.
Definition SDL_CONTROLLER_AXIS_MAX : nat := 6.
Definition SDLK_UNKNOWN : Z := 0.
Definition SDL_SCANCODE_A : nat := 4.
Definition SDLK_a : Z := 97.

(** [SDL_BUTTON(x)] is the macro [1 << (x - 1)]. *)
Definition SDL_BUTTON (button : Z) : Z := Z.shiftl 1 (button - 1).

(** An open [SDL_GameController*]; [None] at type [option Handle] is the
    null pointer. *)
Definition Handle := nat.

(** The one array [SDL_GetKeyboardState] points into.  A non-null keyboard
    pointer always aliases it: reading through the pointer reads SDL's
    current key array, whatever it was when the pointer was obtained. *)
Inductive KeyArray : Set := SdlKeyArray.

(** What SDL answers to the calls of the source between two event pumps. *)
Record Platform := {
  (* SDL_WasInit(SDL_INIT_GAMECONTROLLER) != 0 *)
  was_init_gamecontroller : bool;
  (* SDL_InitSubSystem(SDL_INIT_GAMECONTROLLER) >= 0 *)
  init_subsystem_ok : bool;
  (* SDL_Init(SDL_INIT_VIDEO | SDL_INIT_GAMECONTROLLER) >= 0 *)
  init_ok : bool;
  (* getenv("SteamDeck") is "1" *)
  steam_deck_env : bool;
  (* the key array, one Uint8 per scancode *)
  keystate : nat -> Z;
  (* SDL_GetKeyFromScancode, SDL_GetScancodeFromKey *)
  key_from_scancode : nat -> Z;
  scancode_from_key : Z -> nat;
  (* SDL_GetMouseState: button mask, x, y *)
  mouse_buttons : Z;
  mouse_x : Z;
  mouse_y : Z;
  (* SDL_NumJoysticks, SDL_IsGameController, SDL_GameControllerOpen *)
  num_joysticks : nat;
  is_game_controller : nat -> bool;
  controller_open : nat -> option Handle;
  (* SDL_GameControllerGetAttached, ...GetButton (Uint8), ...GetAxis (Sint16) *)
  controller_attached : Handle -> bool;
  controller_button : Handle -> nat -> Z;
  controller_axis : Handle -> nat -> Z
}.

(** [SDL_GetKeyboardState] never returns null. *)
Definition SDL_GetKeyboardState (sdl : Platform) : option KeyArray :=
  Some SdlKeyArray.

(** Reading [ptr[i]] through a keyboard pointer: [None] is the read through
    a null pointer. *)
Definition read_key (sdl : Platform) (ptr : option KeyArray) (i : nat) : option Z :=
  match ptr with
  | Some SdlKeyArray => Some (keystate sdl i)
  | None => None
  end.

(** The loop shared by every scan of the source:
    [for i < SDL_NumJoysticks(): if IsGameController(i) and Open(i) succeeds,
    keep it and break].  Returns the handle and its device index. *)
Fixpoint scan_from (sdl : Platform) (i n : nat) : option (Handle * nat) :=
  match n with
  | O => None
  | S n' =>
      if is_game_controller sdl i then
        match controller_open sdl i with
        | Some h => Some (h, i)
        | None => scan_from sdl (S i) n'
        end
      else scan_from sdl (S i) n'
  end.

Definition scan_controllers (sdl : Platform) : option (Handle * nat) :=
  scan_from sdl 0 (num_joysticks sdl).

(** The structural events the source looks at; [OtherEvent] is any event
    type the [switch] has no case for (quit, window events, ...). *)
Inductive SDL_Event :=
| SDL_KEYDOWN | SDL_KEYUP
| SDL_MOUSEMOTION (x y xrel yrel : Z)
| SDL_MOUSEBUTTONDOWN | SDL_MOUSEBUTTONUP
| SDL_CONTROLLERDEVICEADDED (which : Z)
| SDL_CONTROLLERDEVICEREMOVED (which : Z)
| SDL_CONTROLLERBUTTONDOWN | SDL_CONTROLLERBUTTONUP
| SDL_CONTROLLERAXISMOTION
| SDL_FINGERDOWN (fingerId : Z) (x y : Q)
| SDL_FINGERUP (fingerId : Z) (x y : Q)
| SDL_FINGERMOTION (fingerId : Z) (x y : Q)
| OtherEvent.

(** [static_cast<int>] of a 64-bit [SDL_FingerID]. *)
Definition to_int32 (z : Z) : Z := (z + 2 ^ 31) mod 2 ^ 32 - 2 ^ 31.

End SDL.
Import SDL.

(** ** The capability-delegation design *)

Module Devices.

(** *** KeyboardInput *)

Record KeyboardInput := {
  keyboardState : option KeyArray;
  previousKeyboardState : list Z
}.

(** Constructor: null pointer, [memset] of the previous array to 0. *)
Definition KeyboardInput_new : KeyboardInput :=
  {| keyboardState := None;
     previousKeyboardState := repeat 0 SDL_NUM_SCANCODES |}.

(** [memcpy(dst, ptr, SDL_NUM_SCANCODES)] from SDL's key array. *)
Definition memcpy_keys (sdl : Platform) : list Z :=
  map (keystate sdl) (seq 0 SDL_NUM_SCANCODES).

(** [KeyboardInput::update]: the pointer is fetched, then the array it
    points to is copied into [previousKeyboardState]. *)
Definition KeyboardInput_update (sdl : Platform) (k : KeyboardInput) : KeyboardInput :=
  let ks := SDL_GetKeyboardState sdl in
  {| keyboardState := ks;
     previousKeyboardState :=
       match ks with
       | Some _ => memcpy_keys sdl
       | None => previousKeyboardState k
       end |}.

Definition KeyboardInput_isAvailable (k : KeyboardInput) : bool :=
  match keyboardState k with Some _ => true | None => false end.

Definition KeyboardInput_isKeyPressed (sdl : Platform) (k : KeyboardInput) (key : nat) : bool :=
  if negb (KeyboardInput_isAvailable k) then false
  else
    match read_key sdl (keyboardState k) key with
    | Some v => v =? 1
    | None => false
    end.

Definition KeyboardInput_isKeyJustPressed (sdl : Platform) (k : KeyboardInput) (key : nat) : bool :=
  if negb (KeyboardInput_isAvailable k) then false
  else
    match read_key sdl (keyboardState k) key with
    | Some v => (v =? 1) && (nth key (previousKeyboardState k) 0 =? 0)
    | None => false
    end.

(** *** MouseInput *)

Record MouseInput := {
  mouseX : Z;
  mouseY : Z;
  mouseState : Z;
  previousMouseState : Z
}.

Definition MouseInput_new : MouseInput :=
  {| mouseX := 0; mouseY := 0; mouseState := 0; previousMouseState := 0 |}.

Definition MouseInput_update (sdl : Platform) (m : MouseInput) : MouseInput :=
  {| previousMouseState := mouseState m;
     mouseState := mouse_buttons sdl;
     mouseX := mouse_x sdl;
     mouseY := mouse_y sdl |}.

Definition MouseInput_isAvailable (m : MouseInput) : bool := true.

Definition MouseInput_isButtonPressed (m : MouseInput) (button : Z) : bool :=
  if negb (MouseInput_isAvailable m) then false
  else negb (Z.land (mouseState m) (SDL_BUTTON button) =? 0).

Definition MouseInput_isButtonJustPressed (m : MouseInput) (button : Z) : bool :=
  if negb (MouseInput_isAvailable m) then false
  else negb (Z.land (mouseState m) (SDL_BUTTON button) =? 0)
       && (Z.land (previousMouseState m) (SDL_BUTTON button) =? 0).

(** *** GamepadInput *)

Record GamepadInput := {
  controller : option Handle;
  controllerWasConnected : bool;
  previousButtonStates : list bool;
  currentButtonStates : list bool;
  axisValues : list Z
}.

Definition GamepadInput_new : GamepadInput :=
  {| controller := None;
     controllerWasConnected := false;
     previousButtonStates := repeat false SDL_CONTROLLER_BUTTON_MAX;
     currentButtonStates := repeat false SDL_CONTROLLER_BUTTON_MAX;
     axisValues := repeat 0 SDL_CONTROLLER_AXIS_MAX |}.

Definition read_buttons (sdl : Platform) (h : Handle) : list bool :=
  map (fun i => controller_button sdl h i =? 1) (seq 0 SDL_CONTROLLER_BUTTON_MAX).

Definition read_axes (sdl : Platform) (h : Handle) : list Z :=
  map (controller_axis sdl h) (seq 0 SDL_CONTROLLER_AXIS_MAX).

(** [GamepadInput::update], in the order of the source: copy current to
    previous; scan only if there is no handle; then, with a handle, either
    release it (not attached) or refresh buttons and axes. *)
Definition GamepadInput_update (sdl : Platform) (g : GamepadInput) : GamepadInput :=
  let prev := currentButtonStates g in
  let c :=
    match controller g with
    | Some h => Some h
    | None => fst <$> scan_controllers sdl
    end in
  match c with
  | Some h =>
      if negb (controller_attached sdl h) then
        {| controller := None;
           controllerWasConnected := false;
           previousButtonStates := prev;
           currentButtonStates := currentButtonStates g;
           axisValues := axisValues g |}
      else
        {| controller := Some h;
           controllerWasConnected := true;
           previousButtonStates := prev;
           currentButtonStates := read_buttons sdl h;
           axisValues := read_axes sdl h |}
  | None =>
      {| controller := None;
         controllerWasConnected := controllerWasConnected g;
         previousButtonStates := prev;
         currentButtonStates := currentButtonStates g;
         axisValues := axisValues g |}
  end.

Definition GamepadInput_isAvailable (g : GamepadInput) : bool :=
  match controller g with Some _ => true | None => false end.

Definition GamepadInput_isButtonPressed (g : GamepadInput) (button : nat) : bool :=
  if negb (GamepadInput_isAvailable g) || (SDL_CONTROLLER_BUTTON_MAX <=? button)%nat
  then false
  else nth button (currentButtonStates g) false.

Definition GamepadInput_isButtonJustPressed (g : GamepadInput) (button : nat) : bool :=
  if negb (GamepadInput_isAvailable g) || (SDL_CONTROLLER_BUTTON_MAX <=? button)%nat
  then false
  else nth button (currentButtonStates g) false
       && negb (nth button (previousButtonStates g) false).

(** The arithmetic of [getAxisValue] after the availability guard, with the
    local constant [deadzone] as a parameter. *)
Definition shape (deadzone normalizedValue : Q) : Q :=
  if Qltb (Qabs normalizedValue) deadzone then 0%Q
  else
    let sign := if Qltb 0 normalizedValue then 1%Q else (-1)%Q in
    (sign * (Qabs normalizedValue - deadzone) / (1 - deadzone))%Q.

(** [constexpr float deadzone = 0.15f]. *)
Definition deadzone : Q := (15 # 100)%Q.

(** [static_cast<float>(axisValues[axis]) * (1.0f / 32768.0f)]. *)
Definition normalize (raw : Z) : Q := (inject_Z raw * (1 / 32768))%Q.

Definition GamepadInput_getAxisValue (g : GamepadInput) (axis : nat) : Q :=
  if negb (GamepadInput_isAvailable g) || (SDL_CONTROLLER_AXIS_MAX <=? axis)%nat
  then 0%Q
  else shape deadzone (normalize (nth axis (axisValues g) 0)).

(** *** SteamDeckInput: owns a gamepad of its own and delegates to it *)

Record SteamDeckInput := {
  sd_gamepad : GamepadInput;
  hasGyro : bool
}.

Definition SteamDeckInput_new : SteamDeckInput :=
  {| sd_gamepad := GamepadInput_new; hasGyro := true |}.

Definition SteamDeckInput_update (sdl : Platform) (s : SteamDeckInput) : SteamDeckInput :=
  {| sd_gamepad := GamepadInput_update sdl (sd_gamepad s); hasGyro := hasGyro s |}.

Definition SteamDeckInput_isAvailable (s : SteamDeckInput) : bool :=
  GamepadInput_isAvailable (sd_gamepad s).

(** *** InputManager of [InputManager.h] *)

Record InputManager := {
  initialized : bool;
  keyboard : option KeyboardInput;
  mouse : option MouseInput;
  gamepad : option GamepadInput;
  steamDeck : option SteamDeckInput;
  isSteamDeckHardware : bool
}.

Definition InputManager_new : InputManager :=
  {| initialized := false; keyboard := None; mouse := None; gamepad := None;
     steamDeck := None; isSteamDeckHardware := false |}.

Definition initialize (sdl : Platform) (m : InputManager) : InputManager * bool :=
  if negb (init_ok sdl) then (m, false)
  else
    ({| initialized := true;
        keyboard := Some KeyboardInput_new;
        mouse := Some MouseInput_new;
        gamepad := Some GamepadInput_new;
        steamDeck := if steam_deck_env sdl then Some SteamDeckInput_new else steamDeck m;
        isSteamDeckHardware := steam_deck_env sdl |}, true).

(** One turn of the [SDL_PollEvent] loop of [InputManager::update]: a
    controller attach or detach event replaces the gamepad object by a fresh
    one (whose destructor closes the old handle). *)
Definition poll_event (g : option GamepadInput) (e : SDL_Event) : option GamepadInput :=
  match e with
  | SDL_CONTROLLERDEVICEADDED _ | SDL_CONTROLLERDEVICEREMOVED _ =>
      match g with
      | Some _ => Some GamepadInput_new
      | None => None
      end
  | _ => g
  end.

(** [InputManager::update]: drain the event queue, then update the devices
    in the order keyboard, mouse, gamepad, Steam Deck.  [sdl] is what SDL
    reports once the queue is drained. *)
Definition update (sdl : Platform) (events : list SDL_Event) (m : InputManager) : InputManager :=
  let g := fold_left poll_event events (gamepad m) in
  {| initialized := initialized m;
     keyboard := KeyboardInput_update sdl <$> keyboard m;
     mouse := MouseInput_update sdl <$> mouse m;
     gamepad := GamepadInput_update sdl <$> g;
     steamDeck := SteamDeckInput_update sdl <$> steamDeck m;
     isSteamDeckHardware := isSteamDeckHardware m |}.

Definition isKeyboardAvailable (m : InputManager) : bool :=
  match keyboard m with Some k => KeyboardInput_isAvailable k | None => false end.

Definition isMouseAvailable (m : InputManager) : bool :=
  match mouse m with Some d => MouseInput_isAvailable d | None => false end.

Definition isGamepadAvailable (m : InputManager) : bool :=
  match gamepad m with Some g => GamepadInput_isAvailable g | None => false end.

Definition isSteamDeckAvailable (m : InputManager) : bool :=
  match steamDeck m with Some s => SteamDeckInput_isAvailable s | None => false end.

Definition isKeyPressed (sdl : Platform) (m : InputManager) (key : nat) : bool :=
  match keyboard m with
  | Some k => KeyboardInput_isAvailable k && KeyboardInput_isKeyPressed sdl k key
  | None => false
  end.

Definition isKeyJustPressed (sdl : Platform) (m : InputManager) (key : nat) : bool :=
  match keyboard m with
  | Some k => KeyboardInput_isAvailable k && KeyboardInput_isKeyJustPressed sdl k key
  | None => false
  end.

Definition isMouseButtonPressed (m : InputManager) (button : Z) : bool :=
  match mouse m with
  | Some d => MouseInput_isAvailable d && MouseInput_isButtonPressed d button
  | None => false
  end.

Definition isMouseButtonJustPressed (m : InputManager) (button : Z) : bool :=
  match mouse m with
  | Some d => MouseInput_isAvailable d && MouseInput_isButtonJustPressed d button
  | None => false
  end.

Definition isGamepadButtonPressed (m : InputManager) (button : nat) : bool :=
  match steamDeck m, gamepad m with
  | Some s, g =>
      if SteamDeckInput_isAvailable s
      then GamepadInput_isButtonPressed (sd_gamepad s) button
      else match g with
           | Some g => GamepadInput_isAvailable g && GamepadInput_isButtonPressed g button
           | None => false
           end
  | None, Some g => GamepadInput_isAvailable g && GamepadInput_isButtonPressed g button
  | None, None => false
  end.

Definition isGamepadButtonJustPressed (m : InputManager) (button : nat) : bool :=
  match steamDeck m, gamepad m with
  | Some s, g =>
      if SteamDeckInput_isAvailable s
      then GamepadInput_isButtonJustPressed (sd_gamepad s) button
      else match g with
           | Some g => GamepadInput_isAvailable g && GamepadInput_isButtonJustPressed g button
           | None => false
           end
  | None, Some g => GamepadInput_isAvailable g && GamepadInput_isButtonJustPressed g button
  | None, None => false
  end.

Definition getGamepadAxisValue (m : InputManager) (axis : nat) : Q :=
  match steamDeck m, gamepad m with
  | Some s, g =>
      if SteamDeckInput_isAvailable s
      then GamepadInput_getAxisValue (sd_gamepad s) axis
      else match g with
           | Some g => if GamepadInput_isAvailable g then GamepadInput_getAxisValue g axis else 0%Q
           | None => 0%Q
           end
  | None, Some g => if GamepadInput_isAvailable g then GamepadInput_getAxisValue g axis else 0%Q
  | None, None => 0%Q
  end.

(** *** The remaining accessors *)

(** [MouseInput::getPosition]: the two out-parameters as a pair. *)
Definition MouseInput_getPosition (m : MouseInput) : Z * Z := (mouseX m, mouseY m).

Definition GamepadInput_wasAvailable (g : GamepadInput) : bool := controllerWasConnected g.

Definition SteamDeckInput_hasGyroSupport (s : SteamDeckInput) : bool := hasGyro s.

Definition isRunningOnSteamDeck (m : InputManager) : bool := isSteamDeckHardware m.

(** [InputManager::getMousePosition]: [x = y = 0] without a mouse. *)
Definition getMousePosition (m : InputManager) : Z * Z :=
  match mouse m with
  | Some d => if MouseInput_isAvailable d then MouseInput_getPosition d else (0, 0)
  | None => (0, 0)
  end.

Definition hasSteamDeckGyroSupport (m : InputManager) : bool :=
  match steamDeck m with
  | Some s => SteamDeckInput_hasGyroSupport s
  | None => false
  end.

End Devices.

(** ** The binding-table design *)

Module Bindings.

Module InputType.
Inductive t := KEYBOARD | MOUSE | GAMEPAD | TOUCHSCREEN.
End InputType.

Module GamepadButton.
Inductive t :=
| A | B | X | Y
| BACK | GUIDE | START
| LEFTSTICK | RIGHTSTICK
| LEFTSHOULDER | RIGHTSHOULDER
| DPAD_UP | DPAD_DOWN | DPAD_LEFT | DPAD_RIGHT
| MISC1 | PADDLE1 | PADDLE2 | PADDLE3 | PADDLE4
| TOUCHPAD
| NONE.

Definition to_nat (b : t) : nat :=
  match b with
  | A => 0 | B => 1 | X => 2 | Y => 3
  | BACK => 4 | GUIDE => 5 | START => 6
  | LEFTSTICK => 7 | RIGHTSTICK => 8
  | LEFTSHOULDER => 9 | RIGHTSHOULDER => 10
  | DPAD_UP => 11 | DPAD_DOWN => 12 | DPAD_LEFT => 13 | DPAD_RIGHT => 14
  | MISC1 => 15 | PADDLE1 => 16 | PADDLE2 => 17 | PADDLE3 => 18 | PADDLE4 => 19
  | TOUCHPAD => 20
  | NONE => 21
  end%nat.

Definition of_nat (n : nat) : t :=
  match n with
  | 0 => A | 1 => B | 2 => X | 3 => Y
  | 4 => BACK | 5 => GUIDE | 6 => START
  | 7 => LEFTSTICK | 8 => RIGHTSTICK
  | 9 => LEFTSHOULDER | 10 => RIGHTSHOULDER
  | 11 => DPAD_UP | 12 => DPAD_DOWN | 13 => DPAD_LEFT | 14 => DPAD_RIGHT
  | 15 => MISC1 | 16 => PADDLE1 | 17 => PADDLE2 | 18 => PADDLE3 | 19 => PADDLE4
  | 20 => TOUCHPAD
  | _ => NONE
  end%nat.

Lemma button_of_to_nat (b : t) : of_nat (to_nat b) = b.
Proof. destruct b; reflexivity. Qed.

#[global] Instance eq_dec : EqDecision t.
Proof. solve_decision. Defined.

#[global] Instance countable : Countable t := inj_countable' to_nat of_nat button_of_to_nat.
End GamepadButton.

Module GamepadAxis.
Inductive t :=
| LEFTX | LEFTY
| RIGHTX | RIGHTY
| TRIGGERLEFT
| TRIGGERRIGHT
| NONE.

Definition to_nat (a : t) : nat :=
  match a with
  | LEFTX => 0 | LEFTY => 1 | RIGHTX => 2 | RIGHTY => 3
  | TRIGGERLEFT => 4 | TRIGGERRIGHT => 5 | NONE => 6
  end%nat.

Definition of_nat (n : nat) : t :=
  match n with
  | 0 => LEFTX | 1 => LEFTY | 2 => RIGHTX | 3 => RIGHTY
  | 4 => TRIGGERLEFT | 5 => TRIGGERRIGHT | _ => NONE
  end%nat.

Lemma axis_of_to_nat (a : t) : of_nat (to_nat a) = a.
Proof. destruct a; reflexivity. Qed.

#[global] Instance eq_dec : EqDecision t.
Proof. solve_decision. Defined.

#[global] Instance countable : Countable t := inj_countable' to_nat of_nat axis_of_to_nat.
End GamepadAxis.

(** Both translation functions take a [Uint8]: an index passed to them is
    converted to a byte first. *)
Definition to_Uint8 (n : nat) : nat := n mod 256.

(** [sdlButtonToGamepadButton]: the [switch] over [SDL_CONTROLLER_BUTTON_*]
    (A = 0 ... DPAD_RIGHT = 14, MISC1 = 15); paddles and touchpad fall to
    [default]. *)
Definition sdlButtonToGamepadButton (button : nat) : GamepadButton.t :=
  match to_Uint8 button with
  | 0 => GamepadButton.A
  | 1 => GamepadButton.B
  | 2 => GamepadButton.X
  | 3 => GamepadButton.Y
  | 4 => GamepadButton.BACK
  | 5 => GamepadButton.GUIDE
  | 6 => GamepadButton.START
  | 7 => GamepadButton.LEFTSTICK
  | 8 => GamepadButton.RIGHTSTICK
  | 9 => GamepadButton.LEFTSHOULDER
  | 10 => GamepadButton.RIGHTSHOULDER
  | 11 => GamepadButton.DPAD_UP
  | 12 => GamepadButton.DPAD_DOWN
  | 13 => GamepadButton.DPAD_LEFT
  | 14 => GamepadButton.DPAD_RIGHT
  | 15 => GamepadButton.MISC1
  | _ => GamepadButton.NONE
  end%nat.

Definition sdlAxisToGamepadAxis (axis : nat) : GamepadAxis.t :=
  match to_Uint8 axis with
  | 0 => GamepadAxis.LEFTX
  | 1 => GamepadAxis.LEFTY
  | 2 => GamepadAxis.RIGHTX
  | 3 => GamepadAxis.RIGHTY
  | 4 => GamepadAxis.TRIGGERLEFT
  | 5 => GamepadAxis.TRIGGERRIGHT
  | _ => GamepadAxis.NONE
  end%nat.

Record TouchPoint := {
  id : Z;
  x : Q;
  y : Q;
  pressed : bool
}.

Section WithGame.

(** The application object the callbacks act on ([Game*]). *)
Context {Game : Type}.

(** [std::function<void(Game*, float)>]: a callback changes the game. *)
Definition CommandFunction : Type := Game -> Q -> Game.

Record InputManager := {
  m_gameController : option Handle;
  m_gameControllerIndex : Z;
  m_activeInputMethod : InputType.t;
  m_currentKeyboardState : option KeyArray;
  m_previousKeyState : gmap Z bool;
  m_keyCommands : gmap Z CommandFunction;
  m_currentMouseState : Z;
  m_previousMouseState : Z;
  m_mouseX : Z;
  m_mouseY : Z;
  m_mouseDeltaX : Z;
  m_mouseDeltaY : Z;
  m_mouseCommands : gmap Z CommandFunction;
  m_currentGamepadButtonState : gmap GamepadButton.t bool;
  m_previousGamepadButtonState : gmap GamepadButton.t bool;
  m_gamepadAxisValues : gmap GamepadAxis.t Q;
  m_gamepadButtonCommands : gmap GamepadButton.t CommandFunction;
  m_gamepadAxisCommands : gmap GamepadAxis.t (CommandFunction * Q);
  m_touchPoints : list TouchPoint;
  m_touchCommand : option CommandFunction
}.

(** The constructor's initialiser list; containers start empty. *)
Definition InputManager_new : InputManager :=
  {| m_gameController := None;
     m_gameControllerIndex := -1;
     m_activeInputMethod := InputType.KEYBOARD;
     m_currentKeyboardState := None;
     m_previousKeyState := ∅;
     m_keyCommands := ∅;
     m_currentMouseState := 0;
     m_previousMouseState := 0;
     m_mouseX := 0;
     m_mouseY := 0;
     m_mouseDeltaX := 0;
     m_mouseDeltaY := 0;
     m_mouseCommands := ∅;
     m_currentGamepadButtonState := ∅;
     m_previousGamepadButtonState := ∅;
     m_gamepadAxisValues := ∅;
     m_gamepadButtonCommands := ∅;
     m_gamepadAxisCommands := ∅;
     m_touchPoints := [];
     m_touchCommand := None |}.

(** Assignments to members. *)
Definition set_gameController (c : option Handle) (i : Z) (m : InputManager) : InputManager :=
  let '(Build_InputManager _ _ f3 f4 f5 f6 f7 f8 f9 f10 f11 f12 f13 f14 f15 f16 f17 f18 f19 f20) := m in
  Build_InputManager c i f3 f4 f5 f6 f7 f8 f9 f10 f11 f12 f13 f14 f15 f16 f17 f18 f19 f20.

Definition set_activeInputMethod (v : InputType.t) (m : InputManager) : InputManager :=
  let '(Build_InputManager f1 f2 _ f4 f5 f6 f7 f8 f9 f10 f11 f12 f13 f14 f15 f16 f17 f18 f19 f20) := m in
  Build_InputManager f1 f2 v f4 f5 f6 f7 f8 f9 f10 f11 f12 f13 f14 f15 f16 f17 f18 f19 f20.

Definition set_currentKeyboardState (v : option KeyArray) (m : InputManager) : InputManager :=
  let '(Build_InputManager f1 f2 f3 _ f5 f6 f7 f8 f9 f10 f11 f12 f13 f14 f15 f16 f17 f18 f19 f20) := m in
  Build_InputManager f1 f2 f3 v f5 f6 f7 f8 f9 f10 f11 f12 f13 f14 f15 f16 f17 f18 f19 f20.

Definition set_previousKeyState (v : gmap Z bool) (m : InputManager) : InputManager :=
  let '(Build_InputManager f1 f2 f3 f4 _ f6 f7 f8 f9 f10 f11 f12 f13 f14 f15 f16 f17 f18 f19 f20) := m in
  Build_InputManager f1 f2 f3 f4 v f6 f7 f8 f9 f10 f11 f12 f13 f14 f15 f16 f17 f18 f19 f20.

Definition set_keyCommands (v : gmap Z CommandFunction) (m : InputManager) : InputManager :=
  let '(Build_InputManager f1 f2 f3 f4 f5 _ f7 f8 f9 f10 f11 f12 f13 f14 f15 f16 f17 f18 f19 f20) := m in
  Build_InputManager f1 f2 f3 f4 f5 v f7 f8 f9 f10 f11 f12 f13 f14 f15 f16 f17 f18 f19 f20.

Definition set_mouseState (cur prev mx my : Z) (m : InputManager) : InputManager :=
  let '(Build_InputManager f1 f2 f3 f4 f5 f6 _ _ _ _ f11 f12 f13 f14 f15 f16 f17 f18 f19 f20) := m in
  Build_InputManager f1 f2 f3 f4 f5 f6 cur prev mx my f11 f12 f13 f14 f15 f16 f17 f18 f19 f20.

Definition set_mouseMotion (mx my dx dy : Z) (m : InputManager) : InputManager :=
  let '(Build_InputManager f1 f2 f3 f4 f5 f6 f7 f8 _ _ _ _ f13 f14 f15 f16 f17 f18 f19 f20) := m in
  Build_InputManager f1 f2 f3 f4 f5 f6 f7 f8 mx my dx dy f13 f14 f15 f16 f17 f18 f19 f20.

Definition set_mouseCommands (v : gmap Z CommandFunction) (m : InputManager) : InputManager :=
  let '(Build_InputManager f1 f2 f3 f4 f5 f6 f7 f8 f9 f10 f11 f12 _ f14 f15 f16 f17 f18 f19 f20) := m in
  Build_InputManager f1 f2 f3 f4 f5 f6 f7 f8 f9 f10 f11 f12 v f14 f15 f16 f17 f18 f19 f20.

Definition set_gamepadState (cur prev : gmap GamepadButton.t bool) (ax : gmap GamepadAxis.t Q)
    (m : InputManager) : InputManager :=
  let '(Build_InputManager f1 f2 f3 f4 f5 f6 f7 f8 f9 f10 f11 f12 f13 _ _ _ f17 f18 f19 f20) := m in
  Build_InputManager f1 f2 f3 f4 f5 f6 f7 f8 f9 f10 f11 f12 f13 cur prev ax f17 f18 f19 f20.

Definition set_gamepadButtonCommands (v : gmap GamepadButton.t CommandFunction)
    (m : InputManager) : InputManager :=
  let '(Build_InputManager f1 f2 f3 f4 f5 f6 f7 f8 f9 f10 f11 f12 f13 f14 f15 f16 _ f18 f19 f20) := m in
  Build_InputManager f1 f2 f3 f4 f5 f6 f7 f8 f9 f10 f11 f12 f13 f14 f15 f16 v f18 f19 f20.

Definition set_gamepadAxisCommands (v : gmap GamepadAxis.t (CommandFunction * Q))
    (m : InputManager) : InputManager :=
  let '(Build_InputManager f1 f2 f3 f4 f5 f6 f7 f8 f9 f10 f11 f12 f13 f14 f15 f16 f17 _ f19 f20) := m in
  Build_InputManager f1 f2 f3 f4 f5 f6 f7 f8 f9 f10 f11 f12 f13 f14 f15 f16 f17 v f19 f20.

Definition set_touchPoints (v : list TouchPoint) (m : InputManager) : InputManager :=
  let '(Build_InputManager f1 f2 f3 f4 f5 f6 f7 f8 f9 f10 f11 f12 f13 f14 f15 f16 f17 f18 _ f20) := m in
  Build_InputManager f1 f2 f3 f4 f5 f6 f7 f8 f9 f10 f11 f12 f13 f14 f15 f16 f17 f18 v f20.

Definition set_touchCommand (v : option CommandFunction) (m : InputManager) : InputManager :=
  let '(Build_InputManager f1 f2 f3 f4 f5 f6 f7 f8 f9 f10 f11 f12 f13 f14 f15 f16 f17 f18 f19 _) := m in
  Build_InputManager f1 f2 f3 f4 f5 f6 f7 f8 f9 f10 f11 f12 f13 f14 f15 f16 f17 f18 f19 v.

(** *** Lifecycle *)

(** [SDL_GameControllerOpen(int)]: a negative index opens nothing. *)
Definition open_index (sdl : Platform) (which : Z) : option Handle :=
  if which <? 0 then None else controller_open sdl (Z.to_nat which).

(** The loop of [init] over the joystick indices [i, i+1, ..., i+n-1].
    Every attempt assigns [m_gameController], so a failed open leaves it
    null; the index is assigned on success only, and success ends the loop. *)
Fixpoint init_scan (sdl : Platform) (i n : nat) (c : option Handle) (idx : Z)
    : option Handle * Z :=
  match n with
  | O => (c, idx)
  | S n' =>
      if is_game_controller sdl i then
        match controller_open sdl i with
        | Some h => (Some h, Z.of_nat i)
        | None => init_scan sdl (S i) n' None idx
        end
      else init_scan sdl (S i) n' c idx
  end.

(** [InputManager::init]. *)
Definition init (sdl : Platform) (m : InputManager) : InputManager * bool :=
  if negb (was_init_gamecontroller sdl) && negb (init_subsystem_ok sdl) then (m, false)
  else
    let m1 := set_currentKeyboardState (SDL_GetKeyboardState sdl) m in
    let r := init_scan sdl 0 (num_joysticks sdl) (m_gameController m1) (m_gameControllerIndex m1) in
    (set_gameController (fst r) (snd r) m1, true).

(** [InputManager::shutdown]. *)
Definition shutdown (m : InputManager) : InputManager :=
  match m_gameController m with
  | Some _ => set_gameController None (m_gameControllerIndex m) m
  | None => m
  end.

(** *** Binding *)

Definition bindKeyCommand (key : Z) (command : CommandFunction) (m : InputManager) : InputManager :=
  set_keyCommands (<[key := command]> (m_keyCommands m)) m.

Definition bindMouseCommand (button : Z) (command : CommandFunction) (m : InputManager) : InputManager :=
  set_mouseCommands (<[button := command]> (m_mouseCommands m)) m.

Definition bindGamepadButtonCommand (button : GamepadButton.t) (command : CommandFunction)
    (m : InputManager) : InputManager :=
  set_gamepadButtonCommands (<[button := command]> (m_gamepadButtonCommands m)) m.

Definition bindGamepadAxisCommand (axis : GamepadAxis.t) (command : CommandFunction) (deadzone : Q)
    (m : InputManager) : InputManager :=
  set_gamepadAxisCommands (<[axis := (command, deadzone)]> (m_gamepadAxisCommands m)) m.

(** The default argument of the declaration: [float deadzone = 0.25f]. *)
Definition default_deadzone : Q := (25 # 100)%Q.

Definition bindGamepadAxisCommand_default (axis : GamepadAxis.t) (command : CommandFunction)
    (m : InputManager) : InputManager :=
  bindGamepadAxisCommand axis command default_deadzone m.

Definition bindTouchCommand (command : option CommandFunction) (m : InputManager) : InputManager :=
  set_touchCommand command m.

(** *** Queries.  A keyboard query reads through [m_currentKeyboardState]
    with no guard: the result is [None] when that read is through the null
    pointer. *)

Definition isKeyDown (sdl : Platform) (m : InputManager) (key : Z) : option bool :=
  let scancode := scancode_from_key sdl key in
  v ← read_key sdl (m_currentKeyboardState m) scancode;
  Some (negb (v =? 0)).

Definition isKeyPressed (sdl : Platform) (m : InputManager) (key : Z) : option bool :=
  let scancode := scancode_from_key sdl key in
  let prevState := default false (m_previousKeyState m !! key) in
  v ← read_key sdl (m_currentKeyboardState m) scancode;
  Some (negb (v =? 0) && negb prevState).

Definition isKeyReleased (sdl : Platform) (m : InputManager) (key : Z) : option bool :=
  let scancode := scancode_from_key sdl key in
  let prevState := default false (m_previousKeyState m !! key) in
  v ← read_key sdl (m_currentKeyboardState m) scancode;
  Some ((v =? 0) && prevState).

Definition isMouseButtonDown (m : InputManager) (button : Z) : bool :=
  negb (Z.land (m_currentMouseState m) (SDL_BUTTON button) =? 0).

Definition isMouseButtonPressed (m : InputManager) (button : Z) : bool :=
  negb (Z.land (m_currentMouseState m) (SDL_BUTTON button) =? 0)
  && (Z.land (m_previousMouseState m) (SDL_BUTTON button) =? 0).

Definition isMouseButtonReleased (m : InputManager) (button : Z) : bool :=
  (Z.land (m_currentMouseState m) (SDL_BUTTON button) =? 0)
  && negb (Z.land (m_previousMouseState m) (SDL_BUTTON button) =? 0).

Definition isGamepadButtonDown (m : InputManager) (button : GamepadButton.t) : bool :=
  default false (m_currentGamepadButtonState m !! button).

Definition isGamepadButtonPressed (m : InputManager) (button : GamepadButton.t) : bool :=
  let currState := default false (m_currentGamepadButtonState m !! button) in
  let prevState := default false (m_previousGamepadButtonState m !! button) in
  currState && negb prevState.

Definition isGamepadButtonReleased (m : InputManager) (button : GamepadButton.t) : bool :=
  let currState := default false (m_currentGamepadButtonState m !! button) in
  let prevState := default false (m_previousGamepadButtonState m !! button) in
  negb currState && prevState.

Definition getGamepadAxisValue (m : InputManager) (axis : GamepadAxis.t) : Q :=
  default 0%Q (m_gamepadAxisValues m !! axis).

Definition getTouchPoints (m : InputManager) : list TouchPoint := m_touchPoints m.

Definition isTouchActive (m : InputManager) : bool :=
  match m_touchPoints m with [] => false | _ => true end.

Definition getActiveInputMethod (m : InputManager) : InputType.t := m_activeInputMethod m.

(** *** Per-frame state refresh *)

(** One turn of the loop of [updateKeyboardState]. *)
Definition store_key (sdl : Platform) (ptr : option KeyArray)
    (acc : option (gmap Z bool)) (i : nat) : option (gmap Z bool) :=
  prev ← acc;
  let key := key_from_scancode sdl i in
  if key =? SDLK_UNKNOWN then Some prev
  else
    v ← read_key sdl ptr i;
    Some (<[key := negb (v =? 0)]> prev).

Definition updateKeyboardState (sdl : Platform) (m : InputManager) : option InputManager :=
  prev ← fold_left (store_key sdl (m_currentKeyboardState m))
                    (seq 0 SDL_NUM_SCANCODES) (Some (m_previousKeyState m));
  Some (set_previousKeyState prev m).

Definition updateMouseState (sdl : Platform) (m : InputManager) : InputManager :=
  set_mouseState (mouse_buttons sdl) (m_currentMouseState m) (mouse_x sdl) (mouse_y sdl) m.

Definition store_button (sdl : Platform) (h : Handle)
    (cur : gmap GamepadButton.t bool) (i : nat) : gmap GamepadButton.t bool :=
  let button := sdlButtonToGamepadButton i in
  if decide (button = GamepadButton.NONE) then cur
  else <[button := negb (controller_button sdl h i =? 0)]> cur.

Definition store_axis (sdl : Platform) (h : Handle)
    (vals : gmap GamepadAxis.t Q) (i : nat) : gmap GamepadAxis.t Q :=
  let axis := sdlAxisToGamepadAxis i in
  if decide (axis = GamepadAxis.NONE) then vals
  else <[axis := (inject_Z (controller_axis sdl h i) / 32767)%Q]> vals.

Definition updateGamepadState (sdl : Platform) (m : InputManager) : InputManager :=
  match m_gameController m with
  | Some h =>
      set_gamepadState
        (fold_left (store_button sdl h) (seq 0 SDL_CONTROLLER_BUTTON_MAX)
                   (m_currentGamepadButtonState m))
        (m_currentGamepadButtonState m)
        (fold_left (store_axis sdl h) (seq 0 SDL_CONTROLLER_AXIS_MAX)
                   (m_gamepadAxisValues m))
        m
  | None => m
  end.

(** *** Dispatch.  Each loop of [update] is split in two: the calls it
    makes, in its iteration order, and their execution.  A callback sees the
    game only, so the split does not change what runs.  The tables are
    [std::unordered_map]s, whose iteration order is unspecified; the model
    iterates in the order of [map_to_list], and no property below depends on
    that order. *)

Inductive PhysicalInput :=
| KeyboardKey (key : Z)
| MouseButton (button : Z)
| GamepadButtonInput (button : GamepadButton.t)
| GamepadAxisInput (axis : GamepadAxis.t)
| TouchGesture.

Definition category (p : PhysicalInput) : InputType.t :=
  match p with
  | KeyboardKey _ => InputType.KEYBOARD
  | MouseButton _ => InputType.MOUSE
  | GamepadButtonInput _ | GamepadAxisInput _ => InputType.GAMEPAD
  | TouchGesture => InputType.TOUCHSCREEN
  end.

Record Invocation := {
  inv_input : PhysicalInput;
  inv_command : CommandFunction;
  inv_arg : Q
}.

Fixpoint key_calls (sdl : Platform) (m : InputManager) (deltaTime : Q)
    (l : list (Z * CommandFunction)) : option (list Invocation) :=
  match l with
  | [] => Some []
  | (key, command) :: l' =>
      down ← isKeyDown sdl m key;
      rest ← key_calls sdl m deltaTime l';
      Some (if down : bool
            then Build_Invocation (KeyboardKey key) command deltaTime :: rest
            else rest)
  end.

Fixpoint mouse_calls (m : InputManager) (deltaTime : Q)
    (l : list (Z * CommandFunction)) : list Invocation :=
  match l with
  | [] => []
  | (button, command) :: l' =>
      if isMouseButtonDown m button
      then Build_Invocation (MouseButton button) command deltaTime :: mouse_calls m deltaTime l'
      else mouse_calls m deltaTime l'
  end.

Fixpoint button_calls (m : InputManager) (deltaTime : Q)
    (l : list (GamepadButton.t * CommandFunction)) : list Invocation :=
  match l with
  | [] => []
  | (button, command) :: l' =>
      if isGamepadButtonDown m button
      then Build_Invocation (GamepadButtonInput button) command deltaTime
             :: button_calls m deltaTime l'
      else button_calls m deltaTime l'
  end.

Fixpoint axis_calls (m : InputManager)
    (l : list (GamepadAxis.t * (CommandFunction * Q))) : list Invocation :=
  match l with
  | [] => []
  | (axis, data) :: l' =>
      let value := getGamepadAxisValue m axis in
      let deadzone := snd data in
      if Qltb deadzone (Qabs value)
      then Build_Invocation (GamepadAxisInput axis) (fst data) value :: axis_calls m l'
      else axis_calls m l'
  end.

Definition touch_calls (m : InputManager) (deltaTime : Q) : list Invocation :=
  match m_touchCommand m with
  | Some command =>
      if isTouchActive m then [Build_Invocation TouchGesture command deltaTime] else []
  | None => []
  end.

(** The calls of one [update], in the order of its five loops. *)
Definition dispatch (sdl : Platform) (m : InputManager) (deltaTime : Q) : option (list Invocation) :=
  keys ← key_calls sdl m deltaTime (map_to_list (m_keyCommands m));
  Some (keys
        ++ mouse_calls m deltaTime (map_to_list (m_mouseCommands m))
        ++ button_calls m deltaTime (map_to_list (m_gamepadButtonCommands m))
        ++ axis_calls m (map_to_list (m_gamepadAxisCommands m))
        ++ touch_calls m deltaTime).

(** Body of a dispatch loop for one call: note the device, run the
    callback. *)
Definition run_call (st : InputManager * Game) (c : Invocation) : InputManager * Game :=
  (set_activeInputMethod (category (inv_input c)) (fst st),
   inv_command c (snd st) (inv_arg c)).

(** [InputManager::update(deltaTime)]. *)
Definition update (sdl : Platform) (deltaTime : Q) (st : InputManager * Game)
    : option (InputManager * Game) :=
  m1 ← updateKeyboardState sdl (fst st);
  let m2 := updateMouseState sdl m1 in
  let m3 := updateGamepadState sdl m2 in
  calls ← dispatch sdl m3 deltaTime;
  Some (fold_left run_call calls (m3, snd st)).

(** *** Event handling *)

(** [SDL_FINGERDOWN]: replace the point with this id, if any. *)
Fixpoint replace_point (point : TouchPoint) (l : list TouchPoint) : option (list TouchPoint) :=
  match l with
  | [] => None
  | tp :: l' =>
      if id tp =? id point then Some (point :: l')
      else cons tp <$> replace_point point l'
  end.

Definition finger_down (point : TouchPoint) (l : list TouchPoint) : list TouchPoint :=
  match replace_point point l with
  | Some l' => l'
  | None => l ++ [point]
  end.

(** [SDL_FINGERUP]: erase every point with this id. *)
Fixpoint finger_up (fid : Z) (l : list TouchPoint) : list TouchPoint :=
  match l with
  | [] => []
  | tp :: l' => if id tp =? fid then finger_up fid l' else tp :: finger_up fid l'
  end.

(** [SDL_FINGERMOTION]: move the first point with this id. *)
Fixpoint finger_motion (fid : Z) (fx fy : Q) (l : list TouchPoint) : list TouchPoint :=
  match l with
  | [] => []
  | tp :: l' =>
      if id tp =? fid
      then {| id := id tp; x := fx; y := fy; pressed := pressed tp |} :: l'
      else tp :: finger_motion fid fx fy l'
  end.

(** [InputManager::processEvent]. *)
Definition processEvent (sdl : Platform) (event : SDL_Event) (m : InputManager) : InputManager :=
  match event with
  | SDL_KEYDOWN | SDL_KEYUP => set_activeInputMethod InputType.KEYBOARD m
  | SDL_MOUSEMOTION ex ey xrel yrel =>
      set_activeInputMethod InputType.MOUSE (set_mouseMotion ex ey xrel yrel m)
  | SDL_MOUSEBUTTONDOWN | SDL_MOUSEBUTTONUP => set_activeInputMethod InputType.MOUSE m
  | SDL_CONTROLLERDEVICEADDED which =>
      match m_gameController m with
      | None => set_gameController (open_index sdl which) which m
      | Some _ => m
      end
  | SDL_CONTROLLERDEVICEREMOVED which =>
      match m_gameController m with
      | Some _ =>
          if which =? m_gameControllerIndex m then
            match scan_controllers sdl with
            | Some (h, i) => set_gameController (Some h) (Z.of_nat i) m
            | None => set_gameController None (-1) m
            end
          else m
      | None => m
      end
  | SDL_CONTROLLERBUTTONDOWN | SDL_CONTROLLERBUTTONUP | SDL_CONTROLLERAXISMOTION =>
      set_activeInputMethod InputType.GAMEPAD m
  | SDL_FINGERDOWN fingerId fx fy =>
      let point := {| id := to_int32 fingerId; x := fx; y := fy; pressed := true |} in
      set_activeInputMethod InputType.TOUCHSCREEN
        (set_touchPoints (finger_down point (m_touchPoints m)) m)
  | SDL_FINGERUP fingerId _ _ =>
      set_activeInputMethod InputType.TOUCHSCREEN
        (set_touchPoints (finger_up (to_int32 fingerId) (m_touchPoints m)) m)
  | SDL_FINGERMOTION fingerId fx fy =>
      set_activeInputMethod InputType.TOUCHSCREEN
        (set_touchPoints (finger_motion (to_int32 fingerId) fx fy (m_touchPoints m)) m)
  | OtherEvent => m
  end.

(** *** Mouse position and motion delta (the out-parameters as a pair) *)

Definition getMousePosition (m : InputManager) : Z * Z := (m_mouseX m, m_mouseY m).

Definition getMouseDelta (m : InputManager) : Z * Z := (m_mouseDeltaX m, m_mouseDeltaY m).

End WithGame.

Arguments InputManager : clear implicits.
Arguments CommandFunction : clear implicits.
Arguments Invocation : clear implicits.

(** *** Display names *)

Definition getGamepadButtonName (button : GamepadButton.t) : string :=
  match button with
  | GamepadButton.A => "A"
  | GamepadButton.B => "B"
  | GamepadButton.X => "X"
  | GamepadButton.Y => "Y"
  | GamepadButton.BACK => "Back"
  | GamepadButton.GUIDE => "Guide"
  | GamepadButton.START => "Start"
  | GamepadButton.LEFTSTICK => "Left Stick"
  | GamepadButton.RIGHTSTICK => "Right Stick"
  | GamepadButton.LEFTSHOULDER => "Left Shoulder"
  | GamepadButton.RIGHTSHOULDER => "Right Shoulder"
  | GamepadButton.DPAD_UP => "D-Pad Up"
  | GamepadButton.DPAD_DOWN => "D-Pad Down"
  | GamepadButton.DPAD_LEFT => "D-Pad Left"
  | GamepadButton.DPAD_RIGHT => "D-Pad Right"
  | GamepadButton.MISC1 => "Misc"
  | GamepadButton.PADDLE1 => "Paddle 1"
  | GamepadButton.PADDLE2 => "Paddle 2"
  | GamepadButton.PADDLE3 => "Paddle 3"
  | GamepadButton.PADDLE4 => "Paddle 4"
  | GamepadButton.TOUCHPAD => "Touchpad"
  | GamepadButton.NONE => "Unknown"
  end%string.

Definition getGamepadAxisName (axis : GamepadAxis.t) : string :=
  match axis with
  | GamepadAxis.LEFTX => "Left X"
  | GamepadAxis.LEFTY => "Left Y"
  | GamepadAxis.RIGHTX => "Right X"
  | GamepadAxis.RIGHTY => "Right Y"
  | GamepadAxis.TRIGGERLEFT => "Left Trigger"
  | GamepadAxis.TRIGGERRIGHT => "Right Trigger"
  | GamepadAxis.NONE => "Unknown"
  end%string.

End Bindings.

(** ** The axis arithmetic in IEEE binary32 *)

Module Binary32.

(** binary32: 24 bits of precision, exponents below 128; every operation
    rounds to nearest, ties to even ([SpecFloat]). *)
Definition prec : Z := 24.
Definition emax : Z := 128.

Definition f32_mul : spec_float -> spec_float -> spec_float := SFmul prec emax.
Definition f32_div : spec_float -> spec_float -> spec_float := SFdiv prec emax.
Definition f32_sub : spec_float -> spec_float -> spec_float := SFsub prec emax.

(** [static_cast<float>] of an integer. *)
Definition f32_of_Z (z : Z) : spec_float := binary_normalize prec emax z 0 false.

Definition f32_zero : spec_float := S754_zero false.
Definition f32_one : spec_float := f32_of_Z 1.

(** The literal [0.15f]: the binary32 nearest to 15/100. *)
Definition deadzone : spec_float := f32_div (f32_of_Z 15) (f32_of_Z 100).

(** [1.0f / 32768.0f]. *)
Definition normalizeFactor : spec_float := f32_div f32_one (f32_of_Z 32768).

Definition normalize (raw : Z) : spec_float := f32_mul (f32_of_Z raw) normalizeFactor.

(** [GamepadInput::getAxisValue] after its guard. *)
Definition shape (normalizedValue : spec_float) : spec_float :=
  if SFltb (SFabs normalizedValue) deadzone then f32_zero
  else
    let sign := if SFltb f32_zero normalizedValue then f32_one else SFopp f32_one in
    f32_div (f32_mul sign (f32_sub (SFabs normalizedValue) deadzone)) (f32_sub f32_one deadzone).

Definition delegation_axis (raw : Z) : spec_float := shape (normalize raw).

(** [updateGamepadState]: the reading divided by [32767.0f]. *)
Definition binding_table_axis (raw : Z) : spec_float := f32_div (f32_of_Z raw) (f32_of_Z 32767).

(** The rational a binary32 value stands for (0 for the non-finite ones). *)
Definition to_Q (f : spec_float) : Q :=
  match f with
  | S754_finite s m e =>
      let z := if s then Z.neg m else Z.pos m in
      if 0 <=? e then inject_Z (z * 2 ^ e) else (z # Pos.pow 2 (Z.to_pos (- e)))%Q
  | _ => 0%Q
  end.

Definition is_zero (f : spec_float) : bool :=
  match f with S754_zero _ => true | _ => false end.

Definition is_finite (f : spec_float) : bool :=
  match f with S754_zero _ | S754_finite _ _ _ => true | _ => false end.

End Binary32.

(** * Auxiliary definitions for the properties *)

(** ** Concrete platforms *)

(** A US-layout excerpt of SDL's default keymap: scancodes 4..29 are the
    letters [a]..[z]. *)
Definition letters_key_from_scancode (i : nat) : Z :=
  if ((4 <=? i) && (i <=? 29))%nat then 97 + (Z.of_nat i - 4) else SDLK_UNKNOWN.

Definition letters_scancode_from_key (key : Z) : nat :=
  if (97 <=? key) && (key <=? 122) then Z.to_nat (key - 93) else 0%nat.

(** SDL initialised, nothing pressed, no joystick. *)
Definition quiet : Platform :=
  {| was_init_gamecontroller := true;
     init_subsystem_ok := true;
     init_ok := true;
     steam_deck_env := false;
     keystate := fun _ => 0;
     key_from_scancode := letters_key_from_scancode;
     scancode_from_key := letters_scancode_from_key;
     mouse_buttons := 0;
     mouse_x := 0;
     mouse_y := 0;
     num_joysticks := 0;
     is_game_controller := fun _ => false;
     controller_open := fun _ => None;
     controller_attached := fun _ => false;
     controller_button := fun _ _ => 0;
     controller_axis := fun _ _ => 0 |}.

(** [quiet] with the key array [ks]. *)
Definition with_keys (ks : nat -> Z) : Platform :=
  {| was_init_gamecontroller := true;
     init_subsystem_ok := true;
     init_ok := true;
     steam_deck_env := false;
     keystate := ks;
     key_from_scancode := letters_key_from_scancode;
     scancode_from_key := letters_scancode_from_key;
     mouse_buttons := 0;
     mouse_x := 0;
     mouse_y := 0;
     num_joysticks := 0;
     is_game_controller := fun _ => false;
     controller_open := fun _ => None;
     controller_attached := fun _ => false;
     controller_button := fun _ _ => 0;
     controller_axis := fun _ _ => 0 |}.

(** One joystick at device index 0, a game controller that opens as handle
    [h] and is attached; its buttons and axes read [buttons] and [axes]. *)
Definition with_pad (h : Handle) (buttons axes : nat -> Z) : Platform :=
  {| was_init_gamecontroller := true;
     init_subsystem_ok := true;
     init_ok := true;
     steam_deck_env := false;
     keystate := fun _ => 0;
     key_from_scancode := letters_key_from_scancode;
     scancode_from_key := letters_scancode_from_key;
     mouse_buttons := 0;
     mouse_x := 0;
     mouse_y := 0;
     num_joysticks := 1;
     is_game_controller := fun i => (i =? 0)%nat;
     controller_open := fun i => if (i =? 0)%nat then Some h else None;
     controller_attached := fun h' => (h' =? h)%nat;
     controller_button := fun h' i => if (h' =? h)%nat then buttons i else 0;
     controller_axis := fun h' i => if (h' =? h)%nat then axes i else 0 |}.

(** Only index [i] reads [v]. *)
Definition only (i : nat) (v : Z) : nat -> Z := fun j => if (j =? i)%nat then v else 0.

(** ** The deadzone formula of the specification *)

(** The formula as the specification words it:
    [sign(v) * max(0, |v| - deadzone) / (1 - deadzone)]. *)
Definition sign_spec (v : Q) : Q :=
  if Qltb 0 v then 1%Q else if Qltb v 0 then (-1)%Q else 0%Q.

Definition shaped_spec (deadzone v : Q) : Q :=
  (sign_spec v * Qmax 0 (Qabs v - deadzone) / (1 - deadzone))%Q.

(** ** Views of a dispatch *)

#[global] Instance PhysicalInput_eq_dec : EqDecision Bindings.PhysicalInput.
Proof. solve_decision. Defined.

(** The calls a dispatch makes for one physical input. *)
Definition calls_for {Game : Type} (p : Bindings.PhysicalInput)
    (calls : list (Bindings.Invocation Game)) : list (Bindings.Invocation Game) :=
  filter (fun c => Bindings.inv_input c = p) calls.

(** The common shape of the four table loops: one optional call per entry. *)
Definition table_calls {Game K V : Type} (test : K -> V -> bool)
    (mk : K -> V -> Bindings.Invocation Game) (l : list (K * V)) : list (Bindings.Invocation Game) :=
  flat_map (fun kv => if test (fst kv) (snd kv) then [mk (fst kv) (snd kv)] else []) l.

(** The state [update] dispatches on: the snapshots after the three
    refreshes. *)
Definition refreshed {Game : Type} (sdl : Platform) (m : Bindings.InputManager Game)
    : option (Bindings.InputManager Game) :=
  m1 ← Bindings.updateKeyboardState sdl m;
  Some (Bindings.updateGamepadState sdl (Bindings.updateMouseState sdl m1)).

(** ** Scenarios *)

(** The counter-increment callback; the game is the counter. *)
Definition increment : Bindings.CommandFunction Z := fun counter _ => counter + 1.

(** A pad opened as handle 7 with button A held, then released. *)
Definition pad_A_held : Platform := with_pad 7%nat (only 0 1) (fun _ => 0).
Definition pad_A_released : Platform := with_pad 7%nat (fun _ => 0) (fun _ => 0).

(** Consecutive frames, one [update] each, with [deltaTime] 1/60. *)
Definition run_frames {Game : Type} (frames : list Platform)
    (st : Bindings.InputManager Game * Game) : option (Bindings.InputManager Game * Game) :=
  fold_left (fun acc sdl => st' ← acc; Bindings.update sdl (1 # 60)%Q st') frames (Some st).

Definition counter_manager : Bindings.InputManager Z :=
  Bindings.bindGamepadButtonCommand Bindings.GamepadButton.A increment
    (fst (Bindings.init pad_A_released Bindings.InputManager_new)).

(** A pad opened as handle 7 whose left stick X axis reads [raw]. *)
Definition stick_frame (raw : Z) : Platform := with_pad 7%nat (fun _ => 0) (only 0 raw).

(** A callback that stores its payload; the game is the last payload. *)
Definition record_payload : Bindings.CommandFunction Q := fun _ value => value.

(** Left stick X bound with the default deadzone. *)
Definition stick_manager : Bindings.InputManager Q :=
  Bindings.bindGamepadAxisCommand_default Bindings.GamepadAxis.LEFTX record_payload
    (fst (Bindings.init (stick_frame 0) Bindings.InputManager_new)).

(** A pad opened as handle 7 with button A held and the left stick X axis
    at 20000. *)
Definition pad_A_and_stick : Platform := with_pad 7%nat (only 0 1) (only 0 20000).

(** [init] with the pad connected, one frame with A held, the pad's removal
    event handled when no joystick is left, one more frame. *)
Definition after_disconnect : option (Bindings.InputManager unit * unit) :=
  st1 ← Bindings.update pad_A_and_stick (1 # 60)%Q
          (fst (Bindings.init pad_A_and_stick Bindings.InputManager_new), tt);
  Bindings.update quiet (1 # 60)%Q
    (Bindings.processEvent quiet (SDL_CONTROLLERDEVICEREMOVED 0) (fst st1), snd st1).

(** ** Touch points *)

(** The ids of the points, in order. *)
Definition ids (l : list Bindings.TouchPoint) : list Z := map Bindings.id l.

(** A point moved to [(fx, fy)]. *)
Definition moved (fx fy : Q) (tp : Bindings.TouchPoint) : Bindings.TouchPoint :=
  {| Bindings.id := Bindings.id tp; Bindings.x := fx; Bindings.y := fy;
     Bindings.pressed := Bindings.pressed tp |}.

(** Events handled in order, each with the platform of its time. *)
Definition process_events {Game : Type} (events : list (Platform * SDL_Event))
    (m : Bindings.InputManager Game) : Bindings.InputManager Game :=
  fold_left (fun acc pe => Bindings.processEvent (fst pe) (snd pe) acc) events m.

(** ** Hotplug scenario *)


(** Handle 1 is gone; the joystick now at index 0 opens as handle 2 and
    holds button B. *)
Definition replacement_frame : Platform := with_pad 2%nat (only 1 1) (only 0 20000).

(** ** The two designs on one axis reading *)

(** What each design answers for the left stick X axis after its first
    frame with the pad of [stick_frame raw]. *)
Definition binding_table_axis (raw : Z) : option Q :=
  (fun st => Bindings.getGamepadAxisValue (fst st) Bindings.GamepadAxis.LEFTX)
    <$> Bindings.update (stick_frame raw) (1 # 60)%Q (stick_manager, 0%Q).

Definition delegation_axis (raw : Z) : Q :=
  Devices.getGamepadAxisValue
    (Devices.update (stick_frame raw) []
       (fst (Devices.initialize (stick_frame raw) Devices.InputManager_new)))
    0%nat.

(** The calls of the binding-table manager in that frame. *)
Definition binding_table_calls (raw : Z) : option (list (Bindings.Invocation Q)) :=
  m3 ← refreshed (stick_frame raw) stick_manager;
  Bindings.dispatch (stick_frame raw) m3 (1 # 60)%Q.

(** ** The API of the binding-table manager as a transition system *)

(** The calls an application can make on the binding-table manager. *)
Inductive Call {Game : Type} :=
| CallInit (sdl : Platform)
| CallShutdown
| CallUpdate (sdl : Platform) (deltaTime : Q)
| CallProcessEvent (sdl : Platform) (event : SDL_Event)
| CallBindKey (key : Z) (command : Bindings.CommandFunction Game)
| CallBindMouse (button : Z) (command : Bindings.CommandFunction Game)
| CallBindGamepadButton (button : Bindings.GamepadButton.t) (command : Bindings.CommandFunction Game)
| CallBindGamepadAxis (axis : Bindings.GamepadAxis.t) (command : Bindings.CommandFunction Game)
    (deadzone : Q)
| CallBindTouch (command : option (Bindings.CommandFunction Game)).
Arguments Call : clear implicits.

Definition is_init {Game : Type} (c : Call Game) : bool :=
  match c with CallInit _ => true | _ => false end.

(** One call; [None] when it reads through the null keyboard pointer. *)
Definition call_step {Game : Type} (c : Call Game) (st : Bindings.InputManager Game * Game)
    : option (Bindings.InputManager Game * Game) :=
  match c with
  | CallInit sdl => Some (fst (Bindings.init sdl (fst st)), snd st)
  | CallShutdown => Some (Bindings.shutdown (fst st), snd st)
  | CallUpdate sdl dt => Bindings.update sdl dt st
  | CallProcessEvent sdl e => Some (Bindings.processEvent sdl e (fst st), snd st)
  | CallBindKey key c => Some (Bindings.bindKeyCommand key c (fst st), snd st)
  | CallBindMouse button c => Some (Bindings.bindMouseCommand button c (fst st), snd st)
  | CallBindGamepadButton button c =>
      Some (Bindings.bindGamepadButtonCommand button c (fst st), snd st)
  | CallBindGamepadAxis axis c dz =>
      Some (Bindings.bindGamepadAxisCommand axis c dz (fst st), snd st)
  | CallBindTouch c => Some (Bindings.bindTouchCommand c (fst st), snd st)
  end.

Definition run_calls {Game : Type} (calls : list (Call Game))
    (st : Bindings.InputManager Game * Game) : option (Bindings.InputManager Game * Game) :=
  fold_left (fun acc c => st' ← acc; call_step c st') calls (Some st).

(** ** Checks of the binary32 arithmetic against the rational one *)

(** What is checked on the binary32 result [f] of one raw reading. *)
Definition point_check (raw : Z) (f : spec_float) : bool :=
  let exact := Devices.shape Devices.deadzone (Devices.normalize raw) in
  Binary32.is_finite f
  && Qle_bool (Qabs (Binary32.to_Q f - exact)) (1 # 16777216)
  && Qle_bool (Qabs (Binary32.to_Q f)) 1
  && Bool.eqb (Binary32.is_zero f) (Qeq_bool exact 0).

(** What is checked on the results [f], [f'] of two consecutive readings. *)
Definition step_check (f f' : spec_float) : bool :=
  SFleb f f' && (SFltb f f' || (Binary32.is_zero f && Binary32.is_zero f')).

(** Both checks on [raw, raw+1, ..., raw+n-1], each result computed once;
    [f] is the result for [raw]. *)
Fixpoint axis_check_from (n : nat) (raw : Z) (f : spec_float) : bool :=
  match n with
  | O => true
  | S n' =>
      let f' := Binary32.delegation_axis (raw + 1) in
      point_check raw f && step_check f f' && axis_check_from n' (raw + 1) f'
  end.

(** ** Views of the binding-table manager *)

(** The five binding tables. *)
Definition tables {Game : Type} (m : Bindings.InputManager Game) :=
  (Bindings.m_keyCommands m, Bindings.m_mouseCommands m, Bindings.m_gamepadButtonCommands m,
   Bindings.m_gamepadAxisCommands m, Bindings.m_touchCommand m).

(** The gamepad snapshots. *)
Definition gamepad_snapshot {Game : Type} (m : Bindings.InputManager Game) :=
  (Bindings.m_currentGamepadButtonState m, Bindings.m_previousGamepadButtonState m,
   Bindings.m_gamepadAxisValues m).

Definition is_bind {Game : Type} (c : Call Game) : bool :=
  match c with
  | CallBindKey _ _ | CallBindMouse _ _ | CallBindGamepadButton _ _
  | CallBindGamepadAxis _ _ _ | CallBindTouch _ => true
  | _ => false
  end.

Definition is_update {Game : Type} (c : Call Game) : bool :=
  match c with CallUpdate _ _ => true | _ => false end.

(** The buttons of the enumeration that no SDL index is translated to. *)
Definition untranslated_buttons : list Bindings.GamepadButton.t :=
  [Bindings.GamepadButton.PADDLE1; Bindings.GamepadButton.PADDLE2;
   Bindings.GamepadButton.PADDLE3; Bindings.GamepadButton.PADDLE4;
   Bindings.GamepadButton.TOUCHPAD; Bindings.GamepadButton.NONE].

(** No gamepad snapshot holds an entry for an untranslated button or for
    the axis [NONE]. *)
Definition untranslated_clear {Game : Type} (m : Bindings.InputManager Game) : Prop :=
  (forall b, (16 <= Bindings.GamepadButton.to_nat b)%nat ->
     Bindings.m_currentGamepadButtonState m !! b = None /\
     Bindings.m_previousGamepadButtonState m !! b = None) /\
  Bindings.m_gamepadAxisValues m !! Bindings.GamepadAxis.NONE = None.

(** The calls [update] makes for one physical input, read off its binding
    and the snapshot. *)
Definition expected_calls {Game : Type} (sdl : Platform) (m : Bindings.InputManager Game)
    (dt : Q) (p : Bindings.PhysicalInput) : list (Bindings.Invocation Game) :=
  match p with
  | Bindings.KeyboardKey key =>
      match Bindings.m_keyCommands m !! key with
      | Some c =>
          if negb (keystate sdl (scancode_from_key sdl key) =? 0)
          then [Bindings.Build_Invocation p c dt] else []
      | None => []
      end
  | Bindings.MouseButton button =>
      match Bindings.m_mouseCommands m !! button with
      | Some c => if Bindings.isMouseButtonDown m button
                  then [Bindings.Build_Invocation p c dt] else []
      | None => []
      end
  | Bindings.GamepadButtonInput button =>
      match Bindings.m_gamepadButtonCommands m !! button with
      | Some c => if Bindings.isGamepadButtonDown m button
                  then [Bindings.Build_Invocation p c dt] else []
      | None => []
      end
  | Bindings.GamepadAxisInput axis =>
      match Bindings.m_gamepadAxisCommands m !! axis with
      | Some (c, dz) =>
          if Qltb dz (Qabs (Bindings.getGamepadAxisValue m axis))
          then [Bindings.Build_Invocation p c (Bindings.getGamepadAxisValue m axis)] else []
      | None => []
      end
  | Bindings.TouchGesture =>
      match Bindings.m_touchCommand m with
      | Some c => if Bindings.isTouchActive m then [Bindings.Build_Invocation p c dt] else []
      | None => []
      end
  end.

(** ** Frames of the delegation manager *)

(** Controller attach and detach events. *)
Definition is_hotplug (e : SDL_Event) : bool :=
  match e with
  | SDL_CONTROLLERDEVICEADDED _ | SDL_CONTROLLERDEVICEREMOVED _ => true
  | _ => false
  end.

(** Consecutive [InputManager::update]s, each with what SDL reports and the
    events in its queue. *)
Definition run_updates (frames : list (Platform * list SDL_Event)) (m : Devices.InputManager)
    : Devices.InputManager :=
  fold_left (fun acc f => Devices.update (fst f) (snd f) acc) frames m.

(** A Steam Deck: [with_pad] with the environment variable set. *)
Definition steam_deck_pad (h : Handle) (buttons axes : nat -> Z) : Platform :=
  {| was_init_gamecontroller := true;
     init_subsystem_ok := true;
     init_ok := true;
     steam_deck_env := true;
     keystate := fun _ => 0;
     key_from_scancode := letters_key_from_scancode;
     scancode_from_key := letters_scancode_from_key;
     mouse_buttons := 0;
     mouse_x := 0;
     mouse_y := 0;
     num_joysticks := 1;
     is_game_controller := fun i => (i =? 0)%nat;
     controller_open := fun i => if (i =? 0)%nat then Some h else None;
     controller_attached := fun h' => (h' =? h)%nat;
     controller_button := fun h' i => if (h' =? h)%nat then buttons i else 0;
     controller_axis := fun h' i => if (h' =? h)%nat then axes i else 0 |}.

(** ** The effect of a dispatch on the game *)

(** Each callback applied to the game with its argument, in the order of
    the calls. *)
Definition apply_calls {Game : Type} (calls : list (Bindings.Invocation Game)) (g : Game) : Game :=
  fold_left (fun acc c => Bindings.inv_command c acc (Bindings.inv_arg c)) calls g.

(** A manager with no binding at all. *)
Definition unbound {Game : Type} (m : Bindings.InputManager Game) : Prop :=
  Bindings.m_keyCommands m = ∅ /\ Bindings.m_mouseCommands m = ∅ /\
  Bindings.m_gamepadButtonCommands m = ∅ /\ Bindings.m_gamepadAxisCommands m = ∅ /\
  Bindings.m_touchCommand m = None.


(** The counter scenario through a disconnect: one frame with A held, the
    pad's removal event handled when no joystick is left, one more frame with
    nothing connected. *)
Definition counter_after_disconnect : option (Bindings.InputManager Z * Z) :=
  st1 ← Bindings.update pad_A_held (1 # 60)%Q (counter_manager, 0);
  Bindings.update quiet (1 # 60)%Q
    (Bindings.processEvent quiet (SDL_CONTROLLERDEVICEREMOVED 0) (fst st1), snd st1).

(** ** The axis comparison of the dispatch in binary32 *)

(** The literal [0.25f], the default deadzone of a bind. *)
Definition default_deadzone32 : spec_float :=
  Binary32.f32_div (Binary32.f32_of_Z 25) (Binary32.f32_of_Z 100).

(** [std::abs(value) > deadzone] on the stored quotient of a reading. *)
Definition axis_fires32 (dz : spec_float) (raw : Z) : bool :=
  SFltb dz (SFabs (Binary32.binding_table_axis raw)).

(** What is checked on the binary32 quotient of one raw reading. *)
Definition quotient_check (raw : Z) : bool :=
  let f := Binary32.binding_table_axis raw in
  let exact := (inject_Z raw / 32767)%Q in
  Binary32.is_finite f
  && Qle_bool (Qabs (Binary32.to_Q f - exact)) (1 # 16777216)
  && Bool.eqb (axis_fires32 default_deadzone32 raw)
       (Qltb Bindings.default_deadzone (Qabs exact)).

(** The check on [raw, raw+1, ..., raw+n-1]. *)
Fixpoint quotient_check_from (n : nat) (raw : Z) : bool :=
  match n with
  | O => true
  | S n' => quotient_check raw && quotient_check_from n' (raw + 1)
  end.

(** A binary32 deadzone just below 0.3: the float [0x3e999933]. *)
Definition close_deadzone32 : spec_float := S754_finite false 10066227 (-25).

(** ** A controller that cannot be opened *)

(** One joystick at device index 0 that is a game controller and whose
    [SDL_GameControllerOpen] fails. *)
Definition pad_unopenable : Platform :=
  {| was_init_gamecontroller := true;
     init_subsystem_ok := true;
     init_ok := true;
     steam_deck_env := false;
     keystate := fun _ => 0;
     key_from_scancode := letters_key_from_scancode;
     scancode_from_key := letters_scancode_from_key;
     mouse_buttons := 0;
     mouse_x := 0;
     mouse_y := 0;
     num_joysticks := 1;
     is_game_controller := fun i => (i =? 0)%nat;
     controller_open := fun _ => None;
     controller_attached := fun _ => false;
     controller_button := fun _ _ => 0;
     controller_axis := fun _ _ => 0 |}.

(** * Properties *)

Lemma Qltb_lt (x y : Q) : Qltb x y = true <-> (x < y)%Q.
Proof.
  unfold Qltb. rewrite negb_true_iff. split.
  - intros H. apply Qnot_le_lt. intros Hle. apply Qle_bool_iff in Hle. congruence.
  - intros H. destruct (Qle_bool y x) eqn:E; [|reflexivity].
    apply Qle_bool_iff in E. exfalso. apply (Qlt_not_le _ _ H E).
Qed.

Lemma Qltb_ge (x y : Q) : Qltb x y = false <-> (y <= x)%Q.
Proof.
  unfold Qltb. rewrite negb_false_iff. apply Qle_bool_iff.
Qed.

(** ** Edge detection *)

Lemma memcpy_keys_nth (sdl : Platform) (key : nat) :
  (key < SDL_NUM_SCANCODES)%nat -> nth key (Devices.memcpy_keys sdl) 0 = keystate sdl key.
Proof.
  intros H. unfold Devices.memcpy_keys.
  rewrite (nth_indep _ 0 (keystate sdl 0%nat)) by (rewrite length_map, length_seq; exact H).
  rewrite map_nth, seq_nth by exact H. reflexivity.
Qed.

(** After [KeyboardInput::update] the previous array equals the array the
    pointer reads, so no in-range key is ever reported as just pressed. *)
Lemma KeyboardInput_update_no_edge (sdl : Platform) (k : Devices.KeyboardInput) (key : nat) :
  (key < SDL_NUM_SCANCODES)%nat ->
  Devices.KeyboardInput_isKeyJustPressed sdl (Devices.KeyboardInput_update sdl k) key = false.
Proof.
  intros H. unfold Devices.KeyboardInput_isKeyJustPressed, Devices.KeyboardInput_update.
  cbn [Devices.KeyboardInput_isAvailable Devices.keyboardState Devices.previousKeyboardState
       SDL_GetKeyboardState read_key negb].
  rewrite memcpy_keys_nth by exact H.
  destruct (Z.eqb_spec (keystate sdl key) 1) as [->|]; reflexivity.
Qed.

(** The sibling devices copy current to previous before the refresh, and
    detect the edge. *)
Lemma MouseInput_update_edge (sdl : Platform) (m : Devices.MouseInput) (button : Z) :
  Devices.MouseInput_isButtonJustPressed (Devices.MouseInput_update sdl m) button
  = negb (Z.land (mouse_buttons sdl) (SDL_BUTTON button) =? 0)
    && (Z.land (Devices.mouseState m) (SDL_BUTTON button) =? 0).
Proof. reflexivity. Qed.

Lemma read_buttons_nth (sdl : Platform) (h : Handle) (button : nat) :
  (button < SDL_CONTROLLER_BUTTON_MAX)%nat ->
  nth button (Devices.read_buttons sdl h) false = (controller_button sdl h button =? 1).
Proof.
  intros H. unfold Devices.read_buttons.
  rewrite (nth_indep _ false ((fun i => controller_button sdl h i =? 1) 0%nat))
    by (rewrite length_map, length_seq; exact H).
  rewrite (map_nth (fun i => controller_button sdl h i =? 1)), seq_nth by exact H.
  reflexivity.
Qed.

Lemma read_axes_nth (sdl : Platform) (h : Handle) (axis : nat) :
  (axis < SDL_CONTROLLER_AXIS_MAX)%nat ->
  nth axis (Devices.read_axes sdl h) 0 = controller_axis sdl h axis.
Proof.
  intros H. unfold Devices.read_axes.
  rewrite (nth_indep _ 0 (controller_axis sdl h 0%nat))
    by (rewrite length_map, length_seq; exact H).
  rewrite map_nth, seq_nth by exact H. reflexivity.
Qed.

Lemma GamepadInput_update_edge (sdl : Platform) (g : Devices.GamepadInput) (h : Handle) (button : nat) :
  Devices.controller g = Some h ->
  controller_attached sdl h = true ->
  (button < SDL_CONTROLLER_BUTTON_MAX)%nat ->
  Devices.GamepadInput_isButtonJustPressed (Devices.GamepadInput_update sdl g) button
  = (controller_button sdl h button =? 1) && negb (nth button (Devices.currentButtonStates g) false).
Proof.
  intros Hc Ha Hb.
  unfold Devices.GamepadInput_isButtonJustPressed, Devices.GamepadInput_update.
  rewrite Hc, Ha. cbn [negb Devices.GamepadInput_isAvailable Devices.controller
    Devices.currentButtonStates Devices.previousButtonStates orb].
  apply Nat.leb_gt in Hb. rewrite Hb.
  apply Nat.leb_gt in Hb. rewrite read_buttons_nth by exact Hb. reflexivity.
Qed.

(** On the mouse and the gamepad the property holds as specified: an input
    down on the first frame a fresh device observes it is reported as just
    pressed on that frame, and not on the next frame if it is still down. *)
Lemma MouseInput_first_press (sdl1 sdl2 : Platform) (button : Z) :
  Z.land (mouse_buttons sdl1) (SDL_BUTTON button) <> 0 ->
  Z.land (mouse_buttons sdl2) (SDL_BUTTON button) <> 0 ->
  let m1 := Devices.MouseInput_update sdl1 Devices.MouseInput_new in
  Devices.MouseInput_isButtonJustPressed m1 button = true /\
  Devices.MouseInput_isButtonJustPressed (Devices.MouseInput_update sdl2 m1) button = false.
Proof.
  intros H1 H2 m1. subst m1. rewrite !MouseInput_update_edge.
  cbn [Devices.MouseInput_update Devices.MouseInput_new Devices.mouseState].
  apply Z.eqb_neq in H1, H2. rewrite H1, H2, Z.land_0_l. split; reflexivity.
Qed.

Lemma GamepadInput_first_press (sdl1 sdl2 : Platform) (h : Handle) (i : nat) (button : nat) :
  scan_controllers sdl1 = Some (h, i) ->
  controller_attached sdl1 h = true ->
  controller_attached sdl2 h = true ->
  (button < SDL_CONTROLLER_BUTTON_MAX)%nat ->
  controller_button sdl1 h button = 1 ->
  controller_button sdl2 h button = 1 ->
  let g1 := Devices.GamepadInput_update sdl1 Devices.GamepadInput_new in
  Devices.GamepadInput_isButtonJustPressed g1 button = true /\
  Devices.GamepadInput_isButtonJustPressed (Devices.GamepadInput_update sdl2 g1) button = false.
Proof.
  intros Hs Ha1 Ha2 Hb H1 H2 g1.
  assert (Hg1 : g1 = {| Devices.controller := Some h;
                        Devices.controllerWasConnected := true;
                        Devices.previousButtonStates :=
                          Devices.currentButtonStates Devices.GamepadInput_new;
                        Devices.currentButtonStates := Devices.read_buttons sdl1 h;
                        Devices.axisValues := Devices.read_axes sdl1 h |}).
  { subst g1. unfold Devices.GamepadInput_update.
    cbn [Devices.controller Devices.GamepadInput_new]. rewrite Hs.
    cbn [fmap option_fmap option_map fst]. rewrite Ha1. reflexivity. }
  split.
  - rewrite Hg1. unfold Devices.GamepadInput_isButtonJustPressed.
    cbn [Devices.GamepadInput_isAvailable Devices.controller negb orb
         Devices.currentButtonStates Devices.previousButtonStates Devices.GamepadInput_new].
    pose proof Hb as Hb'. apply Nat.leb_gt in Hb'. rewrite Hb'.
    rewrite read_buttons_nth by exact Hb. rewrite H1.
    rewrite nth_repeat. reflexivity.
  - rewrite (GamepadInput_update_edge sdl2 g1 h button) by (rewrite ?Hg1; auto).
    rewrite Hg1. cbn [Devices.currentButtonStates].
    rewrite read_buttons_nth by exact Hb. rewrite H1, H2. reflexivity.
Qed.

(** The loop of [updateKeyboardState] with a non-null pointer never fails
    and, for a key with a single scancode, leaves that scancode's state in
    the previous map. *)
Lemma store_key_fold_some (sdl : Platform) (l : list nat) (prev : gmap Z bool) :
  exists prev',
    fold_left (Bindings.store_key sdl (Some SdlKeyArray)) l (Some prev) = Some prev'.
Proof.
  revert prev. induction l as [|i l IH]; intros prev; cbn [fold_left].
  - eauto.
  - unfold Bindings.store_key at 2. cbn [mbind option_bind read_key].
    destruct (key_from_scancode sdl i =? SDLK_UNKNOWN); apply IH.
Qed.

Lemma store_key_fold_keep (sdl : Platform) (key : Z) (s : nat) (l : list nat)
    (prev prev' : gmap Z bool) :
  (forall i, In i l -> key_from_scancode sdl i = key -> i = s) ->
  prev !! key = Some (negb (keystate sdl s =? 0)) ->
  fold_left (Bindings.store_key sdl (Some SdlKeyArray)) l (Some prev) = Some prev' ->
  prev' !! key = Some (negb (keystate sdl s =? 0)).
Proof.
  revert prev. induction l as [|i l IH]; intros prev Huniq Hprev; cbn [fold_left].
  - intros [= <-]. exact Hprev.
  - unfold Bindings.store_key at 2. cbn [mbind option_bind read_key].
    destruct (key_from_scancode sdl i =? SDLK_UNKNOWN) eqn:E.
    + apply IH; [intros j Hj; apply Huniq; right; exact Hj | exact Hprev].
    + apply IH; [intros j Hj; apply Huniq; right; exact Hj |].
      destruct (decide (key_from_scancode sdl i = key)) as [Hk|Hk].
      * assert (Hi : i = s) by (apply Huniq; [left; reflexivity | exact Hk]).
        subst i. rewrite Hk. apply lookup_insert_eq.
      * rewrite lookup_insert_ne by exact Hk. exact Hprev.
Qed.

Lemma store_key_fold_set (sdl : Platform) (key : Z) (s : nat) (l : list nat)
    (prev prev' : gmap Z bool) :
  key <> SDLK_UNKNOWN ->
  key_from_scancode sdl s = key ->
  In s l ->
  (forall i, In i l -> key_from_scancode sdl i = key -> i = s) ->
  fold_left (Bindings.store_key sdl (Some SdlKeyArray)) l (Some prev) = Some prev' ->
  prev' !! key = Some (negb (keystate sdl s =? 0)).
Proof.
  intros Hkey Hs. revert prev.
  induction l as [|i l IH]; intros prev Hin Huniq; [destruct Hin|].
  cbn [fold_left]. unfold Bindings.store_key at 2. cbn [mbind option_bind read_key].
  assert (Hl : forall j, In j l -> key_from_scancode sdl j = key -> j = s)
    by (intros j Hj; apply Huniq; right; exact Hj).
  destruct (decide (i = s)) as [->|Hne].
  - rewrite Hs. destruct (Z.eqb_spec key SDLK_UNKNOWN) as [|_]; [contradiction|].
    apply store_key_fold_keep; [exact Hl | apply lookup_insert_eq].
  - destruct Hin as [|Hin]; [contradiction|].
    destruct (key_from_scancode sdl i =? SDLK_UNKNOWN); apply IH; assumption.
Qed.

(** Binding-table keyboard: with a keymap in which [key] has exactly one
    scancode, [isKeyPressed] and [isKeyReleased] are false right after
    [updateKeyboardState], whatever the previous frame was. *)
Lemma updateKeyboardState_no_edge {Game : Type} (sdl : Platform)
    (m m' : Bindings.InputManager Game) (key : Z) :
  Bindings.m_currentKeyboardState m = Some SdlKeyArray ->
  key <> SDLK_UNKNOWN ->
  (scancode_from_key sdl key < SDL_NUM_SCANCODES)%nat ->
  key_from_scancode sdl (scancode_from_key sdl key) = key ->
  (forall i, (i < SDL_NUM_SCANCODES)%nat -> key_from_scancode sdl i = key ->
             i = scancode_from_key sdl key) ->
  Bindings.updateKeyboardState sdl m = Some m' ->
  Bindings.isKeyPressed sdl m' key = Some false /\
  Bindings.isKeyReleased sdl m' key = Some false.
Proof.
  intros Hptr Hkey Hlt Hinv Huniq Hupd.
  unfold Bindings.updateKeyboardState in Hupd. rewrite Hptr in Hupd.
  destruct (fold_left _ _ _) as [prev|] eqn:Hfold; [|discriminate].
  cbn in Hupd. injection Hupd as <-.
  assert (Hprev : prev !! key = Some (negb (keystate sdl (scancode_from_key sdl key) =? 0))).
  { eapply store_key_fold_set; [exact Hkey | exact Hinv | | | exact Hfold].
    - apply in_seq. lia.
    - intros i Hi. apply Huniq. apply in_seq in Hi. lia. }
  unfold Bindings.isKeyPressed, Bindings.isKeyReleased.
  destruct m; cbn in *. subst. rewrite Hprev. cbn.
  destruct (keystate sdl (scancode_from_key sdl key) =? 0); split; reflexivity.
Qed.

Lemma letters_keymap_a (ks : nat -> Z) :
  let sdl := with_keys ks in
  SDLK_a <> SDLK_UNKNOWN /\
  (scancode_from_key sdl SDLK_a < SDL_NUM_SCANCODES)%nat /\
  key_from_scancode sdl (scancode_from_key sdl SDLK_a) = SDLK_a /\
  (forall i, (i < SDL_NUM_SCANCODES)%nat -> key_from_scancode sdl i = SDLK_a ->
             i = scancode_from_key sdl SDLK_a).
Proof.
  cbn. repeat split; try (cbv; congruence); try (cbv; lia).
  intros i _. unfold letters_key_from_scancode, SDLK_a, SDLK_UNKNOWN.
  destruct ((4 <=? i)%nat && (i <=? 29)%nat) eqn:E; [|discriminate].
  intros H. change (letters_scancode_from_key 97) with 4%nat. lia.
Qed.

(** ** Frame lemmas of the binding-table manager *)

Section BindingsFrame.
Context {Game : Type}.
Implicit Types (m : Bindings.InputManager Game) (g : Game).

Lemma keyboard_ptr_set_previousKeyState prev m :
  Bindings.m_currentKeyboardState (Bindings.set_previousKeyState prev m)
  = Bindings.m_currentKeyboardState m.
Proof. destruct m; reflexivity. Qed.

Lemma keyboard_ptr_updateMouseState sdl m :
  Bindings.m_currentKeyboardState (Bindings.updateMouseState sdl m)
  = Bindings.m_currentKeyboardState m.
Proof. destruct m; reflexivity. Qed.

Lemma keyboard_ptr_updateGamepadState sdl m :
  Bindings.m_currentKeyboardState (Bindings.updateGamepadState sdl m)
  = Bindings.m_currentKeyboardState m.
Proof.
  unfold Bindings.updateGamepadState. destruct m as [[?|] ?]; reflexivity.
Qed.

Lemma keyboard_ptr_run_calls calls m g :
  Bindings.m_currentKeyboardState (fst (fold_left Bindings.run_call calls (m, g)))
  = Bindings.m_currentKeyboardState m.
Proof.
  revert m g. induction calls as [|c calls IH]; intros m g; [reflexivity|].
  cbn [fold_left]. unfold Bindings.run_call at 2. rewrite IH. destruct m; reflexivity.
Qed.

Lemma previous_keys_updateMouseState sdl m :
  Bindings.m_previousKeyState (Bindings.updateMouseState sdl m)
  = Bindings.m_previousKeyState m.
Proof. destruct m; reflexivity. Qed.

Lemma previous_keys_updateGamepadState sdl m :
  Bindings.m_previousKeyState (Bindings.updateGamepadState sdl m)
  = Bindings.m_previousKeyState m.
Proof.
  unfold Bindings.updateGamepadState. destruct m as [[?|] ?]; reflexivity.
Qed.

Lemma previous_keys_run_calls calls m g :
  Bindings.m_previousKeyState (fst (fold_left Bindings.run_call calls (m, g)))
  = Bindings.m_previousKeyState m.
Proof.
  revert m g. induction calls as [|c calls IH]; intros m g; [reflexivity|].
  cbn [fold_left]. unfold Bindings.run_call at 2. rewrite IH. destruct m; reflexivity.
Qed.

(** The keyboard queries read two members only. *)
Lemma keyboard_queries_ext sdl m m' key :
  Bindings.m_currentKeyboardState m' = Bindings.m_currentKeyboardState m ->
  Bindings.m_previousKeyState m' = Bindings.m_previousKeyState m ->
  Bindings.isKeyDown sdl m' key = Bindings.isKeyDown sdl m key /\
  Bindings.isKeyPressed sdl m' key = Bindings.isKeyPressed sdl m key /\
  Bindings.isKeyReleased sdl m' key = Bindings.isKeyReleased sdl m key.
Proof.
  intros H1 H2. unfold Bindings.isKeyDown, Bindings.isKeyPressed, Bindings.isKeyReleased.
  rewrite H1, H2. auto.
Qed.

Lemma isKeyDown_some sdl m key :
  Bindings.m_currentKeyboardState m = Some SdlKeyArray ->
  Bindings.isKeyDown sdl m key = Some (negb (keystate sdl (scancode_from_key sdl key) =? 0)).
Proof. intros H. unfold Bindings.isKeyDown. rewrite H. reflexivity. Qed.

Lemma updateKeyboardState_some sdl m :
  Bindings.m_currentKeyboardState m = Some SdlKeyArray ->
  exists prev, Bindings.updateKeyboardState sdl m = Some (Bindings.set_previousKeyState prev m).
Proof.
  intros H. unfold Bindings.updateKeyboardState. rewrite H.
  destruct (store_key_fold_some sdl (seq 0 SDL_NUM_SCANCODES) (Bindings.m_previousKeyState m))
    as [prev Hp].
  rewrite Hp. exists prev. reflexivity.
Qed.

Lemma updateKeyboardState_inv sdl m m' :
  Bindings.updateKeyboardState sdl m = Some m' ->
  exists prev, m' = Bindings.set_previousKeyState prev m.
Proof.
  unfold Bindings.updateKeyboardState. destruct (fold_left _ _ _) as [prev|]; [|discriminate].
  cbn. intros [= <-]. eauto.
Qed.

Lemma key_calls_some sdl m dt l :
  Bindings.m_currentKeyboardState m = Some SdlKeyArray ->
  exists calls, Bindings.key_calls sdl m dt l = Some calls.
Proof.
  intros H. induction l as [|[key command] l [calls IH]]; cbn [Bindings.key_calls].
  - eauto.
  - rewrite (isKeyDown_some sdl m key H), IH. cbn. eauto.
Qed.

Lemma dispatch_some sdl m dt :
  Bindings.m_currentKeyboardState m = Some SdlKeyArray ->
  exists calls, Bindings.dispatch sdl m dt = Some calls.
Proof.
  intros H. unfold Bindings.dispatch.
  destruct (key_calls_some sdl m dt (map_to_list (Bindings.m_keyCommands m)) H) as [calls Hc].
  rewrite Hc. cbn. eauto.
Qed.

(** With a non-null keyboard pointer [update] completes. *)
Lemma update_some sdl dt m g :
  Bindings.m_currentKeyboardState m = Some SdlKeyArray ->
  exists st, Bindings.update sdl dt (m, g) = Some st.
Proof.
  intros H. unfold Bindings.update. cbn [fst snd].
  destruct (updateKeyboardState_some sdl m H) as [prev Hp]. rewrite Hp.
  cbn [mbind option_bind].
  destruct (dispatch_some sdl
              (Bindings.updateGamepadState sdl
                 (Bindings.updateMouseState sdl (Bindings.set_previousKeyState prev m))) dt)
    as [calls Hc].
  { rewrite keyboard_ptr_updateGamepadState, keyboard_ptr_updateMouseState,
      keyboard_ptr_set_previousKeyState. exact H. }
  rewrite Hc. cbn. eauto.
Qed.

(** What [update] leaves in the two keyboard members is what
    [updateKeyboardState] left there. *)
Lemma update_keyboard_view sdl dt m g st :
  Bindings.update sdl dt (m, g) = Some st ->
  exists m1,
    Bindings.updateKeyboardState sdl m = Some m1 /\
    Bindings.m_currentKeyboardState (fst st) = Bindings.m_currentKeyboardState m1 /\
    Bindings.m_previousKeyState (fst st) = Bindings.m_previousKeyState m1.
Proof.
  unfold Bindings.update. cbn [fst snd].
  destruct (Bindings.updateKeyboardState sdl m) as [m1|]; [|discriminate].
  cbn [mbind option_bind].
  destruct (Bindings.dispatch _ _ _) as [calls|]; [|discriminate].
  cbn. intros [= <-]. exists m1. split; [reflexivity|].
  rewrite keyboard_ptr_run_calls, previous_keys_run_calls,
    keyboard_ptr_updateGamepadState, previous_keys_updateGamepadState,
    keyboard_ptr_updateMouseState, previous_keys_updateMouseState.
  auto.
Qed.

Lemma keyboard_ptr_init_true sdl m :
  snd (Bindings.init sdl m) = true ->
  Bindings.m_currentKeyboardState (fst (Bindings.init sdl m)) = Some SdlKeyArray.
Proof.
  unfold Bindings.init.
  destruct (negb (was_init_gamecontroller sdl) && negb (init_subsystem_ok sdl));
    [discriminate|].
  intros _. cbn [fst]. destruct (scan_controllers sdl) as [[h i]|]; destruct m; reflexivity.
Qed.

(** Binding-table keyboard, whole frame: for a key with a single scancode,
    [isKeyPressed] and [isKeyReleased] are false after [update]. *)
Lemma update_no_key_edge sdl dt m g st key :
  Bindings.m_currentKeyboardState m = Some SdlKeyArray ->
  key <> SDLK_UNKNOWN ->
  (scancode_from_key sdl key < SDL_NUM_SCANCODES)%nat ->
  key_from_scancode sdl (scancode_from_key sdl key) = key ->
  (forall i, (i < SDL_NUM_SCANCODES)%nat -> key_from_scancode sdl i = key ->
             i = scancode_from_key sdl key) ->
  Bindings.update sdl dt (m, g) = Some st ->
  Bindings.isKeyPressed sdl (fst st) key = Some false /\
  Bindings.isKeyReleased sdl (fst st) key = Some false.
Proof.
  intros Hptr Hkey Hlt Hinv Huniq Hupd.
  destruct (update_keyboard_view sdl dt m g st Hupd) as (m1 & Hm1 & Hp & Hq).
  destruct (keyboard_queries_ext sdl m1 (fst st) key Hp Hq) as (_ & -> & ->).
  exact (updateKeyboardState_no_edge sdl m m1 key Hptr Hkey Hlt Hinv Huniq Hm1).
Qed.

End BindingsFrame.

(** C1 (the code departs from the specification).  Frames are "pump
    events, update, query".  In the capability-delegation design, after
    [KeyboardInput::update] no scancode is ever reported by
    [isKeyJustPressed], whatever SDL's key array holds and whatever the
    device held before; in particular key A, down on the first frame a fresh
    keyboard device observes it, is not reported as just pressed on that
    frame, where the specification requires true.  The binding-table
    keyboard behaves the same: after [init] and one [update] with key [a]
    down or up, [isKeyPressed] is false. *)
Theorem C1_keyboard_press_edge_lost :
  (forall (sdl : Platform) (k : Devices.KeyboardInput),
     Forall (fun key =>
               Devices.KeyboardInput_isKeyJustPressed sdl (Devices.KeyboardInput_update sdl k) key
               = false)
            (seq 0 SDL_NUM_SCANCODES)) /\
  (let sdl := with_keys (only SDL_SCANCODE_A 1) in
   let k := Devices.KeyboardInput_update sdl Devices.KeyboardInput_new in
   Devices.KeyboardInput_isKeyPressed sdl k SDL_SCANCODE_A = true /\
   Devices.KeyboardInput_isKeyJustPressed sdl k SDL_SCANCODE_A = false) /\
  (let sdl := with_keys (only SDL_SCANCODE_A 1) in
   let m := Devices.update sdl [] (fst (Devices.initialize sdl Devices.InputManager_new)) in
   Devices.isKeyPressed sdl m SDL_SCANCODE_A = true /\
   Devices.isKeyJustPressed sdl m SDL_SCANCODE_A = false) /\
  (forall (Game : Type) (g : Game) (ks : nat -> Z),
     let sdl := with_keys ks in
     exists st,
       Bindings.update sdl 1 (fst (Bindings.init sdl Bindings.InputManager_new), g) = Some st /\
       Bindings.isKeyDown sdl (fst st) SDLK_a = Some (negb (ks SDL_SCANCODE_A =? 0)) /\
       Bindings.isKeyPressed sdl (fst st) SDLK_a = Some false).
Proof.
  split; [|split; [|split]].
  - intros sdl k. apply List.Forall_forall. intros key Hin. apply in_seq in Hin.
    apply KeyboardInput_update_no_edge. lia.
  - split; reflexivity.
  - split; reflexivity.
  - intros Game g ks sdl.
    destruct (letters_keymap_a ks) as (Hk & Hlt & Hinv & Huniq).
    fold sdl in Hlt, Hinv, Huniq.
    set (m0 := fst (Bindings.init sdl (@Bindings.InputManager_new Game))).
    assert (Hptr : Bindings.m_currentKeyboardState m0 = Some SdlKeyArray) by reflexivity.
    destruct (update_some sdl 1%Q m0 g Hptr) as [st Hst].
    exists st. split; [exact Hst|].
    destruct (update_no_key_edge sdl 1%Q m0 g st SDLK_a Hptr Hk Hlt Hinv Huniq Hst)
      as [Hpressed _].
    split; [|exact Hpressed].
    destruct (update_keyboard_view sdl 1%Q m0 g st Hst) as (m1 & Hm1 & Hp & _).
    destruct (updateKeyboardState_inv sdl m0 m1 Hm1) as [prev ->].
    rewrite keyboard_ptr_set_previousKeyState in Hp.
    rewrite (isKeyDown_some sdl (fst st) SDLK_a) by (rewrite Hp; exact Hptr).
    reflexivity.
Qed.

(** ** Deadzone shaping *)

Section Shaping.
Variable dz : Q.
Hypothesis dz_range : (0 <= dz < 1)%Q.

Let inv := (/ (1 - dz))%Q.

Lemma inv_pos : (0 < inv)%Q.
Proof. apply Qinv_lt_0_compat. lra. Qed.

Lemma inv_cancel : ((1 - dz) * inv == 1)%Q.
Proof. apply Qmult_inv_r. lra. Qed.

(** The three pieces of [shape]. *)
Lemma shape_inside (v : Q) : (Qabs v < dz)%Q -> Devices.shape dz v = 0%Q.
Proof.
  intros H. unfold Devices.shape. apply Qltb_lt in H. rewrite H. reflexivity.
Qed.

Lemma shape_right (v : Q) :
  (dz <= Qabs v)%Q -> (0 < v)%Q -> (Devices.shape dz v == (v - dz) * inv)%Q.
Proof.
  intros H Hv. unfold Devices.shape.
  apply Qltb_ge in H. rewrite H. apply Qltb_lt in Hv. rewrite Hv.
  apply Qltb_lt in Hv. unfold Qdiv. fold inv.
  rewrite (Qabs_pos v) by lra. ring.
Qed.

Lemma shape_left (v : Q) :
  (dz <= Qabs v)%Q -> (v <= 0)%Q -> (Devices.shape dz v == (v + dz) * inv)%Q.
Proof.
  intros H Hv. unfold Devices.shape.
  apply Qltb_ge in H. rewrite H. apply Qltb_ge in Hv. rewrite Hv.
  apply Qltb_ge in Hv. unfold Qdiv. fold inv.
  rewrite (Qabs_neg v) by lra. ring.
Qed.

Lemma Qabs_cases (v : Q) :
  ((0 < v)%Q /\ (Qabs v == v)%Q) \/ ((v <= 0)%Q /\ (Qabs v == - v)%Q).
Proof.
  destruct (Qlt_le_dec 0 v) as [H|H].
  - left. split; [exact H | apply Qabs_pos; lra].
  - right. split; [exact H | apply Qabs_neg; exact H].
Qed.

(** Outside the deadzone the magnitude of the output is the rescaled excess. *)
Lemma shape_abs_outside (v : Q) :
  (dz <= Qabs v)%Q -> (Qabs (Devices.shape dz v) == (Qabs v - dz) * inv)%Q.
Proof.
  intros H. pose proof inv_pos as Hi.
  destruct (Qabs_cases v) as [[Hv Ha]|[Hv Ha]].
  - rewrite (shape_right v H Hv). rewrite Ha in *.
    rewrite Qabs_pos; [reflexivity|]. apply Qmult_le_0_compat; lra.
  - rewrite (shape_left v H Hv). rewrite Ha in *.
    rewrite Qabs_neg.
    + ring.
    + assert (0 <= (- v - dz) * inv)%Q by (apply Qmult_le_0_compat; lra).
      lra.
Qed.

Lemma shape_abs_inside (v : Q) : (Qabs v <= dz)%Q -> (Devices.shape dz v == 0)%Q.
Proof.
  intros H. destruct (Qlt_le_dec (Qabs v) dz) as [Hlt|Hge].
  - rewrite (shape_inside v Hlt). reflexivity.
  - assert (Ha : (Qabs v == dz)%Q) by lra.
    destruct (Qabs_cases v) as [[Hv Hav]|[Hv Hav]].
    + rewrite (shape_right v Hge Hv). rewrite Hav in Ha. rewrite Ha. ring.
    + rewrite (shape_left v Hge Hv). rewrite Hav in Ha.
      assert (Hv' : (v == - dz)%Q) by lra. rewrite Hv'. ring.
Qed.

Lemma shape_eq_spec (v : Q) : (Devices.shape dz v == shaped_spec dz v)%Q.
Proof.
  unfold shaped_spec, Qdiv. fold inv.
  destruct (Qlt_le_dec (Qabs v) dz) as [Hlt|Hge].
  - rewrite (shape_inside v Hlt).
    rewrite Q.max_l by lra. ring.
  - rewrite Q.max_r by lra. unfold sign_spec.
    destruct (Qabs_cases v) as [[Hv Ha]|[Hv Ha]].
    + rewrite (shape_right v Hge Hv). apply Qltb_lt in Hv. rewrite Hv. rewrite Ha. ring.
    + rewrite (shape_left v Hge Hv). rewrite Ha.
      assert (Hn : Qltb 0 v = false) by (apply Qltb_ge; exact Hv). rewrite Hn.
      destruct (Qltb v 0) eqn:E.
      * ring.
      * apply Qltb_ge in E. assert (Hz : (v == 0)%Q) by lra.
        rewrite Hz in Ha, Hge. assert (Hd : (dz == 0)%Q) by lra.
        rewrite Hz, Hd. ring.
Qed.

End Shaping.

(** ** Dispatch *)

Section Dispatch.
Context {Game : Type}.
Implicit Types (m : Bindings.InputManager Game) (g : Game).

Lemma calls_for_app p (l1 l2 : list (Bindings.Invocation Game)) :
  calls_for p (l1 ++ l2) = calls_for p l1 ++ calls_for p l2.
Proof. apply filter_app. Qed.

Section Table.
Context {K V : Type} `{EqDecision K}.
Variable tag : K -> Bindings.PhysicalInput.
Variable test : K -> V -> bool.
Variable mk : K -> V -> Bindings.Invocation Game.
Hypothesis tag_inj : forall k k', tag k = tag k' -> k = k'.
Hypothesis mk_tag : forall k v, Bindings.inv_input (mk k v) = tag k.

Lemma table_calls_other p (l : list (K * V)) :
  (forall k v, (k, v) ∈ l -> p <> tag k) ->
  calls_for p (table_calls test mk l) = [].
Proof.
  induction l as [|[k v] l IH]; intros Hp; [reflexivity|].
  unfold table_calls. cbn [flat_map fst snd]. rewrite calls_for_app.
  fold (table_calls test mk l).
  rewrite IH by (intros k' v' Hin; apply (Hp k' v'); apply elem_of_cons; right; exact Hin).
  rewrite app_nil_r. destruct (test k v); [|reflexivity].
  unfold calls_for. rewrite filter_cons_False; [reflexivity|].
  rewrite mk_tag. intros Heq.
  apply (Hp k v); [apply elem_of_cons; left; reflexivity | symmetry; exact Heq].
Qed.

Lemma table_calls_for (l : list (K * V)) (k : K) (v : V) :
  NoDup (l.*1) -> (k, v) ∈ l ->
  calls_for (tag k) (table_calls test mk l) = if test k v then [mk k v] else [].
Proof.
  induction l as [|[k0 v0] l IH]; intros Hnd Hin; [inversion Hin|].
  cbn [fmap list_fmap fst] in Hnd. apply NoDup_cons in Hnd as [Hk0 Hnd].
  unfold table_calls. cbn [flat_map fst snd]. rewrite calls_for_app.
  fold (table_calls test mk l).
  apply elem_of_cons in Hin as [Heq|Hin].
  - injection Heq as <- <-.
    rewrite (table_calls_other (tag k) l).
    + rewrite app_nil_r. destruct (test k v); [|reflexivity].
      unfold calls_for. rewrite filter_cons_True by apply mk_tag. reflexivity.
    + intros k' v' Hin' Heq. apply tag_inj in Heq. subst k'.
      apply Hk0. apply list_elem_of_fmap. exists (k, v'). split; [reflexivity | exact Hin'].
  - rewrite (IH Hnd Hin).
    assert (Hne : k0 <> k).
    { intros ->. apply Hk0. apply list_elem_of_fmap. exists (k, v). split; [reflexivity | exact Hin]. }
    destruct (test k0 v0); [|reflexivity].
    unfold calls_for at 1. rewrite filter_cons_False; [reflexivity|].
    rewrite mk_tag. intros Heq. apply tag_inj in Heq. contradiction.
Qed.

End Table.

(** The four loops of [update] as table loops. *)
Lemma key_calls_table sdl m dt (l : list (Z * Bindings.CommandFunction Game)) :
  Bindings.m_currentKeyboardState m = Some SdlKeyArray ->
  Bindings.key_calls sdl m dt l
  = Some (table_calls
            (fun key _ => negb (keystate sdl (scancode_from_key sdl key) =? 0))
            (fun key c => Bindings.Build_Invocation (Bindings.KeyboardKey key) c dt) l).
Proof.
  intros H. induction l as [|[key c] l IH]; [reflexivity|].
  cbn [Bindings.key_calls]. rewrite (isKeyDown_some sdl m key H), IH. cbn [mbind option_bind].
  unfold table_calls. cbn [flat_map fst snd].
  destruct (negb _); reflexivity.
Qed.

Lemma mouse_calls_table m dt (l : list (Z * Bindings.CommandFunction Game)) :
  Bindings.mouse_calls m dt l
  = table_calls (fun button _ => Bindings.isMouseButtonDown m button)
      (fun button c => Bindings.Build_Invocation (Bindings.MouseButton button) c dt) l.
Proof.
  induction l as [|[button c] l IH]; [reflexivity|].
  cbn [Bindings.mouse_calls]. rewrite IH. unfold table_calls. cbn [flat_map fst snd].
  destruct (Bindings.isMouseButtonDown m button); reflexivity.
Qed.

Lemma button_calls_table m dt (l : list (Bindings.GamepadButton.t * Bindings.CommandFunction Game)) :
  Bindings.button_calls m dt l
  = table_calls (fun button _ => Bindings.isGamepadButtonDown m button)
      (fun button c => Bindings.Build_Invocation (Bindings.GamepadButtonInput button) c dt) l.
Proof.
  induction l as [|[button c] l IH]; [reflexivity|].
  cbn [Bindings.button_calls]. rewrite IH. unfold table_calls. cbn [flat_map fst snd].
  destruct (Bindings.isGamepadButtonDown m button); reflexivity.
Qed.

Lemma axis_calls_table m (l : list (Bindings.GamepadAxis.t * (Bindings.CommandFunction Game * Q))) :
  Bindings.axis_calls m l
  = table_calls
      (fun axis data => Qltb (snd data) (Qabs (Bindings.getGamepadAxisValue m axis)))
      (fun axis data =>
         Bindings.Build_Invocation (Bindings.GamepadAxisInput axis) (fst data)
           (Bindings.getGamepadAxisValue m axis)) l.
Proof.
  induction l as [|[axis data] l IH]; [reflexivity|].
  cbn [Bindings.axis_calls]. rewrite IH. unfold table_calls. cbn [flat_map fst snd].
  destruct (Qltb _ _); reflexivity.
Qed.

Lemma touch_calls_other m dt p :
  p <> Bindings.TouchGesture -> calls_for p (Bindings.touch_calls m dt) = [].
Proof.
  intros Hp. unfold Bindings.touch_calls.
  destruct (Bindings.m_touchCommand m); [|reflexivity].
  destruct (Bindings.isTouchActive m); [|reflexivity].
  unfold calls_for. rewrite filter_cons_False; [reflexivity|].
  cbn. congruence.
Qed.

(** [update] is: refresh, list the calls, run them. *)
Lemma update_unfold sdl dt m g :
  Bindings.update sdl dt (m, g)
  = m3 ← refreshed sdl m;
    calls ← Bindings.dispatch sdl m3 dt;
    Some (fold_left Bindings.run_call calls (m3, g)).
Proof.
  unfold Bindings.update, refreshed. cbn [fst snd].
  destruct (Bindings.updateKeyboardState sdl m); reflexivity.
Qed.

Lemma refreshed_some sdl m :
  Bindings.m_currentKeyboardState m = Some SdlKeyArray ->
  exists m3, refreshed sdl m = Some m3 /\
    Bindings.m_currentKeyboardState m3 = Some SdlKeyArray /\
    Bindings.m_keyCommands m3 = Bindings.m_keyCommands m /\
    Bindings.m_mouseCommands m3 = Bindings.m_mouseCommands m /\
    Bindings.m_gamepadButtonCommands m3 = Bindings.m_gamepadButtonCommands m /\
    Bindings.m_gamepadAxisCommands m3 = Bindings.m_gamepadAxisCommands m.
Proof.
  intros H. unfold refreshed.
  destruct (updateKeyboardState_some sdl m H) as [prev ->]. cbn [mbind option_bind].
  eexists. split; [reflexivity|].
  unfold Bindings.updateGamepadState.
  destruct m as [[h|] ?]; cbn in *; subst; repeat split; reflexivity.
Qed.

End Dispatch.

Section DispatchPerInput.
Context {Game : Type}.
Implicit Types (m : Bindings.InputManager Game) (g : Game).

Lemma dispatch_table sdl m dt :
  Bindings.m_currentKeyboardState m = Some SdlKeyArray ->
  Bindings.dispatch sdl m dt
  = Some (table_calls
            (fun key _ => negb (keystate sdl (scancode_from_key sdl key) =? 0))
            (fun key c => Bindings.Build_Invocation (Bindings.KeyboardKey key) c dt)
            (map_to_list (Bindings.m_keyCommands m))
          ++ table_calls (fun button _ => Bindings.isMouseButtonDown m button)
               (fun button c => Bindings.Build_Invocation (Bindings.MouseButton button) c dt)
               (map_to_list (Bindings.m_mouseCommands m))
          ++ table_calls (fun button _ => Bindings.isGamepadButtonDown m button)
               (fun button c =>
                  Bindings.Build_Invocation (Bindings.GamepadButtonInput button) c dt)
               (map_to_list (Bindings.m_gamepadButtonCommands m))
          ++ table_calls
               (fun axis data => Qltb (snd data) (Qabs (Bindings.getGamepadAxisValue m axis)))
               (fun axis data =>
                  Bindings.Build_Invocation (Bindings.GamepadAxisInput axis) (fst data)
                    (Bindings.getGamepadAxisValue m axis))
               (map_to_list (Bindings.m_gamepadAxisCommands m))
          ++ Bindings.touch_calls m dt).
Proof.
  intros H. unfold Bindings.dispatch.
  rewrite (key_calls_table sdl m dt _ H). cbn [mbind option_bind].
  rewrite mouse_calls_table, button_calls_table, axis_calls_table. reflexivity.
Qed.

Lemma table_calls_none {K V : Type} p (test : K -> V -> bool)
    (mk : K -> V -> Bindings.Invocation Game) (l : list (K * V)) :
  (forall k v, Bindings.inv_input (mk k v) <> p) ->
  calls_for p (table_calls test mk l) = [].
Proof.
  intros Hp. induction l as [|[k v] l IH]; [reflexivity|].
  unfold table_calls. cbn [flat_map fst snd]. rewrite calls_for_app.
  fold (table_calls test mk l). rewrite IH, app_nil_r.
  destruct (test k v); [|reflexivity].
  unfold calls_for. rewrite filter_cons_False; [reflexivity | apply Hp].
Qed.

(** Drop the loops that cannot call for the input at hand. *)
Ltac other_loops :=
  repeat match goal with
    | |- context [calls_for ?p (table_calls ?t ?mk ?l)] =>
        rewrite (table_calls_none p t mk l) by (intros; discriminate)
    | |- context [calls_for ?p (Bindings.touch_calls ?m ?dt)] =>
        rewrite (touch_calls_other m dt p) by discriminate
    end;
  rewrite ?app_nil_r; cbn [app].

Lemma dispatch_key sdl m dt calls key c :
  Bindings.m_currentKeyboardState m = Some SdlKeyArray ->
  Bindings.dispatch sdl m dt = Some calls ->
  Bindings.m_keyCommands m !! key = Some c ->
  calls_for (Bindings.KeyboardKey key) calls
  = if negb (keystate sdl (scancode_from_key sdl key) =? 0)
    then [Bindings.Build_Invocation (Bindings.KeyboardKey key) c dt] else [].
Proof.
  intros Hptr Hd Hb. rewrite (dispatch_table sdl m dt Hptr) in Hd. injection Hd as <-.
  rewrite !calls_for_app. other_loops.
  rewrite (table_calls_for Bindings.KeyboardKey _ _) with (v := c);
    [reflexivity | congruence | reflexivity | apply NoDup_fst_map_to_list
    | apply elem_of_map_to_list; exact Hb].
Qed.

Lemma dispatch_mouse sdl m dt calls button c :
  Bindings.m_currentKeyboardState m = Some SdlKeyArray ->
  Bindings.dispatch sdl m dt = Some calls ->
  Bindings.m_mouseCommands m !! button = Some c ->
  calls_for (Bindings.MouseButton button) calls
  = if Bindings.isMouseButtonDown m button
    then [Bindings.Build_Invocation (Bindings.MouseButton button) c dt] else [].
Proof.
  intros Hptr Hd Hb. rewrite (dispatch_table sdl m dt Hptr) in Hd. injection Hd as <-.
  rewrite !calls_for_app. other_loops.
  rewrite (table_calls_for Bindings.MouseButton _ _) with (v := c);
    [reflexivity | congruence | reflexivity | apply NoDup_fst_map_to_list
    | apply elem_of_map_to_list; exact Hb].
Qed.

Lemma dispatch_button sdl m dt calls button c :
  Bindings.m_currentKeyboardState m = Some SdlKeyArray ->
  Bindings.dispatch sdl m dt = Some calls ->
  Bindings.m_gamepadButtonCommands m !! button = Some c ->
  calls_for (Bindings.GamepadButtonInput button) calls
  = if Bindings.isGamepadButtonDown m button
    then [Bindings.Build_Invocation (Bindings.GamepadButtonInput button) c dt] else [].
Proof.
  intros Hptr Hd Hb. rewrite (dispatch_table sdl m dt Hptr) in Hd. injection Hd as <-.
  rewrite !calls_for_app. other_loops.
  rewrite (table_calls_for Bindings.GamepadButtonInput _ _) with (v := c);
    [reflexivity | congruence | reflexivity | apply NoDup_fst_map_to_list
    | apply elem_of_map_to_list; exact Hb].
Qed.

Lemma dispatch_axis sdl m dt calls axis c dz :
  Bindings.m_currentKeyboardState m = Some SdlKeyArray ->
  Bindings.dispatch sdl m dt = Some calls ->
  Bindings.m_gamepadAxisCommands m !! axis = Some (c, dz) ->
  calls_for (Bindings.GamepadAxisInput axis) calls
  = if Qltb dz (Qabs (Bindings.getGamepadAxisValue m axis))
    then [Bindings.Build_Invocation (Bindings.GamepadAxisInput axis) c
            (Bindings.getGamepadAxisValue m axis)]
    else [].
Proof.
  intros Hptr Hd Hb. rewrite (dispatch_table sdl m dt Hptr) in Hd. injection Hd as <-.
  rewrite !calls_for_app. other_loops.
  rewrite (table_calls_for Bindings.GamepadAxisInput _ _) with (v := (c, dz));
    [reflexivity | congruence | reflexivity | apply NoDup_fst_map_to_list
    | apply elem_of_map_to_list; exact Hb].
Qed.

End DispatchPerInput.

(** ** Axis dispatch *)

(** A loop that stores [valf i] under [keyf i] for the indices it keeps:
    an index kept by the loop, alone in having its key, is found afterwards. *)
Section FoldStore.
Context {K V : Type} `{Countable K}.
Variable keyf : nat -> K.
Variable valf : nat -> V.
Variable keep : nat -> Prop.
Variable step : gmap K V -> nat -> gmap K V.
Hypothesis step_cases : forall acc i, step acc i = acc \/ step acc i = <[keyf i := valf i]> acc.
Hypothesis step_keep : forall acc i, keep i -> step acc i = <[keyf i := valf i]> acc.

Lemma fold_store_stays (l : list nat) (acc : gmap K V) (i : nat) :
  (forall j, In j l -> keyf j = keyf i -> j = i) ->
  acc !! keyf i = Some (valf i) ->
  fold_left step l acc !! keyf i = Some (valf i).
Proof.
  revert acc. induction l as [|j l IH]; intros acc Huniq Hacc; [exact Hacc|].
  cbn [fold_left]. apply IH; [intros j' Hj'; apply Huniq; right; exact Hj'|].
  destruct (step_cases acc j) as [->| ->]; [exact Hacc|].
  destruct (decide (keyf j = keyf i)) as [E|E].
  - rewrite (Huniq j (or_introl eq_refl) E). apply lookup_insert_eq.
  - rewrite lookup_insert_ne by exact E. exact Hacc.
Qed.

Lemma fold_store_lookup (l : list nat) (acc : gmap K V) (i : nat) :
  In i l ->
  (forall j, In j l -> keyf j = keyf i -> j = i) ->
  keep i ->
  fold_left step l acc !! keyf i = Some (valf i).
Proof.
  revert acc. induction l as [|j l IH]; intros acc Hin Huniq Hkeep; [destruct Hin|].
  cbn [fold_left].
  assert (Hl : forall j', In j' l -> keyf j' = keyf i -> j' = i)
    by (intros j' Hj'; apply Huniq; right; exact Hj').
  destruct (Nat.eq_dec j i) as [->|Hne].
  - apply fold_store_stays; [exact Hl|]. rewrite step_keep by exact Hkeep.
    apply lookup_insert_eq.
  - destruct Hin as [|Hin]; [contradiction|]. apply IH; assumption.
Qed.

End FoldStore.

Lemma to_Uint8_small (i : nat) : (i < 256)%nat -> Bindings.to_Uint8 i = i.
Proof. intros Hi. unfold Bindings.to_Uint8. apply Nat.mod_small. exact Hi. Qed.

Lemma axis_index (i : nat) :
  (i < SDL_CONTROLLER_AXIS_MAX)%nat ->
  Bindings.GamepadAxis.to_nat (Bindings.sdlAxisToGamepadAxis i) = i.
Proof.
  unfold SDL_CONTROLLER_AXIS_MAX. intros Hi.
  unfold Bindings.sdlAxisToGamepadAxis. rewrite to_Uint8_small by lia.
  do 6 (destruct i as [|i]; [reflexivity|]). lia.
Qed.

Lemma button_index (i : nat) :
  (i < 256)%nat ->
  Bindings.GamepadButton.to_nat (Bindings.sdlButtonToGamepadButton i)
  = if (i <? 16)%nat then i else 21%nat.
Proof.
  intros Hi. unfold Bindings.sdlButtonToGamepadButton. rewrite to_Uint8_small by exact Hi.
  do 16 (destruct i as [|i]; [reflexivity|]). reflexivity.
Qed.

Section AxisRefresh.
Context {Game : Type}.
Implicit Types (m : Bindings.InputManager Game).

Lemma gameController_refresh_prefix sdl prev m :
  Bindings.m_gameController (Bindings.updateMouseState sdl (Bindings.set_previousKeyState prev m))
  = Bindings.m_gameController m.
Proof. destruct m; reflexivity. Qed.

Lemma updateGamepadState_axis sdl m h (i : nat) :
  Bindings.m_gameController m = Some h ->
  (i < SDL_CONTROLLER_AXIS_MAX)%nat ->
  Bindings.getGamepadAxisValue (Bindings.updateGamepadState sdl m)
    (Bindings.sdlAxisToGamepadAxis i)
  = (inject_Z (controller_axis sdl h i) / 32767)%Q.
Proof.
  intros Hc Hi. unfold Bindings.updateGamepadState, Bindings.getGamepadAxisValue.
  rewrite Hc.
  replace (Bindings.m_gamepadAxisValues (Bindings.set_gamepadState _ _ _ m))
    with (fold_left (Bindings.store_axis sdl h) (seq 0 SDL_CONTROLLER_AXIS_MAX)
            (Bindings.m_gamepadAxisValues m)) by (destruct m; reflexivity).
  rewrite (fold_store_lookup Bindings.sdlAxisToGamepadAxis
             (fun j => (inject_Z (controller_axis sdl h j) / 32767)%Q)
             (fun j => (j < SDL_CONTROLLER_AXIS_MAX)%nat)); [reflexivity | | | | | exact Hi].
  - intros acc j. unfold Bindings.store_axis. destruct (decide _); auto.
  - intros acc j Hj. unfold Bindings.store_axis. destruct (decide _) as [E|]; [|reflexivity].
    exfalso. apply (f_equal Bindings.GamepadAxis.to_nat) in E.
    rewrite axis_index in E by exact Hj. cbn in E. unfold SDL_CONTROLLER_AXIS_MAX in Hj. lia.
  - apply in_seq. lia.
  - intros j Hj Heq. apply in_seq in Hj. apply (f_equal Bindings.GamepadAxis.to_nat) in Heq.
    rewrite !axis_index in Heq by lia. exact Heq.
Qed.

Lemma updateGamepadState_button sdl m h (i : nat) :
  Bindings.m_gameController m = Some h ->
  (i < 16)%nat ->
  Bindings.isGamepadButtonDown (Bindings.updateGamepadState sdl m)
    (Bindings.sdlButtonToGamepadButton i)
  = negb (controller_button sdl h i =? 0).
Proof.
  intros Hc Hi. unfold Bindings.updateGamepadState, Bindings.isGamepadButtonDown.
  rewrite Hc.
  replace (Bindings.m_currentGamepadButtonState (Bindings.set_gamepadState _ _ _ m))
    with (fold_left (Bindings.store_button sdl h) (seq 0 SDL_CONTROLLER_BUTTON_MAX)
            (Bindings.m_currentGamepadButtonState m)) by (destruct m; reflexivity).
  rewrite (fold_store_lookup Bindings.sdlButtonToGamepadButton
             (fun j => negb (controller_button sdl h j =? 0))
             (fun j => (j < 16)%nat)); [reflexivity | | | | | exact Hi].
  - intros acc j. unfold Bindings.store_button. destruct (decide _); auto.
  - intros acc j Hj. unfold Bindings.store_button. destruct (decide _) as [E|]; [|reflexivity].
    exfalso. apply (f_equal Bindings.GamepadButton.to_nat) in E.
    rewrite button_index in E by lia. apply Nat.ltb_lt in Hj. rewrite Hj in E. cbn in E.
    apply Nat.ltb_lt in Hj. lia.
  - apply in_seq. unfold SDL_CONTROLLER_BUTTON_MAX. lia.
  - intros j Hj Heq. apply in_seq in Hj. unfold SDL_CONTROLLER_BUTTON_MAX in Hj.
    apply (f_equal Bindings.GamepadButton.to_nat) in Heq.
    rewrite !button_index in Heq by lia. apply Nat.ltb_lt in Hi. rewrite Hi in Heq.
    apply Nat.ltb_lt in Hi.
    destruct (j <? 16)%nat; [exact Heq | lia].
Qed.

(** Without a handle [updateGamepadState] changes nothing: the snapshots
    keep whatever was read last. *)
Lemma updateGamepadState_no_handle sdl m :
  Bindings.m_gameController m = None -> Bindings.updateGamepadState sdl m = m.
Proof. intros H. unfold Bindings.updateGamepadState. rewrite H. reflexivity. Qed.

End AxisRefresh.

(** C3, counterexample.  Left stick X bound with the default deadzone 0.25.
    With the raw reading 20000 the callback receives 20000/32767, which is
    not the shaped value; with the raw reading 9830 (about 0.3) the shaped
    magnitude, about 0.067, does not exceed the deadzone and the callback is
    called all the same. *)
Lemma C3_axis_payload_not_shaped :
  (snd <$> Bindings.update (stick_frame 20000) (1 # 60)%Q (stick_manager, 0%Q)
   = Some (inject_Z 20000 / 32767)%Q /\
   ~ (inject_Z 20000 / 32767
      == shaped_spec Bindings.default_deadzone (inject_Z 20000 / 32767))%Q) /\
  (snd <$> Bindings.update (stick_frame 9830) (1 # 60)%Q (stick_manager, 0%Q)
   = Some (inject_Z 9830 / 32767)%Q /\
   (Qabs (shaped_spec Bindings.default_deadzone (inject_Z 9830 / 32767))
    <= Bindings.default_deadzone)%Q).
Proof.
  split; split.
  - vm_compute. reflexivity.
  - vm_compute. discriminate.
  - vm_compute. reflexivity.
  - vm_compute. discriminate.
Qed.

(** ** Gamepad queries without a device *)

(** A manager that never had a controller answers with the neutral values. *)
Lemma never_opened_neutral {Game : Type} (button : Bindings.GamepadButton.t)
    (axis : Bindings.GamepadAxis.t) :
  let m := @Bindings.InputManager_new Game in
  Bindings.isGamepadButtonDown m button = false /\
  Bindings.isGamepadButtonPressed m button = false /\
  Bindings.isGamepadButtonReleased m button = false /\
  Bindings.getGamepadAxisValue m axis = 0%Q.
Proof. repeat split. Qed.


(** C4 (the code departs from the specification).  Binding-table manager:
    after the controller's removal, with no handle left, the gamepad queries
    still answer from the last snapshot: button A is reported down and
    pressed and the left stick X axis reads 20000/32767, where the
    specification requires false and 0.  The snapshot never changes again
    while no handle is bound. *)
Theorem C4_gamepad_state_stale_after_disconnect :
  ((fun st => Bindings.m_gameController (fst st)) <$> after_disconnect = Some None /\
   (fun st => Bindings.isGamepadButtonDown (fst st) Bindings.GamepadButton.A)
     <$> after_disconnect = Some true /\
   (fun st => Bindings.isGamepadButtonPressed (fst st) Bindings.GamepadButton.A)
     <$> after_disconnect = Some true /\
   (fun st => Bindings.getGamepadAxisValue (fst st) Bindings.GamepadAxis.LEFTX)
     <$> after_disconnect = Some (inject_Z 20000 / 32767)%Q /\
   ~ (inject_Z 20000 / 32767 == 0)%Q) /\
  (forall (Game : Type) (sdl : Platform) (m : Bindings.InputManager Game),
     Bindings.m_gameController m = None -> Bindings.updateGamepadState sdl m = m).
Proof.
  split.
  - repeat split; try (vm_compute; reflexivity). vm_compute. discriminate.
  - intros Game sdl m. apply updateGamepadState_no_handle.
Qed.

(** ** Touch points *)

Lemma replace_point_none point l :
  Bindings.id point ∉ ids l -> Bindings.replace_point point l = None.
Proof.
  induction l as [|tp l IH]; intros Hn; [reflexivity|].
  cbn [Bindings.replace_point]. cbn [ids map] in Hn. apply not_elem_of_cons in Hn as [Hne Hn].
  destruct (Z.eqb_spec (Bindings.id tp) (Bindings.id point)) as [E|_]; [congruence|].
  fold (ids l) in Hn. rewrite (IH Hn). reflexivity.
Qed.

Lemma replace_point_ids point l l' :
  Bindings.replace_point point l = Some l' -> ids l' = ids l.
Proof.
  revert l'. induction l as [|tp l IH]; intros l'; [discriminate|].
  cbn [Bindings.replace_point].
  destruct (Z.eqb_spec (Bindings.id tp) (Bindings.id point)) as [E|_].
  - intros [= <-]. cbn. congruence.
  - destruct (Bindings.replace_point point l) as [l0|]; [|discriminate].
    cbn. intros [= <-]. unfold ids in *. cbn [map]. f_equal. apply IH. reflexivity.
Qed.

Lemma replace_point_some point l :
  Bindings.id point ∈ ids l -> is_Some (Bindings.replace_point point l).
Proof.
  intros Hin. destruct (Bindings.replace_point point l) eqn:E; [eauto|].
  exfalso. induction l as [|tp l IH]; [inversion Hin|].
  cbn [Bindings.replace_point] in E.
  destruct (Z.eqb_spec (Bindings.id tp) (Bindings.id point)) as [|Hne]; [discriminate|].
  destruct (Bindings.replace_point point l); [discriminate|].
  cbn [ids map] in Hin. apply elem_of_cons in Hin as [Heq|Hin]; [congruence|].
  apply IH; [exact Hin | reflexivity].
Qed.

Lemma finger_down_NoDup point l : NoDup (ids l) -> NoDup (ids (Bindings.finger_down point l)).
Proof.
  intros Hnd. unfold Bindings.finger_down.
  destruct (Bindings.replace_point point l) as [l'|] eqn:E.
  - rewrite (replace_point_ids point l l' E). exact Hnd.
  - unfold ids. rewrite map_app. cbn [map]. apply NoDup_app. split; [exact Hnd|]. split.
    + intros i Hi Hi'. apply list_elem_of_singleton in Hi'. subst i.
      destruct (replace_point_some point l Hi) as [? ?]. congruence.
    + apply NoDup_singleton.
Qed.

Lemma finger_up_filter fid l :
  Bindings.finger_up fid l = filter (fun tp => Bindings.id tp <> fid) l.
Proof.
  induction l as [|tp l IH]; [reflexivity|].
  cbn [Bindings.finger_up]. destruct (Z.eqb_spec (Bindings.id tp) fid) as [E|E].
  - rewrite filter_cons_False by (intros Hn; apply Hn; exact E). exact IH.
  - rewrite filter_cons_True by exact E. rewrite IH. reflexivity.
Qed.

Lemma finger_up_NoDup fid l : NoDup (ids l) -> NoDup (ids (Bindings.finger_up fid l)).
Proof.
  rewrite finger_up_filter. unfold ids.
  induction l as [|tp l IH]; intros Hnd; [exact Hnd|].
  cbn [map] in Hnd. apply NoDup_cons in Hnd as [Hn Hnd].
  destruct (decide (Bindings.id tp <> fid)) as [E|E].
  - rewrite filter_cons_True by exact E. cbn [map]. apply NoDup_cons. split; [|exact (IH Hnd)].
    intros Hin. apply Hn. apply list_elem_of_fmap in Hin as (q & Hq & Hin).
    apply list_elem_of_filter in Hin as [_ Hin].
    apply list_elem_of_fmap. exists q. split; [exact Hq | exact Hin].
  - rewrite filter_cons_False by exact E. exact (IH Hnd).
Qed.

Lemma finger_motion_ids fid fx fy l : ids (Bindings.finger_motion fid fx fy l) = ids l.
Proof.
  induction l as [|tp l IH]; [reflexivity|].
  cbn [Bindings.finger_motion]. destruct (Bindings.id tp =? fid); cbn; [reflexivity|].
  fold (ids l). fold (ids (Bindings.finger_motion fid fx fy l)). rewrite IH. reflexivity.
Qed.

(** With distinct ids, moving the first match moves the only match. *)
Lemma finger_motion_map fid fx fy l :
  NoDup (ids l) ->
  Bindings.finger_motion fid fx fy l
  = map (fun tp => if Bindings.id tp =? fid then moved fx fy tp else tp) l.
Proof.
  induction l as [|tp l IH]; intros Hnd; [reflexivity|].
  cbn [ids map] in Hnd. apply NoDup_cons in Hnd as [Hn Hnd].
  cbn [Bindings.finger_motion map].
  destruct (Z.eqb_spec (Bindings.id tp) fid) as [E|E].
  - f_equal. clear IH. subst fid. induction l as [|q l IH]; [reflexivity|].
    cbn [map ids] in *. apply not_elem_of_cons in Hn as [Hne Hn].
    apply NoDup_cons in Hnd as [_ Hnd].
    destruct (Z.eqb_spec (Bindings.id q) (Bindings.id tp)) as [E|_]; [congruence|].
    rewrite <- (IH Hn Hnd). reflexivity.
  - rewrite (IH Hnd). reflexivity.
Qed.

Section TouchEvents.
Context {Game : Type}.
Implicit Types (m : Bindings.InputManager Game).

Lemma touchPoints_set_activeInputMethod v m :
  Bindings.m_touchPoints (Bindings.set_activeInputMethod v m) = Bindings.m_touchPoints m.
Proof. destruct m; reflexivity. Qed.

Lemma touchPoints_set_touchPoints l m :
  Bindings.m_touchPoints (Bindings.set_touchPoints l m) = l.
Proof. destruct m; reflexivity. Qed.

Lemma touchPoints_set_mouseMotion a b c d m :
  Bindings.m_touchPoints (Bindings.set_mouseMotion a b c d m) = Bindings.m_touchPoints m.
Proof. destruct m; reflexivity. Qed.

Lemma touchPoints_set_gameController c i m :
  Bindings.m_touchPoints (Bindings.set_gameController c i m) = Bindings.m_touchPoints m.
Proof. destruct m; reflexivity. Qed.

(** The touch points after an event, by event. *)
Lemma processEvent_touchPoints sdl e m :
  Bindings.getTouchPoints (Bindings.processEvent sdl e m)
  = match e with
    | SDL_FINGERDOWN fid fx fy =>
        Bindings.finger_down
          {| Bindings.id := to_int32 fid; Bindings.x := fx; Bindings.y := fy;
             Bindings.pressed := true |} (Bindings.getTouchPoints m)
    | SDL_FINGERUP fid _ _ => Bindings.finger_up (to_int32 fid) (Bindings.getTouchPoints m)
    | SDL_FINGERMOTION fid fx fy =>
        Bindings.finger_motion (to_int32 fid) fx fy (Bindings.getTouchPoints m)
    | _ => Bindings.getTouchPoints m
    end.
Proof.
  unfold Bindings.getTouchPoints, Bindings.processEvent.
  destruct e;
    rewrite ?touchPoints_set_activeInputMethod, ?touchPoints_set_touchPoints,
      ?touchPoints_set_mouseMotion; try reflexivity.
  - destruct (Bindings.m_gameController m); [reflexivity|].
    apply touchPoints_set_gameController.
  - destruct (Bindings.m_gameController m); [|reflexivity].
    destruct (which =? Bindings.m_gameControllerIndex m); [|reflexivity].
    destruct (scan_controllers sdl) as [[h0 i0]|]; apply touchPoints_set_gameController.
Qed.

Lemma processEvent_NoDup sdl e m :
  NoDup (ids (Bindings.getTouchPoints m)) ->
  NoDup (ids (Bindings.getTouchPoints (Bindings.processEvent sdl e m))).
Proof.
  intros Hnd. rewrite processEvent_touchPoints.
  destruct e; try exact Hnd.
  - apply finger_down_NoDup. exact Hnd.
  - apply finger_up_NoDup. exact Hnd.
  - rewrite finger_motion_ids. exact Hnd.
Qed.

End TouchEvents.

(** C5.  Event processing keeps the ids of the touch points distinct (from
    the constructor on, and step by step); a finger-down with a new id
    appends a point; a finger-motion rewrites the position of the point
    with that id where it stands and changes no id; a finger-up leaves
    exactly the points with other ids; a point created with id 3 at (10,20)
    and moved to (12,22) is read as id 3 at (12,22), and is gone after its
    release. *)
Theorem C5_touch_points (Game : Type) (sdl : Platform) (m : Bindings.InputManager Game)
    (fid : Z) (fx fy : Q) :
  NoDup (ids (Bindings.getTouchPoints m)) ->
  (forall e, NoDup (ids (Bindings.getTouchPoints (Bindings.processEvent sdl e m)))) /\
  (forall events,
     NoDup (ids (Bindings.getTouchPoints
                   (process_events events (@Bindings.InputManager_new Game))))) /\
  (to_int32 fid ∉ ids (Bindings.getTouchPoints m) ->
   Bindings.getTouchPoints (Bindings.processEvent sdl (SDL_FINGERDOWN fid fx fy) m)
   = Bindings.getTouchPoints m
     ++ [{| Bindings.id := to_int32 fid; Bindings.x := fx; Bindings.y := fy;
            Bindings.pressed := true |}]) /\
  (Bindings.getTouchPoints (Bindings.processEvent sdl (SDL_FINGERMOTION fid fx fy) m)
   = map (fun tp => if Bindings.id tp =? to_int32 fid then moved fx fy tp else tp)
       (Bindings.getTouchPoints m)) /\
  (Bindings.getTouchPoints (Bindings.processEvent sdl (SDL_FINGERUP fid fx fy) m)
   = filter (fun tp => Bindings.id tp <> to_int32 fid) (Bindings.getTouchPoints m)) /\
  (to_int32 fid
   ∉ ids (Bindings.getTouchPoints (Bindings.processEvent sdl (SDL_FINGERUP fid fx fy) m))) /\
  (let m1 := process_events [(sdl, SDL_FINGERDOWN 3 10 20); (sdl, SDL_FINGERMOTION 3 12 22)]
               (@Bindings.InputManager_new Game) in
   Bindings.getTouchPoints m1
   = [{| Bindings.id := 3; Bindings.x := 12%Q; Bindings.y := 22%Q; Bindings.pressed := true |}]
   /\ Bindings.getTouchPoints (Bindings.processEvent sdl (SDL_FINGERUP 3 12 22) m1) = []).
Proof.
  intros Hnd. split; [|split; [|split; [|split; [|split; [|split]]]]].
  - intros e. apply processEvent_NoDup. exact Hnd.
  - intros events. unfold process_events.
    assert (H0 : NoDup (ids (Bindings.getTouchPoints (@Bindings.InputManager_new Game))))
      by apply NoDup_nil_2.
    revert H0. generalize (@Bindings.InputManager_new Game).
    induction events as [|[p e] events IH]; intros m0 H0; [exact H0|].
    cbn [fold_left fst snd]. apply IH. apply processEvent_NoDup. exact H0.
  - intros Hnew. rewrite processEvent_touchPoints. unfold Bindings.finger_down.
    rewrite replace_point_none by exact Hnew. reflexivity.
  - rewrite processEvent_touchPoints. apply finger_motion_map. exact Hnd.
  - rewrite processEvent_touchPoints. apply finger_up_filter.
  - rewrite processEvent_touchPoints, finger_up_filter. unfold ids.
    intros Hin. apply list_elem_of_fmap in Hin as (q & Hq & Hin).
    apply list_elem_of_filter in Hin as [Hne _]. congruence.
  - split; reflexivity.
Qed.

(** The theorem at a manager holding the point 3 at (10,20), for a second
    finger 4. *)
Lemma C5_touch_points_witness :
  let m := Bindings.processEvent quiet (SDL_FINGERDOWN 3 10 20)
             (@Bindings.InputManager_new unit) in
  NoDup (ids (Bindings.getTouchPoints m)) /\
  Bindings.getTouchPoints (Bindings.processEvent quiet (SDL_FINGERUP 4 0 0) m)
  = filter (fun tp => Bindings.id tp <> to_int32 4) (Bindings.getTouchPoints m).
Proof.
  assert (H : NoDup (ids (Bindings.getTouchPoints
                            (Bindings.processEvent quiet (SDL_FINGERDOWN 3 10 20)
                               (@Bindings.InputManager_new unit)))))
    by (apply NoDup_singleton).
  split; [exact H|].
  exact (proj1 (proj2 (proj2 (proj2 (proj2
           (C5_touch_points unit quiet _ 4 0%Q 0%Q H)))))).
Defined.

(** ** Hotplug *)



Lemma GamepadInput_update_rescan sdl g h i :
  Devices.controller g = None ->
  scan_controllers sdl = Some (h, i) ->
  controller_attached sdl h = true ->
  Devices.GamepadInput_update sdl g
  = {| Devices.controller := Some h;
       Devices.controllerWasConnected := true;
       Devices.previousButtonStates := Devices.currentButtonStates g;
       Devices.currentButtonStates := Devices.read_buttons sdl h;
       Devices.axisValues := Devices.read_axes sdl h |}.
Proof.
  intros Hc Hs Ha. unfold Devices.GamepadInput_update. rewrite Hc, Hs. cbn [fmap option_fmap option_map fst].
  rewrite Ha. reflexivity.
Qed.

Lemma bound_queries (g : Devices.GamepadInput) sdl h :
  Devices.controller g = Some h ->
  Devices.currentButtonStates g = Devices.read_buttons sdl h ->
  Devices.axisValues g = Devices.read_axes sdl h ->
  (forall button, (button < SDL_CONTROLLER_BUTTON_MAX)%nat ->
     Devices.GamepadInput_isButtonPressed g button = (controller_button sdl h button =? 1)) /\
  (forall axis, (axis < SDL_CONTROLLER_AXIS_MAX)%nat ->
     Devices.GamepadInput_getAxisValue g axis
     = Devices.shape Devices.deadzone (Devices.normalize (controller_axis sdl h axis))).
Proof.
  intros Hc Hb Hx. split.
  - intros button Hlt. unfold Devices.GamepadInput_isButtonPressed, Devices.GamepadInput_isAvailable.
    rewrite Hc, Hb. cbn [negb orb]. apply Nat.leb_gt in Hlt. rewrite Hlt.
    apply Nat.leb_gt in Hlt. apply read_buttons_nth. exact Hlt.
  - intros axis Hlt. unfold Devices.GamepadInput_getAxisValue, Devices.GamepadInput_isAvailable.
    rewrite Hc, Hx. cbn [negb orb]. apply Nat.leb_gt in Hlt. rewrite Hlt.
    apply Nat.leb_gt in Hlt. rewrite read_axes_nth by exact Hlt. reflexivity.
Qed.

(** ** Rebinding *)

Section Rebinding.
Context {Game : Type}.
Implicit Types (m : Bindings.InputManager Game) (c : Bindings.CommandFunction Game).





Lemma bind_lookups key button gbutton axis c dz m :
  Bindings.m_keyCommands (Bindings.bindKeyCommand key c m) !! key = Some c /\
  Bindings.m_mouseCommands (Bindings.bindMouseCommand button c m) !! button = Some c /\
  Bindings.m_gamepadButtonCommands (Bindings.bindGamepadButtonCommand gbutton c m) !! gbutton
  = Some c /\
  Bindings.m_gamepadAxisCommands (Bindings.bindGamepadAxisCommand axis c dz m) !! axis
  = Some (c, dz).
Proof.
  destruct m. unfold Bindings.bindKeyCommand, Bindings.bindMouseCommand,
    Bindings.bindGamepadButtonCommand, Bindings.bindGamepadAxisCommand. cbn.
  repeat split; apply lookup_insert_eq.
Qed.

End Rebinding.

(** ** The two designs on axes *)

(** C9.  The default deadzone of [bindGamepadAxisCommand] is 0.25 and is
    what a bind without a deadzone stores; the deadzone inside
    [GamepadInput::getAxisValue] is 0.15; they differ.  For the raw reading
    20000 the binding-table design reports 20000/32767 (unshaped, and passes
    it to the callback since it exceeds 0.25) while the delegation design
    reports the shaped (20000/32768 - 0.15)/0.85: different values.  For the
    raw reading 6554 (about 0.2) the delegation design reports a non-zero
    value while the binding-table design makes no call, 0.2 being compared
    with 0.25. *)
Theorem C9_designs_differ_on_axes :
  (Bindings.default_deadzone == 1 / 4)%Q /\
  (Devices.deadzone == 15 / 100)%Q /\
  ~ (Bindings.default_deadzone == Devices.deadzone)%Q /\
  (forall (Game : Type) axis (c : Bindings.CommandFunction Game) m,
     Bindings.m_gamepadAxisCommands (Bindings.bindGamepadAxisCommand_default axis c m) !! axis
     = Some (c, Bindings.default_deadzone)) /\
  (binding_table_axis 20000 = Some (inject_Z 20000 / 32767)%Q /\
   (delegation_axis 20000 == (inject_Z 20000 / 32768 - 15 / 100) / (85 / 100))%Q /\
   ~ (inject_Z 20000 / 32767 == delegation_axis 20000)%Q /\
   binding_table_calls 20000
   = Some [Bindings.Build_Invocation (Bindings.GamepadAxisInput Bindings.GamepadAxis.LEFTX)
             record_payload (inject_Z 20000 / 32767)%Q]) /\
  (binding_table_axis 6554 = Some (inject_Z 6554 / 32767)%Q /\
   binding_table_calls 6554 = Some [] /\
   (0 < delegation_axis 6554)%Q).
Proof.
  split; [reflexivity|]. split; [reflexivity|]. split; [discriminate|].
  split; [|split; [split; [|split; [|split]] | split; [|split]]].
  - intros Game axis c m. unfold Bindings.bindGamepadAxisCommand_default.
    apply (bind_lookups 0 0 Bindings.GamepadButton.A axis c Bindings.default_deadzone m).
  - vm_compute. reflexivity.
  - vm_compute. reflexivity.
  - vm_compute. discriminate.
  - vm_compute. reflexivity.
  - vm_compute. reflexivity.
  - vm_compute. reflexivity.
  - vm_compute. reflexivity.
Qed.

(** ** The keyboard pointer *)

Section KeyboardPointer.
Context {Game : Type}.
Implicit Types (m : Bindings.InputManager Game) (g : Game).

Lemma keyboard_ptr_processEvent sdl e m :
  Bindings.m_currentKeyboardState (Bindings.processEvent sdl e m)
  = Bindings.m_currentKeyboardState m.
Proof.
  unfold Bindings.processEvent.
  destruct e; try (destruct m; reflexivity).
  - destruct (Bindings.m_gameController m); destruct m; reflexivity.
  - destruct (Bindings.m_gameController m); [|reflexivity].
    destruct (which =? Bindings.m_gameControllerIndex m); [|reflexivity].
    destruct (scan_controllers sdl) as [[h0 i0]|]; destruct m; reflexivity.
Qed.

Lemma keyboard_ptr_shutdown m :
  Bindings.m_currentKeyboardState (Bindings.shutdown m) = Bindings.m_currentKeyboardState m.
Proof.
  unfold Bindings.shutdown. destruct (Bindings.m_gameController m); destruct m; reflexivity.
Qed.

Lemma keyboard_ptr_init sdl m :
  Bindings.m_currentKeyboardState (fst (Bindings.init sdl m)) = Some SdlKeyArray \/
  fst (Bindings.init sdl m) = m.
Proof.
  unfold Bindings.init.
  destruct (negb (was_init_gamecontroller sdl) && negb (init_subsystem_ok sdl)); [right; reflexivity|].
  left. cbn [fst]. destruct (scan_controllers sdl) as [[h i]|]; destruct m; reflexivity.
Qed.

Lemma keyboard_ptr_update sdl dt m g st :
  Bindings.update sdl dt (m, g) = Some st ->
  Bindings.m_currentKeyboardState (fst st) = Bindings.m_currentKeyboardState m.
Proof.
  intros H. destruct (update_keyboard_view sdl dt m g st H) as (m1 & Hm1 & -> & _).
  destruct (updateKeyboardState_inv sdl m m1 Hm1) as [prev ->].
  apply keyboard_ptr_set_previousKeyState.
Qed.

(** Every call but [init] leaves the keyboard pointer as it was. *)
Lemma call_step_keeps_ptr (c : Call Game) st st' :
  is_init c = false ->
  call_step c st = Some st' ->
  Bindings.m_currentKeyboardState (fst st') = Bindings.m_currentKeyboardState (fst st).
Proof.
  destruct st as [m g]. destruct c; cbn [call_step is_init fst snd]; intros Hi Hs;
    try discriminate; try (injection Hs as <-; cbn [fst]).
  - apply keyboard_ptr_shutdown.
  - exact (keyboard_ptr_update sdl deltaTime m g st' Hs).
  - apply keyboard_ptr_processEvent.
  - destruct m; reflexivity.
  - destruct m; reflexivity.
  - destruct m; reflexivity.
  - destruct m; reflexivity.
  - destruct m; reflexivity.
Qed.

(** Once set, the pointer stays set and every call completes. *)
Lemma call_step_initialised (c : Call Game) st :
  Bindings.m_currentKeyboardState (fst st) = Some SdlKeyArray ->
  exists st', call_step c st = Some st' /\
    Bindings.m_currentKeyboardState (fst st') = Some SdlKeyArray.
Proof.
  intros H. destruct (is_init c) eqn:Hi.
  - destruct c; try discriminate. cbn [call_step]. eexists. split; [reflexivity|].
    cbn [fst]. destruct (keyboard_ptr_init sdl (fst st)) as [E|E]; [exact E | rewrite E; exact H].
  - assert (Hs : exists st', call_step c st = Some st').
    { destruct c; try discriminate; cbn [call_step]; eauto.
      destruct st as [m g]. apply update_some. exact H. }
    destruct Hs as [st' Hs]. exists st'. split; [exact Hs|].
    rewrite (call_step_keeps_ptr c st st' Hi Hs). exact H.
Qed.

Lemma run_calls_initialised (calls : list (Call Game)) st :
  Bindings.m_currentKeyboardState (fst st) = Some SdlKeyArray ->
  exists st', run_calls calls st = Some st' /\
    Bindings.m_currentKeyboardState (fst st') = Some SdlKeyArray.
Proof.
  unfold run_calls. revert st. induction calls as [|c calls IH]; intros st H.
  - exists st. split; [reflexivity | exact H].
  - cbn [fold_left mbind option_bind].
    destruct (call_step_initialised c st H) as (st1 & -> & H1).
    apply IH. exact H1.
Qed.

Lemma run_calls_uninitialised (calls : list (Call Game)) st st' :
  forallb (fun c => negb (is_init c)) calls = true ->
  Bindings.m_currentKeyboardState (fst st) = None ->
  run_calls calls st = Some st' ->
  Bindings.m_currentKeyboardState (fst st') = None.
Proof.
  unfold run_calls. revert st. induction calls as [|c calls IH]; intros st Hall H Hrun.
  - cbn in Hrun. injection Hrun as <-. exact H.
  - cbn [forallb] in Hall. apply andb_prop in Hall as [Hc Hall].
    apply negb_true_iff in Hc.
    cbn [fold_left mbind option_bind] in Hrun.
    destruct (call_step c st) as [st1|] eqn:Hs.
    + apply (IH st1 Hall); [|exact Hrun].
      rewrite (call_step_keeps_ptr c st st1 Hc Hs). exact H.
    + exfalso. clear -Hrun. induction calls as [|c' calls IH]; [discriminate|].
      cbn [fold_left mbind option_bind] in Hrun. exact (IH Hrun).
Qed.

Lemma keyboard_queries_null sdl m key :
  Bindings.m_currentKeyboardState m = None ->
  Bindings.isKeyDown sdl m key = None /\
  Bindings.isKeyPressed sdl m key = None /\
  Bindings.isKeyReleased sdl m key = None.
Proof.
  intros H. unfold Bindings.isKeyDown, Bindings.isKeyPressed, Bindings.isKeyReleased.
  rewrite H. repeat split.
Qed.

Lemma keyboard_queries_set sdl m key :
  Bindings.m_currentKeyboardState m = Some SdlKeyArray ->
  is_Some (Bindings.isKeyDown sdl m key) /\
  is_Some (Bindings.isKeyPressed sdl m key) /\
  is_Some (Bindings.isKeyReleased sdl m key).
Proof.
  intros H. unfold Bindings.isKeyDown, Bindings.isKeyPressed, Bindings.isKeyReleased.
  rewrite H. cbn. repeat split; eauto.
Qed.

End KeyboardPointer.

(** C10.  Binding-table manager.  The constructor leaves the keyboard
    pointer null, and the three keyboard queries read through it unguarded:
    on a constructed manager, and after any calls that do not include
    [init], each of them is a read through the null pointer.  A failed
    [init] changes nothing.  After an [init] that returned true the pointer
    is set, every later sequence of calls completes, and after it each of
    the three queries returns a value: the null read is unreachable. *)
Theorem C10_keyboard_queries_need_init (Game : Type) (g : Game) :
  Bindings.m_currentKeyboardState (@Bindings.InputManager_new Game) = None /\
  (forall sdl m key,
     Bindings.m_currentKeyboardState m = None ->
     Bindings.isKeyDown sdl (m : Bindings.InputManager Game) key = None /\
     Bindings.isKeyPressed sdl m key = None /\
     Bindings.isKeyReleased sdl m key = None) /\
  (forall calls st',
     forallb (fun c => negb (is_init c)) calls = true ->
     run_calls calls (Bindings.InputManager_new, g) = Some st' ->
     forall sdl key,
       Bindings.isKeyDown sdl (fst st') key = None /\
       Bindings.isKeyPressed sdl (fst st') key = None /\
       Bindings.isKeyReleased sdl (fst st') key = None) /\
  (forall sdl (m : Bindings.InputManager Game),
     snd (Bindings.init sdl m) = false -> fst (Bindings.init sdl m) = m) /\
  (forall sdl (m : Bindings.InputManager Game),
     snd (Bindings.init sdl m) = true ->
     Bindings.m_currentKeyboardState (fst (Bindings.init sdl m)) = Some SdlKeyArray /\
     forall calls,
       exists st', run_calls calls (fst (Bindings.init sdl m), g) = Some st' /\
         forall sdl' key,
           is_Some (Bindings.isKeyDown sdl' (fst st') key) /\
           is_Some (Bindings.isKeyPressed sdl' (fst st') key) /\
           is_Some (Bindings.isKeyReleased sdl' (fst st') key)).
Proof.
  split; [reflexivity|]. split; [|split; [|split]].
  - intros sdl m key. apply keyboard_queries_null.
  - intros calls st' Hall Hrun sdl key. apply keyboard_queries_null.
    exact (run_calls_uninitialised calls (Bindings.InputManager_new, g) st' Hall eq_refl Hrun).
  - intros sdl m. unfold Bindings.init.
    destruct (negb (was_init_gamecontroller sdl) && negb (init_subsystem_ok sdl));
      [reflexivity | discriminate].
  - intros sdl m Hok. pose proof (keyboard_ptr_init_true sdl m Hok) as Hptr.
    split; [exact Hptr|]. intros calls.
    destruct (run_calls_initialised calls (fst (Bindings.init sdl m), g) Hptr)
      as (st' & Hrun & Hptr').
    exists st'. split; [exact Hrun|].
    intros sdl' key. apply keyboard_queries_set. exact Hptr'.
Qed.

(** The theorem at a manager initialised on the quiet platform, then bound
    and updated once. *)
Lemma C10_keyboard_queries_need_init_witness :
  snd (Bindings.init quiet (@Bindings.InputManager_new Z)) = true /\
  exists st',
    run_calls [CallBindKey SDLK_a increment; CallUpdate quiet 1%Q]
      (fst (Bindings.init quiet Bindings.InputManager_new), 0) = Some st' /\
    is_Some (Bindings.isKeyDown quiet (fst st') SDLK_a).
Proof.
  assert (H : snd (Bindings.init quiet (@Bindings.InputManager_new Z)) = true) by reflexivity.
  split; [exact H|].
  destruct (proj2 (proj2 (proj2 (proj2 (proj2 (C10_keyboard_queries_need_init Z 0))))
                     quiet Bindings.InputManager_new H)
              [CallBindKey SDLK_a increment; CallUpdate quiet 1%Q])
    as (st' & Hrun & Hq).
  exists st'. split; [exact Hrun|]. exact (proj1 (Hq quiet SDLK_a)).
Defined.

(** ** Binary32 against the rational model *)

Lemma axis_check_from_spec (n : nat) (raw : Z) :
  axis_check_from n raw (Binary32.delegation_axis raw) = true ->
  forall r, raw <= r < raw + Z.of_nat n ->
    point_check r (Binary32.delegation_axis r) = true /\
    step_check (Binary32.delegation_axis r) (Binary32.delegation_axis (r + 1)) = true.
Proof.
  revert raw. induction n as [|n IH]; intros raw H r Hr; [lia|].
  cbn [axis_check_from] in H. cbv zeta in H.
  apply andb_prop in H as [H Hrest]. apply andb_prop in H as [Hp Hs].
  destruct (Z.eq_dec r raw) as [->|Hne]; [split; assumption|].
  apply (IH (raw + 1) Hrest). lia.
Qed.

Lemma axis_check_all :
  axis_check_from (Z.to_nat 65536) (-32768) (Binary32.delegation_axis (-32768)) = true.
Proof. vm_compute. reflexivity. Qed.

(** X25.  On every 16-bit reading, the binary32 result of
    [GamepadInput::getAxisValue] is a finite number within 2^-24 of the
    rational model, of magnitude at most 1, zero exactly when the rational
    model is zero, and from one reading to the next it does not decrease and
    increases strictly unless both results are zero. *)
Lemma binary32_matches_rational (raw : Z) :
  -32768 <= raw <= 32767 ->
  let f := Binary32.delegation_axis raw in
  let exact := Devices.shape Devices.deadzone (Devices.normalize raw) in
  Binary32.is_finite f = true /\
  (Qabs (Binary32.to_Q f - exact) <= 1 # 16777216)%Q /\
  (Qabs (Binary32.to_Q f) <= 1)%Q /\
  (Binary32.is_zero f = true <-> (exact == 0)%Q) /\
  (raw < 32767 ->
   let f' := Binary32.delegation_axis (raw + 1) in
   SFleb f f' = true /\
   (SFltb f f' = true \/ (Binary32.is_zero f = true /\ Binary32.is_zero f' = true))).
Proof.
  intros Hr f exact.
  destruct (axis_check_from_spec _ _ axis_check_all raw) as [Hp Hs]; [lia|].
  unfold point_check in Hp. fold f exact in Hp.
  apply andb_prop in Hp as [Hp Hz]. apply andb_prop in Hp as [Hp Hb].
  apply andb_prop in Hp as [Hf He].
  split; [exact Hf|]. split; [apply Qle_bool_iff; exact He|].
  split; [apply Qle_bool_iff; exact Hb|]. split.
  - apply Bool.eqb_prop in Hz. rewrite Hz. apply Qeq_bool_iff.
  - intros _ f'. unfold step_check in Hs. fold f f' in Hs.
    apply andb_prop in Hs as [Hle Hs]. split; [exact Hle|].
    apply orb_prop in Hs as [Hs|Hs]; [left; exact Hs|].
    right. apply andb_prop in Hs. exact Hs.
Qed.

(** In binary32 too the two designs report different values for the raw
    readings 20000 and 6554, the second below the binding default 0.25. *)
Lemma binary32_designs_differ :
  SFeqb (Binary32.binding_table_axis 20000) (Binary32.delegation_axis 20000) = false /\
  SFeqb (Binary32.binding_table_axis 6554) (Binary32.delegation_axis 6554) = false /\
  SFltb Binary32.f32_zero (Binary32.delegation_axis 6554) = true /\
  SFltb (Binary32.binding_table_axis 6554) (Binary32.f32_div Binary32.f32_one (Binary32.f32_of_Z 4))
  = true.
Proof. repeat split. Qed.

(** * Further properties of the code *)

(** ** The controller scan *)

Lemma scan_from_some (sdl : Platform) (n i : nat) (h : Handle) (j : nat) :
  scan_from sdl i n = Some (h, j) <->
  (i <= j < i + n)%nat /\
  is_game_controller sdl j = true /\
  controller_open sdl j = Some h /\
  (forall k, (i <= k < j)%nat ->
     is_game_controller sdl k = false \/ controller_open sdl k = None).
Proof.
  revert i. induction n as [|n IH]; intros i; cbn [scan_from].
  - split; [discriminate | intros [? _]; lia].
  - destruct (is_game_controller sdl i) eqn:Hg;
      [destruct (controller_open sdl i) as [h0|] eqn:Ho|].
    + split.
      * intros [= <- <-]. repeat split; try assumption; lia.
      * intros (Hr & Hgj & Hoj & Hmin).
        destruct (Nat.eq_dec j i) as [->|Hne]; [congruence|].
        destruct (Hmin i) as [E|E]; [lia | congruence | congruence].
    + rewrite IH. split.
      * intros (Hr & Hgj & Hoj & Hmin). repeat split; try assumption; try lia.
        intros k Hk. destruct (Nat.eq_dec k i) as [->|Hne]; [right; exact Ho|].
        apply Hmin. lia.
      * intros (Hr & Hgj & Hoj & Hmin).
        assert (j <> i) by (intros ->; congruence).
        repeat split; try assumption; try lia. intros k Hk. apply Hmin. lia.
    + rewrite IH. split.
      * intros (Hr & Hgj & Hoj & Hmin). repeat split; try assumption; try lia.
        intros k Hk. destruct (Nat.eq_dec k i) as [->|Hne]; [left; exact Hg|].
        apply Hmin. lia.
      * intros (Hr & Hgj & Hoj & Hmin).
        assert (j <> i) by (intros ->; congruence).
        repeat split; try assumption; try lia. intros k Hk. apply Hmin. lia.
Qed.

Lemma scan_from_none (sdl : Platform) (n i : nat) :
  scan_from sdl i n = None <->
  (forall k, (i <= k < i + n)%nat ->
     is_game_controller sdl k = false \/ controller_open sdl k = None).
Proof.
  revert i. induction n as [|n IH]; intros i; cbn [scan_from].
  - split; [intros _ k Hk; lia | reflexivity].
  - destruct (is_game_controller sdl i) eqn:Hg;
      [destruct (controller_open sdl i) as [h0|] eqn:Ho|].
    + split; [discriminate|]. intros H. destruct (H i) as [E|E]; [lia | congruence | congruence].
    + rewrite IH. split; intros H k Hk.
      * destruct (Nat.eq_dec k i) as [->|Hne]; [right; exact Ho | apply H; lia].
      * apply H. lia.
    + rewrite IH. split; intros H k Hk.
      * destruct (Nat.eq_dec k i) as [->|Hne]; [left; exact Hg | apply H; lia].
      * apply H. lia.
Qed.

(** X1.  The scan shared by [init], the removal handler and
    [GamepadInput::update] binds the game controller of least device index
    that opens: it returns handle [h] at index [j] exactly when [j] is a
    joystick index, a game controller, opens as [h], and every smaller index
    is not a game controller or fails to open; it finds nothing exactly when
    no index qualifies. *)
Theorem scan_controllers_first_that_opens (sdl : Platform) :
  (forall h j,
     scan_controllers sdl = Some (h, j) <->
     (j < num_joysticks sdl)%nat /\
     is_game_controller sdl j = true /\
     controller_open sdl j = Some h /\
     (forall k, (k < j)%nat ->
        is_game_controller sdl k = false \/ controller_open sdl k = None)) /\
  (scan_controllers sdl = None <->
   forall k, (k < num_joysticks sdl)%nat ->
     is_game_controller sdl k = false \/ controller_open sdl k = None).
Proof.
  unfold scan_controllers. split.
  - intros h j. rewrite scan_from_some. split.
    + intros (Hr & Hg & Ho & Hmin). repeat split; try assumption; try lia.
      intros k Hk. apply Hmin. lia.
    + intros (Hr & Hg & Ho & Hmin). repeat split; try assumption; try lia.
      intros k Hk. apply Hmin. lia.
  - rewrite scan_from_none. split; intros H k Hk; apply H; lia.
Qed.

(** ** Tables of names and of SDL indices *)

(** X2.  Display names identify the input: two gamepad buttons with the
    same name are the same button, likewise for axes, and "Unknown" is the
    name of [NONE] only. *)
Theorem gamepad_names_identify :
  (forall b1 b2, Bindings.getGamepadButtonName b1 = Bindings.getGamepadButtonName b2 -> b1 = b2) /\
  (forall a1 a2, Bindings.getGamepadAxisName a1 = Bindings.getGamepadAxisName a2 -> a1 = a2) /\
  (forall b, Bindings.getGamepadButtonName b = "Unknown"%string <-> b = Bindings.GamepadButton.NONE) /\
  (forall a, Bindings.getGamepadAxisName a = "Unknown"%string <-> a = Bindings.GamepadAxis.NONE).
Proof.
  split; [|split; [|split]].
  - intros b1 b2. destruct b1, b2; cbn; intros H; try reflexivity; discriminate H.
  - intros a1 a2. destruct a1, a2; cbn; intros H; try reflexivity; discriminate H.
  - intros b. split; [destruct b; cbn; intros H; try reflexivity; discriminate H | intros ->; reflexivity].
  - intros a. split; [destruct a; cbn; intros H; try reflexivity; discriminate H | intros ->; reflexivity].
Qed.

Lemma button_index_byte (i : nat) :
  Bindings.GamepadButton.to_nat (Bindings.sdlButtonToGamepadButton i)
  = if (i mod 256 <? 16)%nat then (i mod 256)%nat else 21%nat.
Proof.
  unfold Bindings.sdlButtonToGamepadButton, Bindings.to_Uint8.
  generalize (i mod 256)%nat. intros n.
  do 16 (destruct n as [|n]; [reflexivity|]). reflexivity.
Qed.

Lemma sdlButton_none (i : nat) :
  (16 <= i mod 256)%nat -> Bindings.sdlButtonToGamepadButton i = Bindings.GamepadButton.NONE.
Proof.
  unfold Bindings.sdlButtonToGamepadButton, Bindings.to_Uint8.
  generalize (i mod 256)%nat. intros n H.
  do 16 (destruct n as [|n]; [lia|]). reflexivity.
Qed.

Lemma axis_index_byte (i : nat) :
  Bindings.GamepadAxis.to_nat (Bindings.sdlAxisToGamepadAxis i)
  = if (i mod 256 <? 6)%nat then (i mod 256)%nat else 6%nat.
Proof.
  unfold Bindings.sdlAxisToGamepadAxis, Bindings.to_Uint8.
  generalize (i mod 256)%nat. intros n.
  do 6 (destruct n as [|n]; [reflexivity|]). reflexivity.
Qed.

(** X3.  The translation of SDL button and axis indices takes a byte: an
    index counts modulo 256, so 256 is translated as 0 is.  On bytes it is
    one-to-one on what it maps: 0..15 go to sixteen distinct buttons and
    every other byte to [NONE]; 0..5 go to six distinct axes and every other
    byte to [NONE].  The paddles and the touchpad are the image of no
    index. *)
Theorem sdl_index_translation :
  (forall i, Bindings.sdlButtonToGamepadButton i = Bindings.GamepadButton.NONE
             <-> (16 <= i mod 256)%nat) /\
  (forall i j, (i mod 256 < 16)%nat ->
     Bindings.sdlButtonToGamepadButton i = Bindings.sdlButtonToGamepadButton j ->
     (i mod 256 = j mod 256)%nat) /\
  (forall i b, Bindings.sdlButtonToGamepadButton i = b ->
     b <> Bindings.GamepadButton.PADDLE1 /\ b <> Bindings.GamepadButton.PADDLE2 /\
     b <> Bindings.GamepadButton.PADDLE3 /\ b <> Bindings.GamepadButton.PADDLE4 /\
     b <> Bindings.GamepadButton.TOUCHPAD) /\
  (forall i, Bindings.sdlAxisToGamepadAxis i = Bindings.GamepadAxis.NONE
             <-> (6 <= i mod 256)%nat) /\
  (forall i j, (i mod 256 < 6)%nat ->
     Bindings.sdlAxisToGamepadAxis i = Bindings.sdlAxisToGamepadAxis j ->
     (i mod 256 = j mod 256)%nat) /\
  (forall i, Bindings.sdlButtonToGamepadButton (i + 256) = Bindings.sdlButtonToGamepadButton i /\
             Bindings.sdlAxisToGamepadAxis (i + 256) = Bindings.sdlAxisToGamepadAxis i) /\
  Bindings.sdlButtonToGamepadButton 256 = Bindings.GamepadButton.A /\
  Bindings.sdlAxisToGamepadAxis 256 = Bindings.GamepadAxis.LEFTX.
Proof.
  pose proof button_index_byte as Hb. pose proof axis_index_byte as Ha.
  assert (Hinjb : forall b1 b2, Bindings.GamepadButton.to_nat b1 = Bindings.GamepadButton.to_nat b2
                                -> b1 = b2).
  { intros b1 b2 H. rewrite <- (Bindings.GamepadButton.button_of_to_nat b1),
      <- (Bindings.GamepadButton.button_of_to_nat b2), H. reflexivity. }
  assert (Hinja : forall a1 a2, Bindings.GamepadAxis.to_nat a1 = Bindings.GamepadAxis.to_nat a2
                                -> a1 = a2).
  { intros a1 a2 H. rewrite <- (Bindings.GamepadAxis.axis_of_to_nat a1),
      <- (Bindings.GamepadAxis.axis_of_to_nat a2), H. reflexivity. }
  split; [|split; [|split; [|split; [|split; [|split; [|split]]]]]].
  - intros i. split.
    + intros H. apply (f_equal Bindings.GamepadButton.to_nat) in H. rewrite Hb in H.
      change (Bindings.GamepadButton.to_nat Bindings.GamepadButton.NONE) with 21%nat in H.
      revert H. destruct (Nat.ltb_spec (i mod 256) 16); lia.
    + intros H. apply Hinjb. rewrite Hb.
      destruct (Nat.ltb_spec (i mod 256) 16); [lia | reflexivity].
  - intros i j Hi H. apply (f_equal Bindings.GamepadButton.to_nat) in H. rewrite !Hb in H.
    revert H. destruct (Nat.ltb_spec (i mod 256) 16); [|lia].
    destruct (Nat.ltb_spec (j mod 256) 16); lia.
  - intros i b <-.
    repeat split; intros H; apply (f_equal Bindings.GamepadButton.to_nat) in H;
      rewrite Hb in H; revert H; destruct (Nat.ltb_spec (i mod 256) 16);
      cbn [Bindings.GamepadButton.to_nat]; lia.
  - intros i. split.
    + intros H. apply (f_equal Bindings.GamepadAxis.to_nat) in H. rewrite Ha in H.
      change (Bindings.GamepadAxis.to_nat Bindings.GamepadAxis.NONE) with 6%nat in H.
      revert H. destruct (Nat.ltb_spec (i mod 256) 6); lia.
    + intros H. apply Hinja. rewrite Ha.
      destruct (Nat.ltb_spec (i mod 256) 6); [lia | reflexivity].
  - intros i j Hi H. apply (f_equal Bindings.GamepadAxis.to_nat) in H. rewrite !Ha in H.
    revert H. destruct (Nat.ltb_spec (i mod 256) 6); [|lia].
    destruct (Nat.ltb_spec (j mod 256) 6); lia.
  - intros i.
    assert (Hm : ((i + 256) mod 256 = i mod 256)%nat).
    { replace (i + 256)%nat with (i + 1 * 256)%nat by lia. apply Nat.Div0.mod_add. }
    split; [apply Hinjb; rewrite !Hb, Hm | apply Hinja; rewrite !Ha, Hm]; reflexivity.
  - reflexivity.
  - reflexivity.
Qed.

(** ** The mouse button mask *)

Lemma land_bit (s n : Z) :
  0 <= n -> (Z.land s (Z.shiftl 1 n) =? 0) = negb (Z.testbit s n).
Proof.
  intros Hn. rewrite Z.shiftl_1_l.
  destruct (Z.testbit s n) eqn:Hb; cbn [negb].
  - apply Z.eqb_neq. intros H. apply (f_equal (fun z => Z.testbit z n)) in H.
    rewrite Z.land_spec, Hb, Z.pow2_bits_true, Z.bits_0 in H by exact Hn. discriminate.
  - apply Z.eqb_eq. apply Z.bits_inj'. intros k Hk.
    rewrite Z.land_spec, Z.bits_0.
    destruct (Z.eq_dec k n) as [->|Hne].
    + rewrite Hb. reflexivity.
    + rewrite Z.pow2_bits_false by lia. apply andb_false_r.
Qed.

(** X4.  Mouse buttons are independent bits: for a button number from 1
    to 32, the button is down exactly when bit [button - 1] of the 32-bit
    state is set, in both designs; so the answer for one button never
    depends on the other buttons. *)
Theorem mouse_button_is_one_bit (Game : Type) (m : Bindings.InputManager Game)
    (d : Devices.MouseInput) (button : Z) :
  1 <= button <= 32 ->
  Bindings.isMouseButtonDown m button
  = Z.testbit (Bindings.m_currentMouseState m) (button - 1) /\
  Devices.MouseInput_isButtonPressed d button
  = Z.testbit (Devices.mouseState d) (button - 1).
Proof.
  intros Hb. unfold Bindings.isMouseButtonDown, Devices.MouseInput_isButtonPressed, SDL_BUTTON.
  cbn [Devices.MouseInput_isAvailable negb].
  rewrite !land_bit by lia. rewrite !negb_involutive. split; reflexivity.
Qed.

Lemma mouse_button_is_one_bit_witness :
  1 <= 3 <= 32 /\
  Bindings.isMouseButtonDown
    (Bindings.set_mouseState 5 0 0 0 (@Bindings.InputManager_new unit)) 3
  = Z.testbit 5 (3 - 1).
Proof.
  assert (H : 1 <= 3 <= 32) by lia.
  split; [exact H|].
  exact (proj1 (mouse_button_is_one_bit unit
                  (Bindings.set_mouseState 5 0 0 0 Bindings.InputManager_new)
                  Devices.MouseInput_new 3 H)).
Defined.

Lemma scan_controllers_first_that_opens_witness :
  scan_controllers pad_A_held = Some (7%nat, 0%nat).
Proof.
  apply (proj2 (proj1 (scan_controllers_first_that_opens pad_A_held) 7%nat 0%nat)).
  split; [cbn; lia|]. split; [reflexivity|]. split; [reflexivity|]. intros k Hk. lia.
Defined.

(** ** What one update leaves in the manager *)

Section UpdateShape.
Context {Game : Type}.
Implicit Types (m : Bindings.InputManager Game) (g : Game).

Lemma set_activeInputMethod_twice a b m :
  Bindings.set_activeInputMethod a (Bindings.set_activeInputMethod b m)
  = Bindings.set_activeInputMethod a m.
Proof. destruct m; reflexivity. Qed.

(** Running the calls changes the manager in its active input method
    only, which becomes the category of the last call. *)
Lemma run_calls_manager (calls : list (Bindings.Invocation Game)) m g :
  fst (fold_left Bindings.run_call calls (m, g))
  = match last calls with
    | Some c => Bindings.set_activeInputMethod (Bindings.category (Bindings.inv_input c)) m
    | None => m
    end.
Proof.
  revert m g. induction calls as [|c calls IH]; intros m g; [reflexivity|].
  cbn [fold_left]. unfold Bindings.run_call at 2. cbn [fst snd]. rewrite IH, last_cons.
  destruct (last calls); [apply set_activeInputMethod_twice | reflexivity].
Qed.

(** The manager after [update]: the three refreshes, then the active input
    method of the last call. *)
Lemma update_manager sdl dt m g st :
  Bindings.update sdl dt (m, g) = Some st ->
  exists m1 calls,
    Bindings.updateKeyboardState sdl m = Some m1 /\
    let m3 := Bindings.updateGamepadState sdl (Bindings.updateMouseState sdl m1) in
    Bindings.dispatch sdl m3 dt = Some calls /\
    fst st = match last calls with
             | Some c =>
                 Bindings.set_activeInputMethod (Bindings.category (Bindings.inv_input c)) m3
             | None => m3
             end.
Proof.
  unfold Bindings.update. cbn [fst snd].
  destruct (Bindings.updateKeyboardState sdl m) as [m1|]; [|discriminate].
  cbn [mbind option_bind].
  destruct (Bindings.dispatch _ _ _) as [calls|] eqn:Hd; [|discriminate].
  cbn. intros [= <-]. exists m1, calls. split; [reflexivity|]. split; [exact Hd|].
  apply run_calls_manager.
Qed.

(** Any member read by [f] that the steps of [update] leave alone is the
    same after [update]. *)
Lemma update_preserves {A : Type} (f : Bindings.InputManager Game -> A) sdl dt m g st :
  (forall prev m', f (Bindings.set_previousKeyState prev m') = f m') ->
  (forall m', f (Bindings.updateMouseState sdl m') = f m') ->
  (forall m', f (Bindings.updateGamepadState sdl m') = f m') ->
  (forall a m', f (Bindings.set_activeInputMethod a m') = f m') ->
  Bindings.update sdl dt (m, g) = Some st ->
  f (fst st) = f m.
Proof.
  intros Hk Hm Hg Ha Hu.
  destruct (update_manager sdl dt m g st Hu) as (m1 & calls & H1 & _ & ->).
  destruct (updateKeyboardState_inv sdl m m1 H1) as [prev ->].
  destruct (last calls); rewrite ?Ha, Hg, Hm, Hk; reflexivity.
Qed.

Lemma tables_update sdl dt m g st :
  Bindings.update sdl dt (m, g) = Some st -> tables (fst st) = tables m.
Proof.
  apply (update_preserves tables); intros; try (destruct m'; reflexivity).
  unfold Bindings.updateGamepadState. destruct m' as [[?|] ?]; reflexivity.
Qed.

Lemma tables_processEvent sdl e m : tables (Bindings.processEvent sdl e m) = tables m.
Proof.
  unfold Bindings.processEvent.
  destruct e; try (destruct m; reflexivity).
  - destruct (Bindings.m_gameController m); destruct m; reflexivity.
  - destruct (Bindings.m_gameController m); [|reflexivity].
    destruct (which =? Bindings.m_gameControllerIndex m); [|reflexivity].
    destruct (scan_controllers sdl) as [[h0 i0]|]; destruct m; reflexivity.
Qed.

Lemma tables_init sdl m : tables (fst (Bindings.init sdl m)) = tables m.
Proof.
  unfold Bindings.init.
  destruct (negb (was_init_gamecontroller sdl) && negb (init_subsystem_ok sdl)); [reflexivity|].
  cbn [fst]. destruct (scan_controllers sdl) as [[h i]|]; destruct m; reflexivity.
Qed.

Lemma tables_shutdown m : tables (Bindings.shutdown m) = tables m.
Proof.
  unfold Bindings.shutdown. destruct (Bindings.m_gameController m); destruct m; reflexivity.
Qed.

Lemma run_calls_fail (calls : list (Call Game)) :
  fold_left (fun acc c => st' ← acc; call_step c st') calls None = None.
Proof. induction calls as [|c calls IH]; [reflexivity | exact IH]. Qed.

End UpdateShape.

(** X5.  Bindings survive everything but a bind: over any sequence of
    [init], [shutdown], [update] and [processEvent] calls (hotplug
    included) the four command tables and the touch command are what they
    were. *)
Theorem bindings_survive (Game : Type) (calls : list (Call Game))
    (st st' : Bindings.InputManager Game * Game) :
  forallb (fun c => negb (is_bind c)) calls = true ->
  run_calls calls st = Some st' ->
  tables (fst st') = tables (fst st).
Proof.
  unfold run_calls. revert st. induction calls as [|c calls IH]; intros st Hall Hrun.
  - cbn in Hrun. injection Hrun as <-. reflexivity.
  - cbn [forallb] in Hall. apply andb_prop in Hall as [Hc Hall]. apply negb_true_iff in Hc.
    cbn [fold_left mbind option_bind] in Hrun.
    destruct (call_step c st) as [st1|] eqn:Hs; [|rewrite run_calls_fail in Hrun; discriminate].
    rewrite (IH st1 Hall Hrun). destruct st as [m g].
    destruct c; try discriminate Hc; cbn [call_step fst snd] in Hs;
      try (injection Hs as <-; cbn [fst]).
    + apply tables_init.
    + apply tables_shutdown.
    + exact (tables_update sdl deltaTime m g st1 Hs).
    + apply tables_processEvent.
Qed.

Lemma bindings_survive_witness :
  let calls := [CallUpdate pad_A_held 1%Q;
                CallProcessEvent quiet (SDL_CONTROLLERDEVICEREMOVED 0);
                CallShutdown; CallInit pad_A_held; CallUpdate pad_A_held 1%Q] in
  let st' := default (counter_manager, 0) (run_calls calls (counter_manager, 0)) in
  forallb (fun c => negb (is_bind c)) calls = true /\
  run_calls calls (counter_manager, 0) = Some st' /\
  tables (fst st') = tables counter_manager.
Proof.
  intros calls st'.
  assert (H : forallb (fun c => negb (is_bind c)) calls = true) by reflexivity.
  assert (Hrun : run_calls calls (counter_manager, 0) = Some st') by (vm_compute; reflexivity).
  split; [exact H|]. split; [exact Hrun|].
  exact (bindings_survive Z calls (counter_manager, 0) st' H Hrun).
Defined.

(** X6.  Active input method after [update]: it is the device category of
    the last call the dispatch made, and it is unchanged when the dispatch
    made no call.  Since the touch callback is called last, a bound touch
    command with a finger on the screen makes the method TOUCHSCREEN
    whatever else is held. *)
Theorem active_method_after_update (Game : Type) (sdl : Platform) (dt : Q)
    (m : Bindings.InputManager Game) (g : Game) :
  Bindings.m_currentKeyboardState m = Some SdlKeyArray ->
  exists st m3 calls,
    Bindings.update sdl dt (m, g) = Some st /\
    refreshed sdl m = Some m3 /\
    Bindings.dispatch sdl m3 dt = Some calls /\
    Bindings.getActiveInputMethod (fst st)
    = match last calls with
      | Some c => Bindings.category (Bindings.inv_input c)
      | None => Bindings.getActiveInputMethod m
      end /\
    (forall command, Bindings.m_touchCommand m = Some command ->
       Bindings.isTouchActive m = true ->
       Bindings.getActiveInputMethod (fst st) = Bindings.InputType.TOUCHSCREEN).
Proof.
  intros Hptr. destruct (update_some sdl dt m g Hptr) as [st Hu]. exists st.
  destruct (update_manager sdl dt m g st Hu) as (m1 & calls & H1 & Hd & Hst).
  cbv zeta in Hd, Hst.
  set (m3 := Bindings.updateGamepadState sdl (Bindings.updateMouseState sdl m1)) in *.
  exists m3, calls. split; [exact Hu|].
  split; [unfold refreshed; rewrite H1; reflexivity|]. split; [exact Hd|].
  destruct (updateKeyboardState_inv sdl m m1 H1) as [prev Hm1].
  assert (Hact : Bindings.getActiveInputMethod m3 = Bindings.getActiveInputMethod m).
  { subst m3 m1. unfold Bindings.updateGamepadState. destruct m as [[?|] ?]; reflexivity. }
  assert (Hlast : Bindings.getActiveInputMethod (fst st)
                  = match last calls with
                    | Some c => Bindings.category (Bindings.inv_input c)
                    | None => Bindings.getActiveInputMethod m
                    end).
  { rewrite Hst. destruct (last calls); [destruct m3; reflexivity | exact Hact]. }
  split; [exact Hlast|].
  intros command Hc Ht. rewrite Hlast.
  assert (Htc : Bindings.touch_calls m3 dt
                = [Bindings.Build_Invocation Bindings.TouchGesture command dt]).
  { unfold Bindings.touch_calls, Bindings.isTouchActive in *.
    subst m3 m1. unfold Bindings.updateGamepadState.
    destruct m as [[?|] ?]; cbn in *; rewrite Hc; destruct m_touchPoints; try discriminate;
      reflexivity. }
  unfold Bindings.dispatch in Hd.
  destruct (Bindings.key_calls sdl m3 dt _) as [keys|]; [|discriminate].
  cbn in Hd. injection Hd as <-. rewrite Htc, !app_assoc, last_snoc. reflexivity.
Qed.

Lemma active_method_after_update_witness :
  Bindings.m_currentKeyboardState counter_manager = Some SdlKeyArray /\
  exists st m3 calls,
    Bindings.update pad_A_held 1%Q (counter_manager, 0) = Some st /\
    refreshed pad_A_held counter_manager = Some m3 /\
    Bindings.dispatch pad_A_held m3 1%Q = Some calls /\
    Bindings.getActiveInputMethod (fst st)
    = match last calls with
      | Some c => Bindings.category (Bindings.inv_input c)
      | None => Bindings.getActiveInputMethod counter_manager
      end.
Proof.
  assert (H : Bindings.m_currentKeyboardState counter_manager = Some SdlKeyArray)
    by reflexivity.
  split; [exact H|].
  destruct (active_method_after_update Z pad_A_held 1%Q counter_manager 0 H)
    as (st & m3 & calls & H0 & H1 & H2 & H3 & _).
  exists st, m3, calls. auto.
Defined.

(** ** Mouse of the binding-table manager *)

Section MouseFrame.
Context {Game : Type}.
Implicit Types (m : Bindings.InputManager Game) (g : Game).

Lemma mouse_after_update sdl dt m g st :
  Bindings.update sdl dt (m, g) = Some st ->
  Bindings.m_currentMouseState (fst st) = mouse_buttons sdl /\
  Bindings.m_previousMouseState (fst st) = Bindings.m_currentMouseState m /\
  Bindings.getMousePosition (fst st) = (mouse_x sdl, mouse_y sdl) /\
  Bindings.getMouseDelta (fst st) = Bindings.getMouseDelta m.
Proof.
  intros Hu.
  destruct (update_manager sdl dt m g st Hu) as (m1 & calls & H1 & _ & ->).
  destruct (updateKeyboardState_inv sdl m m1 H1) as [prev ->].
  unfold Bindings.updateGamepadState.
  destruct m as [[?|] ?]; destruct (last calls); repeat split.
Qed.

End MouseFrame.

(** X7.  Mouse edge detection of the binding-table manager (keyboard
    pointer set): after [update] a button is down as SDL reports it, it is
    pressed exactly when it is down now and was not down before the update,
    released exactly when it is not down now and was down before; it is
    never both pressed and released; and a button held over a second
    [update] is no longer pressed. *)
Theorem mouse_edges_binding_table (Game : Type) (sdl : Platform) (dt : Q)
    (m : Bindings.InputManager Game) (g : Game) (button : Z) :
  Bindings.m_currentKeyboardState m = Some SdlKeyArray ->
  exists st,
    Bindings.update sdl dt (m, g) = Some st /\
    let now := negb (Z.land (mouse_buttons sdl) (SDL_BUTTON button) =? 0) in
    let before := Bindings.isMouseButtonDown m button in
    Bindings.isMouseButtonDown (fst st) button = now /\
    Bindings.isMouseButtonPressed (fst st) button = now && negb before /\
    Bindings.isMouseButtonReleased (fst st) button = negb now && before /\
    Bindings.isMouseButtonPressed (fst st) button
      && Bindings.isMouseButtonReleased (fst st) button = false /\
    (forall sdl' dt', exists st',
       Bindings.update sdl' dt' st = Some st' /\
       (now = true ->
        Bindings.isMouseButtonDown (fst st') button = true ->
        Bindings.isMouseButtonPressed (fst st') button = false)).
Proof.
  intros Hptr. destruct (update_some sdl dt m g Hptr) as [st Hu]. exists st.
  split; [exact Hu|]. intros now before.
  destruct (mouse_after_update sdl dt m g st Hu) as (Hc & Hp & _ & _).
  assert (Hd : Bindings.isMouseButtonDown (fst st) button = now)
    by (unfold Bindings.isMouseButtonDown; rewrite Hc; reflexivity).
  assert (Hpr : Bindings.isMouseButtonPressed (fst st) button = now && negb before).
  { unfold Bindings.isMouseButtonPressed. rewrite Hc, Hp. subst now before.
    unfold Bindings.isMouseButtonDown. rewrite negb_involutive. reflexivity. }
  assert (Hre : Bindings.isMouseButtonReleased (fst st) button = negb now && before).
  { unfold Bindings.isMouseButtonReleased. rewrite Hc, Hp. subst now before.
    unfold Bindings.isMouseButtonDown. rewrite negb_involutive. reflexivity. }
  split; [exact Hd|]. split; [exact Hpr|]. split; [exact Hre|]. split.
  { rewrite Hpr, Hre. destruct now, before; reflexivity. }
  intros sdl' dt'.
  assert (Hptr' : Bindings.m_currentKeyboardState (fst st) = Some SdlKeyArray)
    by (rewrite (keyboard_ptr_update sdl dt m g st Hu); exact Hptr).
  destruct st as [m' g'].
  destruct (update_some sdl' dt' m' g' Hptr') as [st' Hu']. exists st'.
  split; [exact Hu'|]. intros Hnow Hdown'.
  destruct (mouse_after_update sdl' dt' m' g' st' Hu') as (Hc' & Hp' & _ & _).
  unfold Bindings.isMouseButtonPressed. rewrite Hp'.
  cbn [fst] in Hd. unfold Bindings.isMouseButtonDown in Hd. rewrite Hnow in Hd.
  apply negb_true_iff in Hd. rewrite Hd. apply andb_false_r.
Qed.

Lemma mouse_edges_binding_table_witness :
  Bindings.m_currentKeyboardState counter_manager = Some SdlKeyArray /\
  exists st,
    Bindings.update quiet 1%Q (counter_manager, 0) = Some st /\
    Bindings.isMouseButtonDown (fst st) 1 = false.
Proof.
  assert (H : Bindings.m_currentKeyboardState counter_manager = Some SdlKeyArray)
    by reflexivity.
  split; [exact H|].
  destruct (mouse_edges_binding_table Z quiet 1%Q counter_manager 0 1 H)
    as (st & Hu & Hd & _).
  exists st. split; [exact Hu | exact Hd].
Defined.

Section MouseEvents.
Context {Game : Type}.
Implicit Types (m : Bindings.InputManager Game).

Lemma mouse_after_event sdl e m :
  (Bindings.getMousePosition (Bindings.processEvent sdl e m),
   Bindings.getMouseDelta (Bindings.processEvent sdl e m))
  = match e with
    | SDL_MOUSEMOTION ex ey xrel yrel => ((ex, ey), (xrel, yrel))
    | _ => (Bindings.getMousePosition m, Bindings.getMouseDelta m)
    end.
Proof.
  unfold Bindings.processEvent.
  destruct e; try (destruct m; reflexivity).
  - destruct (Bindings.m_gameController m); destruct m; reflexivity.
  - destruct (Bindings.m_gameController m); [|reflexivity].
    destruct (which =? Bindings.m_gameControllerIndex m); [|reflexivity].
    destruct (scan_controllers sdl) as [[h0 i0]|]; destruct m; reflexivity.
Qed.

End MouseEvents.

(** X8.  Mouse position and motion delta of the binding-table manager: a
    mouse-motion event stores its position and its relative motion, every
    other event leaves both alone; [update] (keyboard pointer set) replaces
    the position by the one SDL reports and never touches the delta, so the
    delta of the last motion event is what [getMouseDelta] answers on every
    later frame, also on frames without motion. *)
Theorem mouse_position_and_delta (Game : Type) (sdl : Platform)
    (m : Bindings.InputManager Game) (g : Game) :
  (forall e,
     (Bindings.getMousePosition (Bindings.processEvent sdl e m),
      Bindings.getMouseDelta (Bindings.processEvent sdl e m))
     = match e with
       | SDL_MOUSEMOTION ex ey xrel yrel => ((ex, ey), (xrel, yrel))
       | _ => (Bindings.getMousePosition m, Bindings.getMouseDelta m)
       end) /\
  (forall frames, Bindings.m_currentKeyboardState m = Some SdlKeyArray ->
     exists st, run_frames frames (m, g) = Some st /\
       Bindings.getMouseDelta (fst st) = Bindings.getMouseDelta m /\
       Bindings.getMousePosition (fst st)
       = match last frames with
         | Some sdl' => (mouse_x sdl', mouse_y sdl')
         | None => Bindings.getMousePosition m
         end).
Proof.
  split; [intros e; apply mouse_after_event|].
  intros frames. unfold run_frames. revert m g.
  induction frames as [|sdl1 frames IH]; intros m g Hptr.
  - exists (m, g). repeat split.
  - cbn [fold_left mbind option_bind].
    destruct (update_some sdl1 (1 # 60)%Q m g Hptr) as [[m1 g1] Hu]. rewrite Hu.
    destruct (mouse_after_update sdl1 (1 # 60)%Q m g (m1, g1) Hu) as (_ & _ & Hpos & Hdelta).
    cbn [fst] in Hpos, Hdelta.
    destruct (IH m1 g1) as (st & Hrun & Hd & Hp).
    { rewrite <- Hptr. exact (keyboard_ptr_update sdl1 (1 # 60)%Q m g (m1, g1) Hu). }
    exists st. split; [exact Hrun|]. split; [rewrite Hd; exact Hdelta|].
    rewrite Hp, last_cons. destruct (last frames); [reflexivity | exact Hpos].
Qed.

(** ** Gamepad snapshots of the binding-table manager *)

Section GamepadFrame.
Context {Game : Type}.
Implicit Types (m : Bindings.InputManager Game) (g : Game).

Lemma gamepad_snapshot_set_activeInputMethod a m :
  gamepad_snapshot (Bindings.set_activeInputMethod a m) = gamepad_snapshot m.
Proof. destruct m; reflexivity. Qed.

Lemma gamepad_after_update sdl dt m g st :
  Bindings.update sdl dt (m, g) = Some st ->
  exists prev,
    gamepad_snapshot (fst st)
    = gamepad_snapshot
        (Bindings.updateGamepadState sdl
           (Bindings.updateMouseState sdl (Bindings.set_previousKeyState prev m))).
Proof.
  intros Hu.
  destruct (update_manager sdl dt m g st Hu) as (m1 & calls & H1 & _ & ->).
  destruct (updateKeyboardState_inv sdl m m1 H1) as [prev ->]. exists prev.
  destruct (last calls); [apply gamepad_snapshot_set_activeInputMethod | reflexivity].
Qed.

Lemma gamepad_queries_ext m m' button axis :
  gamepad_snapshot m' = gamepad_snapshot m ->
  Bindings.isGamepadButtonDown m' button = Bindings.isGamepadButtonDown m button /\
  Bindings.isGamepadButtonPressed m' button = Bindings.isGamepadButtonPressed m button /\
  Bindings.isGamepadButtonReleased m' button = Bindings.isGamepadButtonReleased m button /\
  Bindings.getGamepadAxisValue m' axis = Bindings.getGamepadAxisValue m axis.
Proof.
  unfold gamepad_snapshot. intros [= H1 H2 H3].
  unfold Bindings.isGamepadButtonDown, Bindings.isGamepadButtonPressed,
    Bindings.isGamepadButtonReleased, Bindings.getGamepadAxisValue.
  rewrite H1, H2, H3. auto.
Qed.

Lemma previous_after_updateGamepadState sdl m h :
  Bindings.m_gameController m = Some h ->
  Bindings.m_previousGamepadButtonState (Bindings.updateGamepadState sdl m)
  = Bindings.m_currentGamepadButtonState m.
Proof.
  intros H. unfold Bindings.updateGamepadState. rewrite H. destruct m; reflexivity.
Qed.

(** A button no index is translated to is never stored by the loop. *)
Lemma store_button_fold_other sdl h (l : list nat) (cur : gmap Bindings.GamepadButton.t bool)
    (b : Bindings.GamepadButton.t) :
  (16 <= Bindings.GamepadButton.to_nat b)%nat ->
  fold_left (Bindings.store_button sdl h) l cur !! b = cur !! b.
Proof.
  intros Hb. revert cur. induction l as [|i l IH]; intros cur; [reflexivity|].
  cbn [fold_left]. rewrite IH. unfold Bindings.store_button.
  destruct (decide _) as [|Hn]; [reflexivity|].
  apply lookup_insert_ne. intros E. subst b. rewrite button_index_byte in Hb.
  destruct (Nat.ltb_spec (i mod 256) 16); [lia|].
  apply Hn. apply sdlButton_none. assumption.
Qed.

Lemma store_axis_fold_none sdl h (l : list nat) (vals : gmap Bindings.GamepadAxis.t Q) :
  fold_left (Bindings.store_axis sdl h) l vals !! Bindings.GamepadAxis.NONE
  = vals !! Bindings.GamepadAxis.NONE.
Proof.
  revert vals. induction l as [|i l IH]; intros vals; [reflexivity|].
  cbn [fold_left]. rewrite IH. unfold Bindings.store_axis.
  destruct (decide _) as [|Hn]; [reflexivity|].
  apply lookup_insert_ne. exact Hn.
Qed.

End GamepadFrame.

(** X9.  Gamepad button edge detection of the binding-table manager, with
    a controller bound and the keyboard pointer set: after [update], each of
    the sixteen translated buttons is down as the controller reports it,
    pressed exactly when down now and not down before the update, released
    exactly when not down now and down before; and the stored value of each
    of the six axes is its reading divided by 32767. *)
Theorem gamepad_edges_binding_table (Game : Type) (sdl : Platform) (dt : Q)
    (m : Bindings.InputManager Game) (g : Game) (h : Handle) :
  Bindings.m_currentKeyboardState m = Some SdlKeyArray ->
  Bindings.m_gameController m = Some h ->
  exists st,
    Bindings.update sdl dt (m, g) = Some st /\
    (forall i, (i < 16)%nat ->
       let button := Bindings.sdlButtonToGamepadButton i in
       let now := negb (controller_button sdl h i =? 0) in
       let before := Bindings.isGamepadButtonDown m button in
       Bindings.isGamepadButtonDown (fst st) button = now /\
       Bindings.isGamepadButtonPressed (fst st) button = now && negb before /\
       Bindings.isGamepadButtonReleased (fst st) button = negb now && before) /\
    (forall i, (i < SDL_CONTROLLER_AXIS_MAX)%nat ->
       Bindings.getGamepadAxisValue (fst st) (Bindings.sdlAxisToGamepadAxis i)
       = (inject_Z (controller_axis sdl h i) / 32767)%Q).
Proof.
  intros Hptr Hc. destruct (update_some sdl dt m g Hptr) as [st Hu]. exists st.
  split; [exact Hu|].
  destruct (gamepad_after_update sdl dt m g st Hu) as [prev Hsnap].
  set (m2 := Bindings.updateMouseState sdl (Bindings.set_previousKeyState prev m)) in *.
  assert (Hc2 : Bindings.m_gameController m2 = Some h)
    by (subst m2; rewrite gameController_refresh_prefix; exact Hc).
  assert (Hcur2 : Bindings.m_currentGamepadButtonState m2 = Bindings.m_currentGamepadButtonState m)
    by (subst m2; destruct m; reflexivity).
  split.
  - intros i Hi button now before.
    destruct (gamepad_queries_ext _ _ button Bindings.GamepadAxis.NONE Hsnap)
      as (Hd & Hp & Hr & _).
    pose proof (updateGamepadState_button sdl m2 h i Hc2 Hi) as Hnow.
    fold button now in Hnow.
    rewrite Hd, Hp, Hr. split; [exact Hnow|].
    unfold Bindings.isGamepadButtonPressed, Bindings.isGamepadButtonReleased.
    unfold Bindings.isGamepadButtonDown in Hnow. rewrite Hnow.
    rewrite (previous_after_updateGamepadState sdl m2 h Hc2), Hcur2.
    split; reflexivity.
  - intros i Hi.
    destruct (gamepad_queries_ext _ _ Bindings.GamepadButton.NONE
                (Bindings.sdlAxisToGamepadAxis i) Hsnap) as (_ & _ & _ & ->).
    apply updateGamepadState_axis; assumption.
Qed.

Lemma gamepad_edges_binding_table_witness :
  Bindings.m_currentKeyboardState counter_manager = Some SdlKeyArray /\
  Bindings.m_gameController counter_manager = Some 7%nat /\
  exists st,
    Bindings.update pad_A_held 1%Q (counter_manager, 0) = Some st /\
    Bindings.isGamepadButtonPressed (fst st) Bindings.GamepadButton.A = true.
Proof.
  assert (H : Bindings.m_currentKeyboardState counter_manager = Some SdlKeyArray)
    by reflexivity.
  assert (Hc : Bindings.m_gameController counter_manager = Some 7%nat) by reflexivity.
  split; [exact H|]. split; [exact Hc|].
  destruct (gamepad_edges_binding_table Z pad_A_held 1%Q counter_manager 0 7%nat H Hc)
    as (st & Hu & Hb & _).
  exists st. split; [exact Hu|].
  exact (proj1 (proj2 (Hb 0%nat ltac:(lia)))).
Defined.

Lemma mouse_position_and_delta_witness :
  Bindings.m_currentKeyboardState counter_manager = Some SdlKeyArray /\
  exists st,
    run_frames [quiet; pad_A_held] (counter_manager, 0) = Some st /\
    Bindings.getMouseDelta (fst st) = Bindings.getMouseDelta counter_manager.
Proof.
  assert (Hp : Bindings.m_currentKeyboardState counter_manager = Some SdlKeyArray)
    by reflexivity.
  split; [exact Hp|].
  destruct (proj2 (mouse_position_and_delta Z quiet counter_manager 0) [quiet; pad_A_held] Hp)
    as (st & Hrun & Hd & _).
  exists st. split; assumption.
Defined.

Section GamepadInvariant.
Context {Game : Type}.
Implicit Types (m : Bindings.InputManager Game) (g : Game).

Lemma gamepad_snapshot_processEvent sdl e m :
  gamepad_snapshot (Bindings.processEvent sdl e m) = gamepad_snapshot m.
Proof.
  unfold Bindings.processEvent.
  destruct e; try (destruct m; reflexivity).
  - destruct (Bindings.m_gameController m); destruct m; reflexivity.
  - destruct (Bindings.m_gameController m); [|reflexivity].
    destruct (which =? Bindings.m_gameControllerIndex m); [|reflexivity].
    destruct (scan_controllers sdl) as [[h0 i0]|]; destruct m; reflexivity.
Qed.

Lemma gamepad_snapshot_init sdl m :
  gamepad_snapshot (fst (Bindings.init sdl m)) = gamepad_snapshot m.
Proof.
  unfold Bindings.init.
  destruct (negb (was_init_gamecontroller sdl) && negb (init_subsystem_ok sdl)); [reflexivity|].
  cbn [fst]. destruct (scan_controllers sdl) as [[h i]|]; destruct m; reflexivity.
Qed.

Lemma gamepad_snapshot_shutdown m :
  gamepad_snapshot (Bindings.shutdown m) = gamepad_snapshot m.
Proof.
  unfold Bindings.shutdown. destruct (Bindings.m_gameController m); destruct m; reflexivity.
Qed.

Lemma untranslated_clear_ext m m' :
  gamepad_snapshot m' = gamepad_snapshot m -> untranslated_clear m -> untranslated_clear m'.
Proof.
  unfold gamepad_snapshot, untranslated_clear. intros [= -> -> ->]. auto.
Qed.

Lemma untranslated_clear_updateGamepadState sdl m :
  untranslated_clear m -> untranslated_clear (Bindings.updateGamepadState sdl m).
Proof.
  intros [Hb Ha]. unfold Bindings.updateGamepadState.
  destruct (Bindings.m_gameController m) as [h|] eqn:Hc; [|split; assumption].
  unfold untranslated_clear. destruct m;
    cbn [Bindings.m_currentGamepadButtonState Bindings.m_previousGamepadButtonState
         Bindings.m_gamepadAxisValues Bindings.set_gamepadState] in *.
  split.
  - intros b Hu. rewrite store_button_fold_other by exact Hu.
    split; apply (Hb b Hu).
  - rewrite store_axis_fold_none. exact Ha.
Qed.

Lemma untranslated_clear_step (c : Call Game) st st' :
  call_step c st = Some st' -> untranslated_clear (fst st) -> untranslated_clear (fst st').
Proof.
  destruct st as [m g]. intros Hs Hinv.
  destruct c; cbn [call_step fst snd] in Hs; try (injection Hs as <-; cbn [fst]).
  - exact (untranslated_clear_ext _ _ (gamepad_snapshot_init sdl m) Hinv).
  - exact (untranslated_clear_ext _ _ (gamepad_snapshot_shutdown m) Hinv).
  - destruct (gamepad_after_update sdl deltaTime m g st' Hs) as [prev Hsnap].
    apply (untranslated_clear_ext _ _ Hsnap).
    apply untranslated_clear_updateGamepadState.
    revert Hinv. apply untranslated_clear_ext. destruct m; reflexivity.
  - exact (untranslated_clear_ext _ _ (gamepad_snapshot_processEvent sdl event m) Hinv).
  - revert Hinv. apply untranslated_clear_ext. destruct m; reflexivity.
  - revert Hinv. apply untranslated_clear_ext. destruct m; reflexivity.
  - revert Hinv. apply untranslated_clear_ext. destruct m; reflexivity.
  - revert Hinv. apply untranslated_clear_ext. destruct m; reflexivity.
  - revert Hinv. apply untranslated_clear_ext. destruct m; reflexivity.
Qed.

Lemma untranslated_clear_run (calls : list (Call Game)) st st' :
  run_calls calls st = Some st' -> untranslated_clear (fst st) -> untranslated_clear (fst st').
Proof.
  unfold run_calls. revert st. induction calls as [|c calls IH]; intros st Hrun Hinv.
  - cbn in Hrun. injection Hrun as <-. exact Hinv.
  - cbn [fold_left mbind option_bind] in Hrun.
    destruct (call_step c st) as [st1|] eqn:Hs; [|rewrite run_calls_fail in Hrun; discriminate].
    exact (IH st1 Hrun (untranslated_clear_step c st st1 Hs Hinv)).
Qed.

End GamepadInvariant.

(** X10.  The paddles, the touchpad and [NONE] are dead inputs of the
    binding-table manager: whatever calls are made on a constructed manager
    and whatever the controller reports, these buttons are never down,
    pressed or released, and the axis [NONE] always reads 0. *)
Theorem untranslated_buttons_never_fire (Game : Type) (g : Game) (calls : list (Call Game))
    (st' : Bindings.InputManager Game * Game) :
  run_calls calls (Bindings.InputManager_new, g) = Some st' ->
  (forall b, In b untranslated_buttons ->
     Bindings.isGamepadButtonDown (fst st') b = false /\
     Bindings.isGamepadButtonPressed (fst st') b = false /\
     Bindings.isGamepadButtonReleased (fst st') b = false) /\
  Bindings.getGamepadAxisValue (fst st') Bindings.GamepadAxis.NONE = 0%Q.
Proof.
  intros Hrun.
  assert (H0 : untranslated_clear (@Bindings.InputManager_new Game)).
  { split; [intros b _; split; apply lookup_empty | apply lookup_empty]. }
  destruct (untranslated_clear_run calls _ st' Hrun H0) as [Hb Ha].
  split.
  - intros b Hin.
    assert (Hu : (16 <= Bindings.GamepadButton.to_nat b)%nat).
    { cbn in Hin. destruct Hin as [<-|[<-|[<-|[<-|[<-|[<-|[]]]]]]]; cbn; lia. }
    destruct (Hb b Hu) as [Hc Hp].
    unfold Bindings.isGamepadButtonDown, Bindings.isGamepadButtonPressed,
      Bindings.isGamepadButtonReleased.
    rewrite Hc, Hp. repeat split.
  - unfold Bindings.getGamepadAxisValue. rewrite Ha. reflexivity.
Qed.

Lemma untranslated_buttons_never_fire_witness :
  let calls := [CallInit pad_A_held;
                CallBindGamepadButton Bindings.GamepadButton.PADDLE1 increment;
                CallUpdate pad_A_held 1%Q] in
  let st' := default (Bindings.InputManager_new, 0) (run_calls calls (Bindings.InputManager_new, 0)) in
  run_calls calls (Bindings.InputManager_new, 0) = Some st' /\
  Bindings.isGamepadButtonDown (fst st') Bindings.GamepadButton.PADDLE1 = false.
Proof.
  intros calls st'.
  assert (Hrun : run_calls calls (Bindings.InputManager_new, 0) = Some st')
    by (vm_compute; reflexivity).
  split; [exact Hrun|].
  exact (proj1 (proj1 (untranslated_buttons_never_fire Z 0 calls st' Hrun)
                  Bindings.GamepadButton.PADDLE1 (or_introl eq_refl))).
Defined.

(** X11.  Hotplug events of the binding-table manager.  While a controller
    is bound, further attach events and removals of other indices change
    nothing: the first controller keeps the binding.  Without a bound
    controller a removal changes nothing, and an attach event records the
    event's index and binds what opening it gives, nothing for a negative
    index.  When the bound controller is removed and the scan finds no other,
    a later attach event binds again with no call of [init].  No event
    touches the gamepad snapshots. *)
Theorem hotplug_events_binding_table (Game : Type) (sdl sdl' : Platform)
    (m : Bindings.InputManager Game) (which : Z) :
  (forall h, Bindings.m_gameController m = Some h ->
     Bindings.processEvent sdl (SDL_CONTROLLERDEVICEADDED which) m = m /\
     (which <> Bindings.m_gameControllerIndex m ->
      Bindings.processEvent sdl (SDL_CONTROLLERDEVICEREMOVED which) m = m) /\
     (scan_controllers sdl = None ->
      let m1 := Bindings.processEvent sdl
                  (SDL_CONTROLLERDEVICEREMOVED (Bindings.m_gameControllerIndex m)) m in
      Bindings.m_gameController m1 = None /\
      Bindings.m_gameControllerIndex m1 = -1 /\
      Bindings.m_gameController
        (Bindings.processEvent sdl' (SDL_CONTROLLERDEVICEADDED which) m1)
      = Bindings.open_index sdl' which)) /\
  (Bindings.m_gameController m = None ->
   Bindings.processEvent sdl (SDL_CONTROLLERDEVICEREMOVED which) m = m /\
   let m1 := Bindings.processEvent sdl (SDL_CONTROLLERDEVICEADDED which) m in
   Bindings.m_gameController m1 = Bindings.open_index sdl which /\
   Bindings.m_gameControllerIndex m1 = which /\
   (which < 0 -> Bindings.m_gameController m1 = None)) /\
  (forall e, gamepad_snapshot (Bindings.processEvent sdl e m) = gamepad_snapshot m).
Proof.
  split; [|split].
  - intros h Hc. split; [|split].
    + unfold Bindings.processEvent. rewrite Hc. reflexivity.
    + intros Hne. unfold Bindings.processEvent. rewrite Hc.
      apply Z.eqb_neq in Hne. rewrite Hne. reflexivity.
    + intros Hs m1. subst m1. unfold Bindings.processEvent at 1 2 4.
      rewrite Hc, Z.eqb_refl, Hs.
      unfold Bindings.processEvent. destruct m; cbn. repeat split.
  - intros Hc. split.
    + unfold Bindings.processEvent. rewrite Hc. reflexivity.
    + cbv zeta. unfold Bindings.processEvent. rewrite Hc.
      destruct m; cbn. repeat split.
      intros Hneg. unfold Bindings.open_index. apply Z.ltb_lt in Hneg. rewrite Hneg. reflexivity.
  - intros e. apply gamepad_snapshot_processEvent.
Qed.

Lemma hotplug_events_binding_table_witness :
  Bindings.m_gameController counter_manager = Some 7%nat /\
  Bindings.processEvent replacement_frame (SDL_CONTROLLERDEVICEADDED 1) counter_manager
  = counter_manager.
Proof.
  assert (H : Bindings.m_gameController counter_manager = Some 7%nat) by reflexivity.
  split; [exact H|].
  exact (proj1 (proj1 (hotplug_events_binding_table Z replacement_frame quiet
                         counter_manager 1) 7%nat H)).
Defined.

(** ** The dispatch, input by input *)

Section DispatchComplete.
Context {Game : Type}.
Implicit Types (m : Bindings.InputManager Game) (g : Game).

Lemma table_calls_lookup {K V : Type} `{Countable K} (tag : K -> Bindings.PhysicalInput)
    (test : K -> V -> bool) (mk : K -> V -> Bindings.Invocation Game) (t : gmap K V) (k : K) :
  (forall k k', tag k = tag k' -> k = k') ->
  (forall k v, Bindings.inv_input (mk k v) = tag k) ->
  calls_for (tag k) (table_calls test mk (map_to_list t))
  = match t !! k with
    | Some v => if test k v then [mk k v] else []
    | None => []
    end.
Proof.
  intros Hinj Hmk. destruct (t !! k) as [v|] eqn:Hl.
  - apply (table_calls_for tag test mk Hinj Hmk);
      [apply NoDup_fst_map_to_list | apply elem_of_map_to_list; exact Hl].
  - apply (table_calls_other tag test mk Hmk). intros k' v' Hin Heq.
    apply Hinj in Heq. subst k'. apply elem_of_map_to_list in Hin. congruence.
Qed.

Lemma touch_calls_for m dt :
  calls_for Bindings.TouchGesture (Bindings.touch_calls m dt) = Bindings.touch_calls m dt.
Proof.
  unfold Bindings.touch_calls. destruct (Bindings.m_touchCommand m); [|reflexivity].
  destruct (Bindings.isTouchActive m); reflexivity.
Qed.

Ltac drop_other_loops :=
  repeat match goal with
    | |- context [calls_for ?p (table_calls ?t ?mk ?l)] =>
        rewrite (table_calls_none p t mk l) by (intros; discriminate)
    | |- context [calls_for ?p (Bindings.touch_calls ?m ?dt)] =>
        rewrite (touch_calls_other m dt p) by discriminate
    end;
  rewrite ?app_nil_r; cbn [app].

Lemma dispatch_calls_for sdl m dt calls p :
  Bindings.m_currentKeyboardState m = Some SdlKeyArray ->
  Bindings.dispatch sdl m dt = Some calls ->
  calls_for p calls = expected_calls sdl m dt p.
Proof.
  intros Hptr Hd. rewrite (dispatch_table sdl m dt Hptr) in Hd. injection Hd as <-.
  rewrite !calls_for_app.
  destruct p as [key|button|button|axis|]; unfold expected_calls; drop_other_loops.
  - rewrite (table_calls_lookup Bindings.KeyboardKey) by (try reflexivity; congruence).
    reflexivity.
  - rewrite (table_calls_lookup Bindings.MouseButton) by (try reflexivity; congruence).
    reflexivity.
  - rewrite (table_calls_lookup Bindings.GamepadButtonInput) by (try reflexivity; congruence).
    reflexivity.
  - rewrite (table_calls_lookup Bindings.GamepadAxisInput) by (try reflexivity; congruence).
    destruct (Bindings.m_gamepadAxisCommands m !! axis) as [[c dz]|]; reflexivity.
  - rewrite touch_calls_for. unfold Bindings.touch_calls.
    destruct (Bindings.m_touchCommand m); reflexivity.
Qed.

End DispatchComplete.

(** X12.  What a dispatch does is decided input by input (keyboard pointer
    set): for every physical input the calls made for it are those read off
    its own table entry and its own state; an input with no binding gets no
    call; the touch command is called once with [deltaTime] exactly when it
    is bound and a touch point exists; and every call made is one of these,
    with at most one call per input. *)
Theorem dispatch_per_input (Game : Type) (sdl : Platform) (dt : Q)
    (m : Bindings.InputManager Game) :
  Bindings.m_currentKeyboardState m = Some SdlKeyArray ->
  exists calls,
    Bindings.dispatch sdl m dt = Some calls /\
    (forall p, calls_for p calls = expected_calls sdl m dt p) /\
    (forall p, (length (calls_for p calls) <= 1)%nat) /\
    (forall c, c ∈ calls -> expected_calls sdl m dt (Bindings.inv_input c) = [c]).
Proof.
  intros Hptr. destruct (dispatch_some sdl m dt Hptr) as [calls Hd]. exists calls.
  split; [exact Hd|].
  assert (Hall : forall p, calls_for p calls = expected_calls sdl m dt p)
    by (intros p; exact (dispatch_calls_for sdl m dt calls p Hptr Hd)).
  assert (Hlen : forall p, (length (expected_calls sdl m dt p) <= 1)%nat).
  { intros p. unfold expected_calls.
    destruct p; repeat case_match; cbn; lia. }
  split; [exact Hall|]. split; [intros p; rewrite Hall; apply Hlen|].
  intros c Hc.
  assert (Hin : c ∈ calls_for (Bindings.inv_input c) calls).
  { unfold calls_for. apply list_elem_of_filter. split; [reflexivity | exact Hc]. }
  rewrite Hall in Hin. pose proof (Hlen (Bindings.inv_input c)) as Hl.
  destruct (expected_calls sdl m dt (Bindings.inv_input c)) as [|c0 [|c1 l]];
    [inversion Hin | | cbn in Hl; lia].
  apply list_elem_of_singleton in Hin. subst c0. reflexivity.
Qed.

Lemma dispatch_per_input_witness :
  Bindings.m_currentKeyboardState counter_manager = Some SdlKeyArray /\
  exists calls,
    Bindings.dispatch quiet counter_manager 1%Q = Some calls /\
    calls_for (Bindings.GamepadButtonInput Bindings.GamepadButton.B) calls = [].
Proof.
  assert (H : Bindings.m_currentKeyboardState counter_manager = Some SdlKeyArray)
    by reflexivity.
  split; [exact H|].
  destruct (dispatch_per_input Z quiet 1%Q counter_manager H) as (calls & Hd & Hall & _).
  exists calls. split; [exact Hd|].
  exact (Hall (Bindings.GamepadButtonInput Bindings.GamepadButton.B)).
Defined.

(** ** Binds and the other inputs *)

Section BindFrame.
Context {Game : Type}.
Implicit Types (m : Bindings.InputManager Game) (c : Bindings.CommandFunction Game).

Lemma expected_calls_bindKey sdl dt key c m p :
  p <> Bindings.KeyboardKey key ->
  expected_calls sdl (Bindings.bindKeyCommand key c m) dt p = expected_calls sdl m dt p.
Proof.
  intros Hp. destruct m. unfold Bindings.bindKeyCommand.
  destruct p as [k| | | |]; try reflexivity.
  unfold expected_calls. cbn [Bindings.m_keyCommands Bindings.set_keyCommands].
  rewrite lookup_insert_ne by congruence. reflexivity.
Qed.

Lemma expected_calls_bindMouse sdl dt button c m p :
  p <> Bindings.MouseButton button ->
  expected_calls sdl (Bindings.bindMouseCommand button c m) dt p = expected_calls sdl m dt p.
Proof.
  intros Hp. destruct m. unfold Bindings.bindMouseCommand.
  destruct p as [|b| | |]; try reflexivity.
  unfold expected_calls, Bindings.isMouseButtonDown.
  cbn [Bindings.m_mouseCommands Bindings.set_mouseCommands Bindings.m_currentMouseState].
  rewrite lookup_insert_ne by congruence. reflexivity.
Qed.

Lemma expected_calls_bindButton sdl dt button c m p :
  p <> Bindings.GamepadButtonInput button ->
  expected_calls sdl (Bindings.bindGamepadButtonCommand button c m) dt p
  = expected_calls sdl m dt p.
Proof.
  intros Hp. destruct m. unfold Bindings.bindGamepadButtonCommand.
  destruct p as [| |b| |]; try reflexivity.
  unfold expected_calls, Bindings.isGamepadButtonDown.
  cbn [Bindings.m_gamepadButtonCommands Bindings.set_gamepadButtonCommands
       Bindings.m_currentGamepadButtonState].
  rewrite lookup_insert_ne by congruence. reflexivity.
Qed.

Lemma expected_calls_bindAxis sdl dt axis c dz m p :
  p <> Bindings.GamepadAxisInput axis ->
  expected_calls sdl (Bindings.bindGamepadAxisCommand axis c dz m) dt p
  = expected_calls sdl m dt p.
Proof.
  intros Hp. destruct m. unfold Bindings.bindGamepadAxisCommand.
  destruct p as [| | |a|]; try reflexivity.
  unfold expected_calls, Bindings.getGamepadAxisValue.
  cbn [Bindings.m_gamepadAxisCommands Bindings.set_gamepadAxisCommands
       Bindings.m_gamepadAxisValues].
  rewrite lookup_insert_ne by congruence. reflexivity.
Qed.

Lemma expected_calls_bindTouch sdl dt tc m p :
  p <> Bindings.TouchGesture ->
  expected_calls sdl (Bindings.bindTouchCommand tc m) dt p = expected_calls sdl m dt p.
Proof.
  intros Hp. destruct m. unfold Bindings.bindTouchCommand.
  destruct p; try reflexivity. contradiction.
Qed.

Lemma keyboard_ptr_binds key button gbutton axis c dz tc m :
  Bindings.m_currentKeyboardState (Bindings.bindKeyCommand key c m)
  = Bindings.m_currentKeyboardState m /\
  Bindings.m_currentKeyboardState (Bindings.bindMouseCommand button c m)
  = Bindings.m_currentKeyboardState m /\
  Bindings.m_currentKeyboardState (Bindings.bindGamepadButtonCommand gbutton c m)
  = Bindings.m_currentKeyboardState m /\
  Bindings.m_currentKeyboardState (Bindings.bindGamepadAxisCommand axis c dz m)
  = Bindings.m_currentKeyboardState m /\
  Bindings.m_currentKeyboardState (Bindings.bindTouchCommand tc m)
  = Bindings.m_currentKeyboardState m.
Proof. destruct m. repeat split. Qed.

End BindFrame.

(** X13.  A bind concerns its own identifier only (keyboard pointer set):
    after binding a key, a mouse button, a gamepad button, an axis or the
    touch command, the dispatch makes for every other physical input
    exactly the calls it made before the bind. *)
Theorem bind_leaves_other_inputs (Game : Type) (sdl : Platform) (dt : Q)
    (m : Bindings.InputManager Game) (c : Bindings.CommandFunction Game) (dz : Q)
    (tc : option (Bindings.CommandFunction Game))
    (key button : Z) (gbutton : Bindings.GamepadButton.t) (axis : Bindings.GamepadAxis.t) :
  Bindings.m_currentKeyboardState m = Some SdlKeyArray ->
  exists calls calls_key calls_mouse calls_button calls_axis calls_touch,
    Bindings.dispatch sdl m dt = Some calls /\
    Bindings.dispatch sdl (Bindings.bindKeyCommand key c m) dt = Some calls_key /\
    Bindings.dispatch sdl (Bindings.bindMouseCommand button c m) dt = Some calls_mouse /\
    Bindings.dispatch sdl (Bindings.bindGamepadButtonCommand gbutton c m) dt
    = Some calls_button /\
    Bindings.dispatch sdl (Bindings.bindGamepadAxisCommand axis c dz m) dt = Some calls_axis /\
    Bindings.dispatch sdl (Bindings.bindTouchCommand tc m) dt = Some calls_touch /\
    (forall p, p <> Bindings.KeyboardKey key -> calls_for p calls_key = calls_for p calls) /\
    (forall p, p <> Bindings.MouseButton button ->
       calls_for p calls_mouse = calls_for p calls) /\
    (forall p, p <> Bindings.GamepadButtonInput gbutton ->
       calls_for p calls_button = calls_for p calls) /\
    (forall p, p <> Bindings.GamepadAxisInput axis ->
       calls_for p calls_axis = calls_for p calls) /\
    (forall p, p <> Bindings.TouchGesture -> calls_for p calls_touch = calls_for p calls).
Proof.
  intros Hptr.
  destruct (keyboard_ptr_binds key button gbutton axis c dz tc m) as (P1 & P2 & P3 & P4 & P5).
  rewrite Hptr in P1, P2, P3, P4, P5.
  destruct (dispatch_some sdl m dt Hptr) as [calls Hd].
  destruct (dispatch_some sdl _ dt P1) as [c1 H1].
  destruct (dispatch_some sdl _ dt P2) as [c2 H2].
  destruct (dispatch_some sdl _ dt P3) as [c3 H3].
  destruct (dispatch_some sdl _ dt P4) as [c4 H4].
  destruct (dispatch_some sdl _ dt P5) as [c5 H5].
  exists calls, c1, c2, c3, c4, c5. repeat (split; [assumption|]).
  repeat split; intros p Hp;
    rewrite (dispatch_calls_for sdl m dt calls p Hptr Hd).
  - rewrite (dispatch_calls_for sdl _ dt c1 p P1 H1). apply expected_calls_bindKey. exact Hp.
  - rewrite (dispatch_calls_for sdl _ dt c2 p P2 H2). apply expected_calls_bindMouse. exact Hp.
  - rewrite (dispatch_calls_for sdl _ dt c3 p P3 H3). apply expected_calls_bindButton. exact Hp.
  - rewrite (dispatch_calls_for sdl _ dt c4 p P4 H4). apply expected_calls_bindAxis. exact Hp.
  - rewrite (dispatch_calls_for sdl _ dt c5 p P5 H5). apply expected_calls_bindTouch. exact Hp.
Qed.

Lemma bind_leaves_other_inputs_witness :
  Bindings.m_currentKeyboardState counter_manager = Some SdlKeyArray /\
  exists calls calls_key,
    Bindings.dispatch pad_A_held counter_manager 1%Q = Some calls /\
    Bindings.dispatch pad_A_held (Bindings.bindKeyCommand SDLK_a increment counter_manager) 1%Q
    = Some calls_key /\
    calls_for (Bindings.GamepadButtonInput Bindings.GamepadButton.A) calls_key
    = calls_for (Bindings.GamepadButtonInput Bindings.GamepadButton.A) calls.
Proof.
  assert (H : Bindings.m_currentKeyboardState counter_manager = Some SdlKeyArray)
    by reflexivity.
  split; [exact H|].
  destruct (bind_leaves_other_inputs Z pad_A_held 1%Q counter_manager increment 0%Q None
              SDLK_a 1 Bindings.GamepadButton.A Bindings.GamepadAxis.LEFTX H)
    as (calls & c1 & _ & _ & _ & _ & Hd & H1 & _ & _ & _ & _ & Hk & _).
  exists calls, c1. split; [exact Hd|]. split; [exact H1|].
  apply Hk. discriminate.
Defined.

(** ** Touch points at the edges *)

Lemma finger_motion_unknown fid fx fy l :
  fid ∉ ids l -> Bindings.finger_motion fid fx fy l = l.
Proof.
  induction l as [|tp l IH]; intros Hn; [reflexivity|].
  cbn [ids map] in Hn. apply not_elem_of_cons in Hn as [Hne Hn].
  cbn [Bindings.finger_motion].
  destruct (Z.eqb_spec (Bindings.id tp) fid) as [E|_]; [congruence|].
  rewrite (IH Hn). reflexivity.
Qed.

Lemma finger_up_unknown fid l : fid ∉ ids l -> Bindings.finger_up fid l = l.
Proof.
  induction l as [|tp l IH]; intros Hn; [reflexivity|].
  cbn [ids map] in Hn. apply not_elem_of_cons in Hn as [Hne Hn].
  cbn [Bindings.finger_up].
  destruct (Z.eqb_spec (Bindings.id tp) fid) as [E|_]; [congruence|].
  rewrite (IH Hn). reflexivity.
Qed.

Lemma replace_point_map point l :
  NoDup (ids l) -> Bindings.id point ∈ ids l ->
  Bindings.replace_point point l
  = Some (map (fun tp => if Bindings.id tp =? Bindings.id point then point else tp) l).
Proof.
  induction l as [|tp l IH]; intros Hnd Hin; [inversion Hin|].
  cbn [ids map] in Hnd, Hin. apply NoDup_cons in Hnd as [Hn Hnd].
  cbn [Bindings.replace_point map].
  destruct (Z.eqb_spec (Bindings.id tp) (Bindings.id point)) as [E|E].
  - f_equal. f_equal. rewrite E in Hn. clear -Hn.
    induction l as [|q l IH]; [reflexivity|].
    cbn [map ids] in *. apply not_elem_of_cons in Hn as [Hne Hn].
    destruct (Z.eqb_spec (Bindings.id q) (Bindings.id point)) as [E|_]; [congruence|].
    rewrite <- (IH Hn). reflexivity.
  - apply elem_of_cons in Hin as [Heq|Hin]; [congruence|].
    rewrite (IH Hnd Hin). reflexivity.
Qed.

Lemma to_int32_range (z : Z) : - (2 ^ 31) <= to_int32 z < 2 ^ 31.
Proof. unfold to_int32. pose proof (Z.mod_pos_bound (z + 2 ^ 31) (2 ^ 32)). lia. Qed.

(** X14.  Touch events at the edges.  A finger-motion or finger-up for an
    id that no point has changes nothing.  A finger-down for an id already
    present (ids distinct) overwrites that point where it stands: no point
    is added and the others are untouched.  After any finger-down a touch
    is active.  The point count grows by at most one per finger-down and
    never on another event.  The id is the finger id cut to 32 bits: ids in
    the [int] range are kept, and two finger ids 2^32 apart are the same
    point. *)
Theorem touch_edge_cases (Game : Type) (sdl : Platform) (m : Bindings.InputManager Game)
    (fid : Z) (fx fy : Q) :
  (to_int32 fid ∉ ids (Bindings.getTouchPoints m) ->
   Bindings.getTouchPoints (Bindings.processEvent sdl (SDL_FINGERMOTION fid fx fy) m)
   = Bindings.getTouchPoints m /\
   Bindings.getTouchPoints (Bindings.processEvent sdl (SDL_FINGERUP fid fx fy) m)
   = Bindings.getTouchPoints m) /\
  (NoDup (ids (Bindings.getTouchPoints m)) ->
   to_int32 fid ∈ ids (Bindings.getTouchPoints m) ->
   Bindings.getTouchPoints (Bindings.processEvent sdl (SDL_FINGERDOWN fid fx fy) m)
   = map (fun tp =>
            if Bindings.id tp =? to_int32 fid
            then {| Bindings.id := to_int32 fid; Bindings.x := fx; Bindings.y := fy;
                    Bindings.pressed := true |}
            else tp)
       (Bindings.getTouchPoints m)) /\
  Bindings.isTouchActive (Bindings.processEvent sdl (SDL_FINGERDOWN fid fx fy) m) = true /\
  (forall e,
     (length (Bindings.getTouchPoints (Bindings.processEvent sdl e m))
      <= match e with
         | SDL_FINGERDOWN _ _ _ => S (length (Bindings.getTouchPoints m))
         | _ => length (Bindings.getTouchPoints m)
         end)%nat) /\
  (- (2 ^ 31) <= fid < 2 ^ 31 -> to_int32 fid = fid) /\
  to_int32 (fid + 2 ^ 32) = to_int32 fid.
Proof.
  split; [|split; [|split; [|split; [|split]]]].
  - intros Hn. rewrite !processEvent_touchPoints.
    split; [apply finger_motion_unknown | apply finger_up_unknown]; exact Hn.
  - intros Hnd Hin. rewrite processEvent_touchPoints. unfold Bindings.finger_down.
    rewrite replace_point_map by assumption. reflexivity.
  - unfold Bindings.isTouchActive. fold (Bindings.getTouchPoints
      (Bindings.processEvent sdl (SDL_FINGERDOWN fid fx fy) m)).
    rewrite processEvent_touchPoints. unfold Bindings.finger_down.
    destruct (Bindings.replace_point _ _) as [l'|] eqn:E.
    + destruct (Bindings.getTouchPoints m) as [|tp l]; [discriminate|].
      cbn [Bindings.replace_point] in E.
      destruct (Bindings.id tp =? _); [injection E as <-; reflexivity|].
      destruct (Bindings.replace_point _ l); [|discriminate].
      cbn in E. injection E as <-. reflexivity.
    + destruct (Bindings.getTouchPoints m); reflexivity.
  - intros e. rewrite processEvent_touchPoints.
    destruct e; try apply le_n.
    + unfold Bindings.finger_down.
      destruct (Bindings.replace_point _ _) as [l'|] eqn:E.
      * apply replace_point_ids in E. unfold ids in E.
        apply (f_equal length) in E. rewrite !length_map in E. lia.
      * rewrite length_app. cbn. lia.
    + rewrite finger_up_filter. apply length_filter.
    + pose proof (finger_motion_ids (to_int32 fingerId) x y (Bindings.getTouchPoints m)) as E.
      unfold ids in E. apply (f_equal length) in E. rewrite !length_map in E. lia.
  - intros Hr. unfold to_int32. rewrite Z.mod_small by lia. lia.
  - unfold to_int32.
    replace (fid + 2 ^ 32 + 2 ^ 31) with (fid + 2 ^ 31 + 1 * 2 ^ 32) by lia.
    rewrite Z.mod_add by lia. reflexivity.
Qed.

Lemma touch_edge_cases_witness :
  let m := Bindings.processEvent quiet (SDL_FINGERDOWN 3 10 20)
             (@Bindings.InputManager_new unit) in
  (to_int32 4 ∉ ids (Bindings.getTouchPoints m)) /\
  Bindings.getTouchPoints (Bindings.processEvent quiet (SDL_FINGERMOTION 4 1 1) m)
  = Bindings.getTouchPoints m.
Proof.
  intros m.
  assert (H : to_int32 4 ∉ ids (Bindings.getTouchPoints m)).
  { intros Hin. apply list_elem_of_singleton in Hin. discriminate Hin. }
  split; [exact H|].
  exact (proj1 (proj1 (touch_edge_cases unit quiet m 4 1%Q 1%Q) H)).
Defined.

(** ** The delegation manager *)

Lemma poll_events_none (events : list SDL_Event) :
  fold_left Devices.poll_event events None = None.
Proof.
  induction events as [|e events IH]; [reflexivity|].
  cbn [fold_left]. destruct e; exact IH.
Qed.

Lemma poll_events_some (events : list SDL_Event) (g0 : Devices.GamepadInput) :
  fold_left Devices.poll_event events (Some g0)
  = Some (if existsb is_hotplug events then Devices.GamepadInput_new else g0).
Proof.
  revert g0. induction events as [|e events IH]; intros g0; [reflexivity|].
  cbn [fold_left existsb].
  destruct e; cbn [Devices.poll_event is_hotplug orb]; rewrite IH; try reflexivity;
    destruct (existsb is_hotplug events); reflexivity.
Qed.

(** X15.  The delegation manager is safe to use without a successful
    [initialize]: a failed [initialize] changes nothing; on the constructed
    manager every query answers its neutral value (false, 0, position
    (0,0), nothing available), and [update] leaves it as it is, over any
    number of frames and whatever the event queue holds. *)
Theorem uninitialised_manager_is_neutral (sdl : Platform)
    (frames : list (Platform * list SDL_Event)) (key button axis : nat) (mbutton : Z) :
  (forall m, init_ok sdl = false -> Devices.initialize sdl m = (m, false)) /\
  run_updates frames Devices.InputManager_new = Devices.InputManager_new /\
  let m := run_updates frames Devices.InputManager_new in
  Devices.isKeyPressed sdl m key = false /\
  Devices.isKeyJustPressed sdl m key = false /\
  Devices.isMouseButtonPressed m mbutton = false /\
  Devices.isMouseButtonJustPressed m mbutton = false /\
  Devices.getMousePosition m = (0, 0) /\
  Devices.isGamepadButtonPressed m button = false /\
  Devices.isGamepadButtonJustPressed m button = false /\
  Devices.getGamepadAxisValue m axis = 0%Q /\
  Devices.isKeyboardAvailable m = false /\
  Devices.isMouseAvailable m = false /\
  Devices.isGamepadAvailable m = false /\
  Devices.isSteamDeckAvailable m = false /\
  Devices.hasSteamDeckGyroSupport m = false.
Proof.
  split.
  { intros m H. unfold Devices.initialize. rewrite H. reflexivity. }
  assert (H : run_updates frames Devices.InputManager_new = Devices.InputManager_new).
  { unfold run_updates. induction frames as [|[p evs] frames IH]; [reflexivity|].
    cbn [fold_left fst snd].
    replace (Devices.update p evs Devices.InputManager_new) with Devices.InputManager_new;
      [exact IH|].
    unfold Devices.update. cbn [Devices.gamepad Devices.InputManager_new].
    rewrite poll_events_none. reflexivity. }
  split; [exact H|]. cbv zeta. rewrite H. repeat split.
Qed.

(** X16.  Out-of-range gamepad indices are answered, not read: in every
    state of the delegation manager a button index from
    [SDL_CONTROLLER_BUTTON_MAX] up is not pressed and not just pressed, and
    an axis index from [SDL_CONTROLLER_AXIS_MAX] up reads 0. *)
Theorem gamepad_indices_out_of_range (m : Devices.InputManager) (button axis : nat) :
  (SDL_CONTROLLER_BUTTON_MAX <= button)%nat ->
  (SDL_CONTROLLER_AXIS_MAX <= axis)%nat ->
  Devices.isGamepadButtonPressed m button = false /\
  Devices.isGamepadButtonJustPressed m button = false /\
  Devices.getGamepadAxisValue m axis = 0%Q.
Proof.
  intros Hb Ha. apply Nat.leb_le in Hb, Ha.
  assert (Hg : forall g,
             Devices.GamepadInput_isButtonPressed g button = false /\
             Devices.GamepadInput_isButtonJustPressed g button = false /\
             Devices.GamepadInput_getAxisValue g axis = 0%Q).
  { intros g. unfold Devices.GamepadInput_isButtonPressed,
      Devices.GamepadInput_isButtonJustPressed, Devices.GamepadInput_getAxisValue.
    rewrite Hb, Ha, !orb_true_r. repeat split. }
  unfold Devices.isGamepadButtonPressed, Devices.isGamepadButtonJustPressed,
    Devices.getGamepadAxisValue.
  destruct (Devices.steamDeck m) as [s|]; destruct (Devices.gamepad m) as [g|];
    try destruct (Devices.SteamDeckInput_isAvailable s);
    try destruct (Devices.GamepadInput_isAvailable g);
    try (destruct (Hg (Devices.sd_gamepad s)) as (-> & -> & ->));
    try (destruct (Hg g) as (-> & -> & ->)); repeat split.
Qed.

Lemma gamepad_indices_out_of_range_witness :
  (SDL_CONTROLLER_BUTTON_MAX <= 21)%nat /\
  (SDL_CONTROLLER_AXIS_MAX <= 6)%nat /\
  Devices.isGamepadButtonPressed
    (Devices.update pad_A_held [] (fst (Devices.initialize pad_A_held Devices.InputManager_new)))
    21 = false.
Proof.
  assert (Hb : (SDL_CONTROLLER_BUTTON_MAX <= 21)%nat) by (unfold SDL_CONTROLLER_BUTTON_MAX; lia).
  assert (Ha : (SDL_CONTROLLER_AXIS_MAX <= 6)%nat) by (unfold SDL_CONTROLLER_AXIS_MAX; lia).
  split; [exact Hb|]. split; [exact Ha|].
  exact (proj1 (gamepad_indices_out_of_range _ 21 6 Hb Ha)).
Defined.

(** X17.  Keyboard of the delegation manager, for a scancode below
    [SDL_NUM_SCANCODES].  After a successful [initialize] and before the
    first [update] the keyboard is unavailable and no key is pressed.  From
    the first [update] on it is available, and [isKeyPressed] answers from
    SDL's key array as it is at the time of the query (not as it was at the
    update): a key is pressed exactly when its entry is 1. *)
Theorem keyboard_reads_live_array (sdl0 sdl sdl' : Platform) (m : Devices.InputManager)
    (events : list SDL_Event) (key : nat) :
  (key < SDL_NUM_SCANCODES)%nat ->
  (init_ok sdl0 = true ->
   let m0 := fst (Devices.initialize sdl0 m) in
   Devices.isKeyboardAvailable m0 = false /\
   Devices.isKeyPressed sdl' m0 key = false /\
   Devices.isKeyboardAvailable (Devices.update sdl events m0) = true /\
   Devices.isKeyPressed sdl' (Devices.update sdl events m0) key = (keystate sdl' key =? 1)) /\
  (forall k, Devices.keyboard m = Some k ->
     Devices.isKeyboardAvailable (Devices.update sdl events m) = true /\
     Devices.isKeyPressed sdl' (Devices.update sdl events m) key = (keystate sdl' key =? 1)).
Proof.
  intros _. split.
  - intros H m0. subst m0. unfold Devices.initialize. rewrite H. repeat split.
  - intros k Hk. unfold Devices.isKeyboardAvailable, Devices.isKeyPressed, Devices.update.
    cbn [Devices.keyboard]. rewrite Hk. repeat split.
Qed.

Lemma keyboard_reads_live_array_witness :
  (SDL_SCANCODE_A < SDL_NUM_SCANCODES)%nat /\
  init_ok quiet = true /\
  Devices.isKeyPressed (with_keys (only SDL_SCANCODE_A 1))
    (Devices.update quiet [] (fst (Devices.initialize quiet Devices.InputManager_new)))
    SDL_SCANCODE_A
  = (keystate (with_keys (only SDL_SCANCODE_A 1)) SDL_SCANCODE_A =? 1).
Proof.
  assert (Hk : (SDL_SCANCODE_A < SDL_NUM_SCANCODES)%nat)
    by (unfold SDL_SCANCODE_A, SDL_NUM_SCANCODES; lia).
  assert (H : init_ok quiet = true) by reflexivity.
  split; [exact Hk|]. split; [exact H|].
  exact (proj2 (proj2 (proj2 (proj1 (keyboard_reads_live_array quiet quiet
           (with_keys (only SDL_SCANCODE_A 1)) Devices.InputManager_new [] SDL_SCANCODE_A Hk)
           H)))).
Defined.

(** X18.  Mouse of the delegation manager, for a manager holding a mouse
    device and a button number from 1 to 32: after [update] the button is
    pressed exactly when its bit is set in what SDL reports, just pressed
    exactly when that bit is set now and was not set in the state before the
    update, a just-pressed button is pressed, and the position is the one
    SDL reports. *)
Theorem mouse_edges_delegation (sdl : Platform) (m : Devices.InputManager)
    (d : Devices.MouseInput) (events : list SDL_Event) (button : Z) :
  Devices.mouse m = Some d ->
  1 <= button <= 32 ->
  let m' := Devices.update sdl events m in
  let now := Z.testbit (mouse_buttons sdl) (button - 1) in
  let before := Z.testbit (Devices.mouseState d) (button - 1) in
  Devices.isMouseButtonPressed m' button = now /\
  Devices.isMouseButtonJustPressed m' button = now && negb before /\
  (Devices.isMouseButtonJustPressed m' button = true ->
   Devices.isMouseButtonPressed m' button = true) /\
  Devices.getMousePosition m' = (mouse_x sdl, mouse_y sdl).
Proof.
  intros Hm Hb m' now before.
  assert (Hp : Devices.isMouseButtonPressed m' button = now).
  { subst m'. unfold Devices.isMouseButtonPressed, Devices.update. cbn [Devices.mouse].
    rewrite Hm. cbn [fmap option_fmap option_map Devices.MouseInput_isAvailable andb].
    unfold Devices.MouseInput_isButtonPressed, SDL_BUTTON.
    cbn [Devices.MouseInput_isAvailable negb Devices.MouseInput_update Devices.mouseState].
    rewrite land_bit by lia. apply negb_involutive. }
  assert (Hj : Devices.isMouseButtonJustPressed m' button = now && negb before).
  { subst m'. unfold Devices.isMouseButtonJustPressed, Devices.update. cbn [Devices.mouse].
    rewrite Hm. cbn [fmap option_fmap option_map Devices.MouseInput_isAvailable andb].
    unfold Devices.MouseInput_isButtonJustPressed, SDL_BUTTON.
    cbn [Devices.MouseInput_isAvailable negb Devices.MouseInput_update Devices.mouseState
         Devices.previousMouseState].
    rewrite !land_bit by lia. rewrite negb_involutive. reflexivity. }
  split; [exact Hp|]. split; [exact Hj|]. split.
  - rewrite Hj, Hp. intros H. apply andb_prop in H. apply H.
  - subst m'. unfold Devices.getMousePosition, Devices.update. cbn [Devices.mouse].
    rewrite Hm. reflexivity.
Qed.

Lemma mouse_edges_delegation_witness :
  let m := fst (Devices.initialize quiet Devices.InputManager_new) in
  Devices.mouse m = Some Devices.MouseInput_new /\
  1 <= 1 <= 32 /\
  Devices.isMouseButtonPressed (Devices.update quiet [] m) 1
  = Z.testbit (mouse_buttons quiet) (1 - 1).
Proof.
  intros m.
  assert (Hm : Devices.mouse m = Some Devices.MouseInput_new) by reflexivity.
  assert (Hb : 1 <= 1 <= 32) by lia.
  split; [exact Hm|]. split; [exact Hb|].
  exact (proj1 (mouse_edges_delegation quiet m Devices.MouseInput_new [] 1 Hm Hb)).
Defined.

(** X19.  Gamepad of the delegation manager over a frame (no Steam Deck
    device, handle attached).  With no attach or detach event in the queue,
    a button is just pressed exactly when it reads 1 now and was not pressed
    before the update.  With such an event in the queue, for any device, the
    gamepad object is replaced by a fresh one, which binds what the scan
    finds and has forgotten the previous frame: every button that reads 1 is
    reported just pressed, also one held since earlier frames. *)
Theorem gamepad_edges_delegation (sdl : Platform) (m : Devices.InputManager)
    (g0 : Devices.GamepadInput) (h : Handle) (events : list SDL_Event) (button : nat) :
  Devices.steamDeck m = None ->
  Devices.gamepad m = Some g0 ->
  controller_attached sdl h = true ->
  (button < SDL_CONTROLLER_BUTTON_MAX)%nat ->
  let m' := Devices.update sdl events m in
  (existsb is_hotplug events = false ->
   Devices.controller g0 = Some h ->
   Devices.isGamepadButtonPressed m' button = (controller_button sdl h button =? 1) /\
   Devices.isGamepadButtonJustPressed m' button
   = (controller_button sdl h button =? 1) && negb (Devices.isGamepadButtonPressed m button)) /\
  (existsb is_hotplug events = true ->
   forall i, scan_controllers sdl = Some (h, i) ->
   Devices.isGamepadButtonPressed m' button = (controller_button sdl h button =? 1) /\
   Devices.isGamepadButtonJustPressed m' button = (controller_button sdl h button =? 1)).
Proof.
  intros Hs Hg Ha Hb m'.
  pose proof Hb as Hb'. apply Nat.leb_gt in Hb'.
  assert (Hm' : Devices.steamDeck m' = None /\
                Devices.gamepad m'
                = Some (Devices.GamepadInput_update sdl
                          (if existsb is_hotplug events then Devices.GamepadInput_new else g0))).
  { subst m'. unfold Devices.update. cbn [Devices.steamDeck Devices.gamepad].
    rewrite Hs, Hg, poll_events_some. split; reflexivity. }
  destruct Hm' as [Hs' Hg'].
  unfold Devices.isGamepadButtonPressed, Devices.isGamepadButtonJustPressed.
  rewrite Hs', Hg', Hs, Hg. split.
  - intros Hev Hc. rewrite Hev.
    rewrite (GamepadInput_update_edge sdl g0 h button Hc Ha Hb).
    unfold Devices.GamepadInput_update. rewrite Hc, Ha.
    unfold Devices.GamepadInput_isButtonPressed, Devices.GamepadInput_isAvailable.
    cbn [negb Devices.controller Devices.currentButtonStates orb andb]. rewrite Hc. cbn [negb orb].
    rewrite Hb'. rewrite read_buttons_nth by exact Hb. split; reflexivity.
  - intros Hev i Hscan. rewrite Hev.
    rewrite (GamepadInput_update_rescan sdl Devices.GamepadInput_new h i eq_refl Hscan Ha).
    unfold Devices.GamepadInput_isButtonPressed, Devices.GamepadInput_isButtonJustPressed,
      Devices.GamepadInput_isAvailable.
    cbn [negb Devices.controller Devices.currentButtonStates Devices.previousButtonStates
         orb andb Devices.GamepadInput_new].
    rewrite Hb'. rewrite read_buttons_nth by exact Hb. rewrite nth_repeat.
    rewrite andb_true_r. split; reflexivity.
Qed.

Lemma gamepad_edges_delegation_witness :
  let m := Devices.update pad_A_held []
             (fst (Devices.initialize pad_A_held Devices.InputManager_new)) in
  Devices.steamDeck m = None /\
  Devices.gamepad m = Some (Devices.GamepadInput_update pad_A_held Devices.GamepadInput_new) /\
  controller_attached pad_A_held 7%nat = true /\
  (0 < SDL_CONTROLLER_BUTTON_MAX)%nat /\
  Devices.isGamepadButtonPressed m 0 = true /\
  Devices.isGamepadButtonJustPressed
    (Devices.update pad_A_held [SDL_CONTROLLERDEVICEADDED 1] m) 0 = true.
Proof.
  intros m.
  assert (Hs : Devices.steamDeck m = None) by reflexivity.
  assert (Hg : Devices.gamepad m
               = Some (Devices.GamepadInput_update pad_A_held Devices.GamepadInput_new))
    by reflexivity.
  assert (Ha : controller_attached pad_A_held 7%nat = true) by reflexivity.
  assert (Hb : (0 < SDL_CONTROLLER_BUTTON_MAX)%nat) by (unfold SDL_CONTROLLER_BUTTON_MAX; lia).
  split; [exact Hs|]. split; [exact Hg|]. split; [exact Ha|]. split; [exact Hb|].
  split; [reflexivity|].
  exact (proj2 (proj2 (gamepad_edges_delegation pad_A_held m _ 7%nat
                         [SDL_CONTROLLERDEVICEADDED 1] 0%nat Hs Hg Ha Hb)
                  eq_refl 0%nat eq_refl)).
Defined.

(** X20.  On Steam Deck hardware the manager holds two gamepad devices,
    and the Steam Deck one answers whenever it has a handle.  After a
    successful [initialize] with the environment variable set and one
    [update] in which the scan finds an attached controller, both devices
    are bound to that same controller.  An attach or detach event never
    resets the Steam Deck device: whatever the queue holds, it is updated
    from its previous state, and while it is available the gamepad queries
    of the manager are its answers. *)
Theorem steam_deck_answers_first (sdl0 sdl : Platform) (m : Devices.InputManager)
    (events : list SDL_Event) (button axis : nat) :
  (init_ok sdl0 = true -> steam_deck_env sdl0 = true ->
   forall h i, scan_controllers sdl = Some (h, i) -> controller_attached sdl h = true ->
   let m1 := Devices.update sdl events (fst (Devices.initialize sdl0 m)) in
   Devices.isRunningOnSteamDeck m1 = true /\
   (Devices.controller <$> Devices.gamepad m1) = Some (Some h) /\
   (Devices.controller ∘ Devices.sd_gamepad <$> Devices.steamDeck m1) = Some (Some h) /\
   Devices.hasSteamDeckGyroSupport m1 = true) /\
  (forall s, Devices.steamDeck m = Some s ->
     let m' := Devices.update sdl events m in
     let g' := Devices.GamepadInput_update sdl (Devices.sd_gamepad s) in
     (Devices.sd_gamepad <$> Devices.steamDeck m') = Some g' /\
     (Devices.GamepadInput_isAvailable g' = true ->
      Devices.isGamepadButtonPressed m' button = Devices.GamepadInput_isButtonPressed g' button /\
      Devices.isGamepadButtonJustPressed m' button
      = Devices.GamepadInput_isButtonJustPressed g' button /\
      Devices.getGamepadAxisValue m' axis = Devices.GamepadInput_getAxisValue g' axis)).
Proof.
  split.
  - intros Hi He h i Hscan Ha m1. subst m1.
    unfold Devices.initialize. rewrite Hi, He. cbn [negb fst].
    unfold Devices.update, Devices.isRunningOnSteamDeck, Devices.hasSteamDeckGyroSupport.
    cbn [Devices.gamepad Devices.steamDeck Devices.isSteamDeckHardware Devices.initialized
         Devices.keyboard Devices.mouse].
    rewrite poll_events_some.
    cbn [fmap option_fmap option_map Devices.SteamDeckInput_update Devices.sd_gamepad
         Devices.SteamDeckInput_new Devices.hasGyro Devices.SteamDeckInput_hasGyroSupport
         compose].
    destruct (existsb is_hotplug events);
      rewrite !(GamepadInput_update_rescan sdl Devices.GamepadInput_new h i eq_refl Hscan Ha);
      repeat split.
  - intros s Hs m' g'. subst m'.
    assert (Hsd : Devices.steamDeck (Devices.update sdl events m)
                  = Some (Devices.SteamDeckInput_update sdl s)).
    { unfold Devices.update. cbn [Devices.steamDeck]. rewrite Hs. reflexivity. }
    split; [rewrite Hsd; reflexivity|].
    intros Hav.
    unfold Devices.isGamepadButtonPressed, Devices.isGamepadButtonJustPressed,
      Devices.getGamepadAxisValue.
    rewrite Hsd. unfold Devices.SteamDeckInput_isAvailable.
    cbn [Devices.SteamDeckInput_update Devices.sd_gamepad]. fold g'. rewrite Hav.
    repeat split.
Qed.

Lemma steam_deck_answers_first_witness :
  let sdl := steam_deck_pad 7%nat (only 0 1) (fun _ => 0) in
  init_ok sdl = true /\ steam_deck_env sdl = true /\
  scan_controllers sdl = Some (7%nat, 0%nat) /\ controller_attached sdl 7%nat = true /\
  Devices.isRunningOnSteamDeck
    (Devices.update sdl [] (fst (Devices.initialize sdl Devices.InputManager_new))) = true.
Proof.
  intros sdl.
  assert (H1 : init_ok sdl = true) by reflexivity.
  assert (H2 : steam_deck_env sdl = true) by reflexivity.
  assert (H3 : scan_controllers sdl = Some (7%nat, 0%nat)) by reflexivity.
  assert (H4 : controller_attached sdl 7%nat = true) by reflexivity.
  repeat (split; [assumption|]).
  exact (proj1 (proj1 (steam_deck_answers_first sdl sdl Devices.InputManager_new [] 0 0)
                  H1 H2 7%nat 0%nat H3 H4)).
Defined.

Lemma uninitialised_manager_is_neutral_witness :
  let sdl := {| was_init_gamecontroller := false; init_subsystem_ok := false; init_ok := false;
                steam_deck_env := false; keystate := fun _ => 1;
                key_from_scancode := letters_key_from_scancode;
                scancode_from_key := letters_scancode_from_key;
                mouse_buttons := 1; mouse_x := 5; mouse_y := 6; num_joysticks := 0;
                is_game_controller := fun _ => false; controller_open := fun _ => None;
                controller_attached := fun _ => false; controller_button := fun _ _ => 0;
                controller_axis := fun _ _ => 0 |} in
  init_ok sdl = false /\
  Devices.initialize sdl Devices.InputManager_new = (Devices.InputManager_new, false).
Proof.
  intros sdl.
  assert (H : init_ok sdl = false) by reflexivity.
  split; [exact H|].
  exact (proj1 (uninitialised_manager_is_neutral sdl [] 0 0 0 1) Devices.InputManager_new H).
Defined.

(** ** Keyboard of the binding-table manager *)

Lemma store_key_fold_other (sdl : Platform) (key : Z) (l : list nat)
    (prev prev' : gmap Z bool) :
  (forall i, In i l -> key_from_scancode sdl i <> key) ->
  fold_left (Bindings.store_key sdl (Some SdlKeyArray)) l (Some prev) = Some prev' ->
  prev' !! key = prev !! key.
Proof.
  revert prev. induction l as [|i l IH]; intros prev Hno; cbn [fold_left].
  - intros [= <-]. reflexivity.
  - unfold Bindings.store_key at 2. cbn [mbind option_bind read_key].
    assert (Hl : forall j, In j l -> key_from_scancode sdl j <> key)
      by (intros j Hj; apply Hno; right; exact Hj).
    destruct (key_from_scancode sdl i =? SDLK_UNKNOWN).
    + apply IH. exact Hl.
    + intros H. rewrite (IH _ Hl H). apply lookup_insert_ne. apply Hno. left. reflexivity.
Qed.

(** X21.  Keyboard of the binding-table manager after [update] (keyboard
    pointer set), for a key whose scancode is below [SDL_NUM_SCANCODES].
    [isKeyDown] is true exactly when the scancode's entry is non-zero.  For
    a key that SDL's keymap yields for its own scancode and for no other,
    [isKeyPressed] and [isKeyReleased] are both false after every [update].
    For a key that no scancode yields, [update] leaves both edge queries as
    they were; if the key was never stored, [isKeyPressed] equals
    [isKeyDown] on every frame and [isKeyReleased] is false. *)
Theorem keyboard_edges_binding_table (Game : Type) (sdl : Platform) (dt : Q)
    (m : Bindings.InputManager Game) (g : Game) (key : Z) :
  Bindings.m_currentKeyboardState m = Some SdlKeyArray ->
  (scancode_from_key sdl key < SDL_NUM_SCANCODES)%nat ->
  exists st,
    Bindings.update sdl dt (m, g) = Some st /\
    Bindings.isKeyDown sdl (fst st) key
    = Some (negb (keystate sdl (scancode_from_key sdl key) =? 0)) /\
    (key <> SDLK_UNKNOWN ->
     key_from_scancode sdl (scancode_from_key sdl key) = key ->
     (forall i, (i < SDL_NUM_SCANCODES)%nat -> key_from_scancode sdl i = key ->
                i = scancode_from_key sdl key) ->
     Bindings.isKeyPressed sdl (fst st) key = Some false /\
     Bindings.isKeyReleased sdl (fst st) key = Some false) /\
    ((forall i, (i < SDL_NUM_SCANCODES)%nat -> key_from_scancode sdl i <> key) ->
     Bindings.isKeyPressed sdl (fst st) key = Bindings.isKeyPressed sdl m key /\
     Bindings.isKeyReleased sdl (fst st) key = Bindings.isKeyReleased sdl m key /\
     (Bindings.m_previousKeyState m !! key = None ->
      Bindings.isKeyPressed sdl (fst st) key = Bindings.isKeyDown sdl (fst st) key /\
      Bindings.isKeyReleased sdl (fst st) key = Some false)).
Proof.
  intros Hptr Hlt. destruct (update_some sdl dt m g Hptr) as [st Hu]. exists st.
  split; [exact Hu|].
  destruct (update_keyboard_view sdl dt m g st Hu) as (m1 & Hm1 & Hp & Hq).
  assert (Hptr1 : Bindings.m_currentKeyboardState m1 = Some SdlKeyArray).
  { destruct (updateKeyboardState_inv sdl m m1 Hm1) as [prev ->].
    rewrite keyboard_ptr_set_previousKeyState. exact Hptr. }
  assert (Hptr' : Bindings.m_currentKeyboardState (fst st) = Some SdlKeyArray)
    by (rewrite Hp; exact Hptr1).
  split; [apply isKeyDown_some; exact Hptr'|]. split.
  - intros Hkey Hinv Huniq.
    exact (update_no_key_edge sdl dt m g st key Hptr Hkey Hlt Hinv Huniq Hu).
  - intros Hno.
    assert (Hprev : Bindings.m_previousKeyState (fst st) !! key
                    = Bindings.m_previousKeyState m !! key).
    { rewrite Hq. unfold Bindings.updateKeyboardState in Hm1. rewrite Hptr in Hm1.
      destruct (fold_left _ _ _) as [prev|] eqn:Hfold; [|discriminate].
      cbn in Hm1. injection Hm1 as <-.
      replace (Bindings.m_previousKeyState (Bindings.set_previousKeyState prev m))
        with prev by (destruct m; reflexivity).
      apply (store_key_fold_other sdl key _ _ _) in Hfold; [exact Hfold|].
      intros i Hi. apply Hno. apply in_seq in Hi. lia. }
    unfold Bindings.isKeyPressed, Bindings.isKeyReleased, Bindings.isKeyDown.
    rewrite Hprev, Hptr', Hptr. split; [reflexivity|]. split; [reflexivity|].
    intros ->. cbn [default read_key mbind option_bind negb].
    rewrite andb_true_r, andb_false_r. split; reflexivity.
Qed.

Lemma keyboard_edges_binding_table_witness :
  let m := fst (Bindings.init quiet (@Bindings.InputManager_new Z)) in
  let sdl := with_keys (only 0 1) in
  Bindings.m_currentKeyboardState m = Some SdlKeyArray /\
  (scancode_from_key sdl 13 < SDL_NUM_SCANCODES)%nat /\
  (forall i, (i < SDL_NUM_SCANCODES)%nat -> key_from_scancode sdl i <> 13) /\
  Bindings.m_previousKeyState m !! 13 = None /\
  exists st,
    Bindings.update sdl 1%Q (m, 0) = Some st /\
    Bindings.isKeyPressed sdl (fst st) 13 = Bindings.isKeyDown sdl (fst st) 13 /\
    Bindings.isKeyDown sdl (fst st) 13 = Some true.
Proof.
  intros m sdl.
  assert (Hptr : Bindings.m_currentKeyboardState m = Some SdlKeyArray) by reflexivity.
  assert (Hlt : (scancode_from_key sdl 13 < SDL_NUM_SCANCODES)%nat)
    by (cbn; unfold SDL_NUM_SCANCODES; lia).
  assert (Hno : forall i, (i < SDL_NUM_SCANCODES)%nat -> key_from_scancode sdl i <> 13).
  { intros i _. cbn. unfold letters_key_from_scancode, SDLK_UNKNOWN.
    destruct ((4 <=? i)%nat && (i <=? 29)%nat) eqn:E; [|discriminate].
    apply andb_prop in E as [E1 E2]. apply Nat.leb_le in E1, E2. lia. }
  assert (Hnone : Bindings.m_previousKeyState m !! 13 = None) by reflexivity.
  split; [exact Hptr|]. split; [exact Hlt|]. split; [exact Hno|]. split; [exact Hnone|].
  destruct (keyboard_edges_binding_table Z sdl 1%Q m 0 13 Hptr Hlt) as (st & Hu & Hd & _ & Hk).
  exists st. split; [exact Hu|].
  split; [exact (proj1 (proj2 (proj2 (Hk Hno)) Hnone)) | exact Hd].
Defined.

(** ** Ranges of the axis values *)

Lemma deadzone_inverse : (/ (1 - Devices.deadzone) == 20 # 17)%Q.
Proof. reflexivity. Qed.

Lemma normalize_eq (raw : Z) : (Devices.normalize raw == inject_Z raw * (1 # 32768))%Q.
Proof. unfold Devices.normalize. apply Qmult_comp; reflexivity. Qed.

Lemma normalize_small (raw : Z) :
  -4915 <= raw <= 4915 -> (Qabs (Devices.normalize raw) < Devices.deadzone)%Q.
Proof.
  intros H. rewrite normalize_eq. unfold Devices.deadzone.
  assert (H1 : (inject_Z (-4915) <= inject_Z raw)%Q) by (rewrite <- Zle_Qle; lia).
  assert (H2 : (inject_Z raw <= inject_Z 4915)%Q) by (rewrite <- Zle_Qle; lia).
  change (inject_Z (-4915)) with (-4915 # 1)%Q in H1.
  change (inject_Z 4915) with (4915 # 1)%Q in H2.
  apply Qabs_Qlt_condition. split; lra.
Qed.

Lemma shape_positive (raw : Z) :
  4915 < raw ->
  (Devices.shape Devices.deadzone (Devices.normalize raw)
   == (inject_Z raw * (1 # 32768) - (15 # 100)) * (20 # 17))%Q.
Proof.
  intros H.
  assert (H1 : (inject_Z 4916 <= inject_Z raw)%Q) by (rewrite <- Zle_Qle; lia).
  change (inject_Z 4916) with (4916 # 1)%Q in H1.
  rewrite shape_right.
  - rewrite deadzone_inverse, normalize_eq. reflexivity.
  - rewrite normalize_eq. unfold Devices.deadzone. rewrite Qabs_pos; lra.
  - rewrite normalize_eq. lra.
Qed.

Lemma shape_negative (raw : Z) :
  raw < -4915 ->
  (Devices.shape Devices.deadzone (Devices.normalize raw)
   == (inject_Z raw * (1 # 32768) + (15 # 100)) * (20 # 17))%Q.
Proof.
  intros H.
  assert (H1 : (inject_Z raw <= inject_Z (-4916))%Q) by (rewrite <- Zle_Qle; lia).
  change (inject_Z (-4916)) with (-4916 # 1)%Q in H1.
  rewrite shape_left.
  - rewrite deadzone_inverse, normalize_eq. reflexivity.
  - rewrite normalize_eq. unfold Devices.deadzone. rewrite Qabs_neg; lra.
  - rewrite normalize_eq. lra.
Qed.

(** X22.  Range of [GamepadInput::getAxisValue] (floats read as exact
    rationals) on a bound, attached gamepad after [update], for a 16-bit
    reading [raw] of the axis: the value lies in [-1, 1); it is -1 exactly at
    the reading -32768 and never reaches 1; it is 0 exactly for readings
    from -4915 to 4915, positive exactly above and negative exactly below;
    and a larger reading never gives a smaller value. *)
Theorem axis_range_delegation (sdl : Platform) (g : Devices.GamepadInput) (h : Handle)
    (axis : nat) :
  Devices.controller g = Some h ->
  controller_attached sdl h = true ->
  (axis < SDL_CONTROLLER_AXIS_MAX)%nat ->
  -32768 <= controller_axis sdl h axis <= 32767 ->
  let raw := controller_axis sdl h axis in
  let v := Devices.GamepadInput_getAxisValue (Devices.GamepadInput_update sdl g) axis in
  (-1 <= v < 1)%Q /\
  ((v == -1)%Q <-> raw = -32768) /\
  ((v == 0)%Q <-> -4915 <= raw <= 4915) /\
  ((0 < v)%Q <-> 4915 < raw) /\
  ((v < 0)%Q <-> raw < -4915) /\
  (forall sdl', controller_attached sdl' h = true ->
     raw <= controller_axis sdl' h axis <= 32767 ->
     (v <= Devices.GamepadInput_getAxisValue (Devices.GamepadInput_update sdl' g) axis)%Q).
Proof.
  intros Hc Ha Hx Hr raw v.
  assert (Hv : forall p, controller_attached p h = true ->
             Devices.GamepadInput_getAxisValue (Devices.GamepadInput_update p g) axis
             = Devices.shape Devices.deadzone (Devices.normalize (controller_axis p h axis))).
  { intros p Hp. unfold Devices.GamepadInput_update. rewrite Hc, Hp. cbn [negb].
    refine (proj2 (bound_queries _ p h _ _ _) axis Hx); reflexivity. }
  assert (Hcases : forall r, -32768 <= r <= 32767 ->
            let w := Devices.shape Devices.deadzone (Devices.normalize r) in
            (-4915 <= r <= 4915 /\ (w == 0)%Q) \/
            (4915 < r /\ (w == (inject_Z r * (1 # 32768) - (15 # 100)) * (20 # 17))%Q
             /\ (inject_Z 4916 <= inject_Z r <= inject_Z 32767)%Q) \/
            (r < -4915 /\ (w == (inject_Z r * (1 # 32768) + (15 # 100)) * (20 # 17))%Q
             /\ (inject_Z (-32768) <= inject_Z r <= inject_Z (-4916))%Q)).
  { intros r Hrr w. subst w.
    destruct (Z_lt_le_dec 4915 r) as [Hp|Hp]; [|destruct (Z_lt_le_dec r (-4915)) as [Hn|Hn]].
    - right. left. split; [exact Hp|]. split; [apply shape_positive; exact Hp|].
      rewrite <- !Zle_Qle. lia.
    - right. right. split; [exact Hn|]. split; [apply shape_negative; exact Hn|].
      rewrite <- !Zle_Qle. lia.
    - left. split; [lia|]. rewrite shape_inside; [reflexivity|]. apply normalize_small. lia. }
  subst v. rewrite (Hv sdl Ha). fold raw. fold raw in Hr.
  assert (Hend : raw = -32768 \/ -32768 < raw) by lia.
  assert (Hmin : (inject_Z (-32768 + 1) <= inject_Z raw)%Q \/ raw = -32768).
  { destruct Hend as [->|H]; [right; reflexivity | left; rewrite <- Zle_Qle; lia]. }
  change (inject_Z (-32768 + 1)) with (-32767 # 1)%Q in Hmin.
  destruct (Hcases raw Hr) as [[Hin Hw]|[(Hp & Hw & Hb)|(Hn & Hw & Hb)]];
    change (inject_Z 4916) with (4916 # 1)%Q in *;
    change (inject_Z 32767) with (32767 # 1)%Q in *;
    change (inject_Z (-32768)) with (-32768 # 1)%Q in *;
    change (inject_Z (-4916)) with (-4916 # 1)%Q in *.
  - rewrite Hw. repeat split; try lra; try lia; try (intros; exfalso; lra); try (intros; lia).
    intros sdl' Ha' Hr'. rewrite (Hv sdl' Ha').
    destruct (Hcases (controller_axis sdl' h axis)) as [[_ Hw']|[(_ & Hw' & Hb')|(Hn' & _)]];
      [lia | | | lia]; rewrite Hw';
      change (inject_Z 4916) with (4916 # 1)%Q in *; [lra | lra].
  - rewrite Hw. repeat split; try lra; try lia; try (intros; exfalso; lra); try (intros; lia).
    intros sdl' Ha' Hr'. rewrite (Hv sdl' Ha').
    destruct (Hcases (controller_axis sdl' h axis)) as [[Hin' _]|[(_ & Hw' & Hb')|(Hn' & _)]];
      [lia | lia | | lia]. rewrite Hw'.
    assert (Hle : (inject_Z raw <= inject_Z (controller_axis sdl' h axis))%Q)
      by (rewrite <- Zle_Qle; lia).
    lra.
  - rewrite Hw. split; [lra|]. split.
    { split.
      - intros He. destruct Hmin as [Hm|Hm]; [exfalso; lra | exact Hm].
      - intros He. rewrite He. reflexivity. }
    split; [split; [intros; exfalso; lra | intros; lia]|].
    split; [split; [intros; exfalso; lra | intros; lia]|].
    split; [split; [intros; lia | intros; lra]|].
    intros sdl' Ha' Hr'. rewrite (Hv sdl' Ha').
    assert (Hle : (inject_Z raw <= inject_Z (controller_axis sdl' h axis))%Q)
      by (rewrite <- Zle_Qle; lia).
    destruct (Hcases (controller_axis sdl' h axis)) as [[_ Hw']|[(_ & Hw' & Hb')|(_ & Hw' & Hb')]];
      [lia | | | ]; rewrite Hw';
      change (inject_Z 4916) with (4916 # 1)%Q in *;
      change (inject_Z (-4916)) with (-4916 # 1)%Q in *; lra.
Qed.

Lemma axis_range_delegation_witness :
  let g := Devices.GamepadInput_update (stick_frame 20000) Devices.GamepadInput_new in
  Devices.controller g = Some 7%nat /\
  controller_attached (stick_frame (-32768)) 7%nat = true /\
  (0 < SDL_CONTROLLER_AXIS_MAX)%nat /\
  -32768 <= controller_axis (stick_frame (-32768)) 7%nat 0 <= 32767 /\
  (Devices.GamepadInput_getAxisValue
     (Devices.GamepadInput_update (stick_frame (-32768)) g) 0 == -1)%Q.
Proof.
  intros g.
  assert (Hc : Devices.controller g = Some 7%nat) by reflexivity.
  assert (Ha : controller_attached (stick_frame (-32768)) 7%nat = true) by reflexivity.
  assert (Hx : (0 < SDL_CONTROLLER_AXIS_MAX)%nat) by (unfold SDL_CONTROLLER_AXIS_MAX; lia).
  assert (Hr : -32768 <= controller_axis (stick_frame (-32768)) 7%nat 0 <= 32767)
    by (cbn; lia).
  split; [exact Hc|]. split; [exact Ha|]. split; [exact Hx|]. split; [exact Hr|].
  exact (proj2 (proj1 (proj2 (axis_range_delegation (stick_frame (-32768)) g 7%nat 0%nat
                                Hc Ha Hx Hr))) eq_refl).
Defined.

Lemma axis_after_update {Game : Type} sdl dt (m : Bindings.InputManager Game) (g : Game) st h i :
  Bindings.update sdl dt (m, g) = Some st ->
  Bindings.m_gameController m = Some h ->
  (i < SDL_CONTROLLER_AXIS_MAX)%nat ->
  Bindings.getGamepadAxisValue (fst st) (Bindings.sdlAxisToGamepadAxis i)
  = (inject_Z (controller_axis sdl h i) / 32767)%Q.
Proof.
  intros Hu Hc Hi.
  destruct (gamepad_after_update sdl dt m g st Hu) as [prev Hsnap].
  destruct (gamepad_queries_ext _ _ Bindings.GamepadButton.NONE
              (Bindings.sdlAxisToGamepadAxis i) Hsnap) as (_ & _ & _ & ->).
  apply updateGamepadState_axis; [|exact Hi].
  rewrite gameController_refresh_prefix. exact Hc.
Qed.

(** X23.  Range of the binding-table axis value (floats read as exact
    rationals): after [update] with a bound controller, the value stored
    for a 16-bit reading [raw] of an axis lies between -32768/32767 and 1;
    it is 1 exactly at 32767, 0 exactly at 0, has the sign of the reading,
    and is below -1 exactly at the reading -32768. *)
Theorem axis_range_binding_table (Game : Type) (sdl : Platform) (dt : Q)
    (m : Bindings.InputManager Game) (g : Game) (h : Handle) (i : nat) :
  Bindings.m_currentKeyboardState m = Some SdlKeyArray ->
  Bindings.m_gameController m = Some h ->
  (i < SDL_CONTROLLER_AXIS_MAX)%nat ->
  -32768 <= controller_axis sdl h i <= 32767 ->
  exists st,
    Bindings.update sdl dt (m, g) = Some st /\
    let raw := controller_axis sdl h i in
    let v := Bindings.getGamepadAxisValue (fst st) (Bindings.sdlAxisToGamepadAxis i) in
    (-32768 # 32767 <= v <= 1)%Q /\
    ((v == 1)%Q <-> raw = 32767) /\
    ((v == 0)%Q <-> raw = 0) /\
    ((0 < v)%Q <-> 0 < raw) /\
    ((v < -1)%Q <-> raw = -32768).
Proof.
  intros Hptr Hc Hi Hr. destruct (update_some sdl dt m g Hptr) as [st Hu]. exists st.
  split; [exact Hu|]. intros raw v. subst v.
  rewrite (axis_after_update sdl dt m g st h i Hu Hc Hi). fold raw. fold raw in Hr.
  clearbody raw.
  assert (Hq : forall a b : Z, (inject_Z a <= inject_Z b)%Q <-> a <= b)
    by (intros a b; rewrite Zle_Qle; reflexivity).
  assert (Hdiv : (inject_Z raw / 32767 == inject_Z raw * (1 # 32767))%Q)
    by (unfold Qdiv; reflexivity).
  rewrite Hdiv. clear Hdiv.
  assert (Hlo : (inject_Z (-32768) <= inject_Z raw)%Q) by (apply (proj2 (Hq _ _)); lia).
  assert (Hhi : (inject_Z raw <= inject_Z 32767)%Q) by (apply (proj2 (Hq _ _)); lia).
  change (inject_Z (-32768)) with (-32768 # 1)%Q in Hlo.
  change (inject_Z 32767) with (32767 # 1)%Q in Hhi.
  split; [split; lra|].
  split; [|split; [|split]].
  - split.
    + intros He. assert (Hge : (inject_Z 32767 <= inject_Z raw)%Q)
        by (change (inject_Z 32767) with (32767 # 1)%Q; lra).
      apply (proj1 (Hq _ _)) in Hge. lia.
    + intros ->. reflexivity.
  - split.
    + intros He.
      assert (H1 : (inject_Z 0 <= inject_Z raw)%Q) by (change (inject_Z 0) with 0%Q; lra).
      assert (H2 : (inject_Z raw <= inject_Z 0)%Q) by (change (inject_Z 0) with 0%Q; lra).
      apply (proj1 (Hq _ _)) in H1, H2. lia.
    + intros ->. reflexivity.
  - split.
    + intros He. destruct (Z_lt_le_dec 0 raw) as [|Hle]; [assumption|].
      apply (proj2 (Hq _ _)) in Hle. change (inject_Z 0) with 0%Q in Hle. exfalso. lra.
    + intros Hp. assert (H1 : (inject_Z 1 <= inject_Z raw)%Q) by (apply (proj2 (Hq _ _)); lia).
      change (inject_Z 1) with 1%Q in H1. lra.
  - split.
    + intros He. destruct (Z.eq_dec raw (-32768)) as [|Hne]; [assumption|].
      assert (H1 : (inject_Z (-32767) <= inject_Z raw)%Q) by (apply (proj2 (Hq _ _)); lia).
      change (inject_Z (-32767)) with (-32767 # 1)%Q in H1. exfalso. lra.
    + intros ->. reflexivity.
Qed.

Lemma axis_range_binding_table_witness :
  Bindings.m_currentKeyboardState stick_manager = Some SdlKeyArray /\
  Bindings.m_gameController stick_manager = Some 7%nat /\
  (0 < SDL_CONTROLLER_AXIS_MAX)%nat /\
  -32768 <= controller_axis (stick_frame (-32768)) 7%nat 0 <= 32767 /\
  exists st,
    Bindings.update (stick_frame (-32768)) 1%Q (stick_manager, 0%Q) = Some st /\
    (Bindings.getGamepadAxisValue (fst st) Bindings.GamepadAxis.LEFTX < -1)%Q.
Proof.
  assert (Hp : Bindings.m_currentKeyboardState stick_manager = Some SdlKeyArray) by reflexivity.
  assert (Hc : Bindings.m_gameController stick_manager = Some 7%nat) by reflexivity.
  assert (Hx : (0 < SDL_CONTROLLER_AXIS_MAX)%nat) by (unfold SDL_CONTROLLER_AXIS_MAX; lia).
  assert (Hr : -32768 <= controller_axis (stick_frame (-32768)) 7%nat 0 <= 32767)
    by (cbn; lia).
  split; [exact Hp|]. split; [exact Hc|]. split; [exact Hx|]. split; [exact Hr|].
  destruct (axis_range_binding_table Q (stick_frame (-32768)) 1%Q stick_manager 0%Q 7%nat 0%nat
              Hp Hc Hx Hr) as (st & Hu & _ & _ & _ & _ & Hlow).
  exists st. split; [exact Hu|]. exact (proj2 Hlow eq_refl).
Defined.

(** The readings -32768 and 20000 are 16-bit readings. *)
Lemma binary32_matches_rational_witness :
  -32768 <= 20000 <= 32767 /\
  Binary32.is_finite (Binary32.delegation_axis 20000) = true.
Proof.
  assert (H : -32768 <= 20000 <= 32767) by lia.
  split; [exact H|]. exact (proj1 (binary32_matches_rational 20000 H)).
Defined.

(** ** Controller lifecycle of the binding-table manager *)

(** The loop of [init] against the scan: a handle found is bound with its
    index; when none is found, the handle is null if some index was a game
    controller (its open failed and was assigned), and kept otherwise. *)
Lemma init_scan_spec (sdl : Platform) (n i : nat) (c : option Handle) (idx : Z) :
  Bindings.init_scan sdl i n c idx
  = match scan_from sdl i n with
    | Some (h, j) => (Some h, Z.of_nat j)
    | None => (if existsb (is_game_controller sdl) (seq i n) then None else c, idx)
    end.
Proof.
  revert i c. induction n as [|n IH]; intros i c; cbn [Bindings.init_scan scan_from seq existsb].
  - reflexivity.
  - destruct (is_game_controller sdl i); cbn [orb].
    + destruct (controller_open sdl i) as [h|]; [reflexivity|].
      rewrite IH. destruct (scan_from sdl (S i) n) as [[h j]|]; [reflexivity|].
      destruct (existsb _ _); reflexivity.
    + apply IH.
Qed.

Lemma controller_update {Game : Type} sdl dt (m : Bindings.InputManager Game) (g : Game) st :
  Bindings.update sdl dt (m, g) = Some st ->
  Bindings.m_gameController (fst st) = Bindings.m_gameController m /\
  Bindings.m_gameControllerIndex (fst st) = Bindings.m_gameControllerIndex m.
Proof.
  intros Hu.
  apply (update_preserves
           (fun m' => (Bindings.m_gameController m', Bindings.m_gameControllerIndex m'))
           sdl dt m g st) in Hu.
  - injection Hu as H1 H2. split; assumption.
  - intros prev m'. destruct m'; reflexivity.
  - intros m'. destruct m'; reflexivity.
  - intros m'. unfold Bindings.updateGamepadState. destruct m' as [[?|] ?]; reflexivity.
  - intros a m'. destruct m'; reflexivity.
Qed.

(** X24.  Controller lifecycle of the binding-table manager (keyboard
    pointer set).  [update] completes and never binds or releases a
    controller: handle and index are what they were.  [shutdown] releases
    the handle and nothing else: it keeps the bindings, the keyboard
    pointer, the recorded index and the gamepad snapshots, and a second
    [shutdown] changes nothing; an [update] after it completes and leaves
    the snapshots as they were before the [shutdown].  A successful [init]
    on a manager without a controller binds what the scan finds and leaves
    the snapshots alone. *)
Theorem controller_lifecycle_binding_table (Game : Type) (sdl : Platform) (dt : Q)
    (m : Bindings.InputManager Game) (g : Game) :
  Bindings.m_currentKeyboardState m = Some SdlKeyArray ->
  (exists st,
     Bindings.update sdl dt (m, g) = Some st /\
     Bindings.m_gameController (fst st) = Bindings.m_gameController m /\
     Bindings.m_gameControllerIndex (fst st) = Bindings.m_gameControllerIndex m) /\
  (Bindings.m_gameController (Bindings.shutdown m) = None /\
   Bindings.shutdown (Bindings.shutdown m) = Bindings.shutdown m /\
   tables (Bindings.shutdown m) = tables m /\
   gamepad_snapshot (Bindings.shutdown m) = gamepad_snapshot m /\
   Bindings.m_currentKeyboardState (Bindings.shutdown m) = Bindings.m_currentKeyboardState m /\
   Bindings.m_gameControllerIndex (Bindings.shutdown m) = Bindings.m_gameControllerIndex m) /\
  (exists st,
     Bindings.update sdl dt (Bindings.shutdown m, g) = Some st /\
     Bindings.m_gameController (fst st) = None /\
     gamepad_snapshot (fst st) = gamepad_snapshot m) /\
  (Bindings.m_gameController m = None ->
   snd (Bindings.init sdl m) = true ->
   Bindings.m_gameController (fst (Bindings.init sdl m)) = fst <$> scan_controllers sdl /\
   gamepad_snapshot (fst (Bindings.init sdl m)) = gamepad_snapshot m).
Proof.
  intros Hptr.
  assert (Hsd : Bindings.m_gameController (Bindings.shutdown m) = None /\
                Bindings.m_currentKeyboardState (Bindings.shutdown m)
                = Bindings.m_currentKeyboardState m /\
                Bindings.m_gameControllerIndex (Bindings.shutdown m)
                = Bindings.m_gameControllerIndex m).
  { unfold Bindings.shutdown. destruct (Bindings.m_gameController m) eqn:E.
    - destruct m; repeat split.
    - rewrite E. repeat split. }
  destruct Hsd as (Hnone & Hkeep & Hidx).
  split; [|split; [|split]].
  - destruct (update_some sdl dt m g Hptr) as [st Hu]. exists st. split; [exact Hu|].
    exact (controller_update sdl dt m g st Hu).
  - split; [exact Hnone|]. split.
    { unfold Bindings.shutdown at 1. rewrite Hnone. reflexivity. }
    split; [apply tables_shutdown|]. split; [apply gamepad_snapshot_shutdown|].
    split; assumption.
  - destruct (update_some sdl dt (Bindings.shutdown m) g) as [st Hu];
      [rewrite Hkeep; exact Hptr|].
    exists st. split; [exact Hu|]. split.
    + rewrite (proj1 (controller_update sdl dt _ g st Hu)). exact Hnone.
    + destruct (gamepad_after_update sdl dt _ g st Hu) as [prev ->].
      rewrite updateGamepadState_no_handle
        by (rewrite gameController_refresh_prefix; exact Hnone).
      rewrite <- (gamepad_snapshot_shutdown m).
      destruct (Bindings.shutdown m); reflexivity.
  - intros Hc Hi. split; [|apply gamepad_snapshot_init].
    revert Hi. unfold Bindings.init.
    destruct (negb (was_init_gamecontroller sdl) && negb (init_subsystem_ok sdl));
      [discriminate|].
    intros _. cbn [fst]. rewrite init_scan_spec. unfold scan_controllers.
    replace (Bindings.m_gameController
               (Bindings.set_currentKeyboardState (SDL_GetKeyboardState sdl) m))
      with (@None Handle) by (rewrite <- Hc; destruct m; reflexivity).
    destruct (scan_from sdl 0 (num_joysticks sdl)) as [[h i]|]; cbn [fst snd].
    + destruct m; reflexivity.
    + destruct (existsb _ _); destruct m; reflexivity.
Qed.

Lemma controller_lifecycle_binding_table_witness :
  Bindings.m_currentKeyboardState counter_manager = Some SdlKeyArray /\
  Bindings.m_gameController (Bindings.shutdown counter_manager) = None /\
  snd (Bindings.init pad_A_held (Bindings.shutdown counter_manager)) = true /\
  Bindings.m_gameController (fst (Bindings.init pad_A_held (Bindings.shutdown counter_manager)))
  = Some 7%nat.
Proof.
  assert (Hp : Bindings.m_currentKeyboardState counter_manager = Some SdlKeyArray)
    by reflexivity.
  assert (Hp' : Bindings.m_currentKeyboardState (Bindings.shutdown counter_manager)
                = Some SdlKeyArray) by reflexivity.
  assert (Hn : Bindings.m_gameController (Bindings.shutdown counter_manager) = None)
    by reflexivity.
  assert (Hi : snd (Bindings.init pad_A_held (Bindings.shutdown counter_manager)) = true)
    by reflexivity.
  split; [exact Hp|]. split; [exact Hn|]. split; [exact Hi|].
  exact (proj1 (proj2 (proj2 (proj2
           (controller_lifecycle_binding_table Z pad_A_held 1%Q
              (Bindings.shutdown counter_manager) 0 Hp'))) Hn Hi)).
Defined.

(** ** [init] on a manager that already holds a controller *)

(** X27.  [init] of the binding-table manager, when the gamepad subsystem is
    or can be initialised: it returns true, sets the keyboard pointer and
    leaves the binding tables and the gamepad snapshots as they were.  The
    handle afterwards is the first game controller that opens, with its
    device index; when none opens, the index is kept, and the handle is kept
    only if no joystick index is a game controller: a failed open is
    assigned to the handle, so a manager that held a controller ends
    without one.  When the subsystem cannot be initialised [init] returns
    false and changes nothing.  A manager bound to handle 7 that is
    initialised again while the only game controller fails to open ends with
    no handle and the device index 0. *)
Theorem init_on_bound_manager :
  (forall (Game : Type) (sdl : Platform) (m : Bindings.InputManager Game),
     (was_init_gamecontroller sdl || init_subsystem_ok sdl = true ->
      let m' := fst (Bindings.init sdl m) in
      snd (Bindings.init sdl m) = true /\
      Bindings.m_currentKeyboardState m' = Some SdlKeyArray /\
      tables m' = tables m /\
      gamepad_snapshot m' = gamepad_snapshot m /\
      match scan_controllers sdl with
      | Some (h, j) =>
          Bindings.m_gameController m' = Some h /\
          Bindings.m_gameControllerIndex m' = Z.of_nat j
      | None =>
          Bindings.m_gameControllerIndex m' = Bindings.m_gameControllerIndex m /\
          Bindings.m_gameController m'
          = if existsb (is_game_controller sdl) (seq 0 (num_joysticks sdl))
            then None else Bindings.m_gameController m
      end) /\
     (was_init_gamecontroller sdl || init_subsystem_ok sdl = false ->
      Bindings.init sdl m = (m, false))) /\
  (let m := fst (Bindings.init pad_A_held (@Bindings.InputManager_new Z)) in
   Bindings.m_gameController m = Some 7%nat /\
   Bindings.m_gameController (fst (Bindings.init pad_unopenable m)) = None /\
   Bindings.m_gameControllerIndex (fst (Bindings.init pad_unopenable m)) = 0 /\
   snd (Bindings.init pad_unopenable m) = true).
Proof.
  split.
  - intros Game sdl m. split.
    + intros Hs m'. subst m'. unfold Bindings.init.
      assert (E : negb (was_init_gamecontroller sdl) && negb (init_subsystem_ok sdl) = false).
      { rewrite <- negb_orb, Hs. reflexivity. }
      rewrite E. cbn [fst snd]. rewrite init_scan_spec. fold (scan_controllers sdl).
      split; [reflexivity|].
      destruct (scan_controllers sdl) as [[h j]|]; cbn [fst snd].
      * destruct m. repeat split.
      * destruct (existsb _ _); destruct m; repeat split.
    + intros Hs. unfold Bindings.init.
      assert (E : negb (was_init_gamecontroller sdl) && negb (init_subsystem_ok sdl) = true).
      { rewrite <- negb_orb, Hs. reflexivity. }
      rewrite E. reflexivity.
  - repeat split.
Qed.

(** * Dispatch, rebinding, axes and hotplug, from SDL to the game *)

(** ** What a dispatch does to the game *)

Section Effects.
Context {Game : Type}.
Implicit Types (m : Bindings.InputManager Game) (g : Game).

Lemma run_calls_game (calls : list (Bindings.Invocation Game)) m g :
  snd (fold_left Bindings.run_call calls (m, g)) = apply_calls calls g.
Proof.
  unfold apply_calls. revert m g. induction calls as [|c calls IH]; intros m g; [reflexivity|].
  cbn [fold_left]. unfold Bindings.run_call at 2. cbn [fst snd]. apply IH.
Qed.

(** The snapshots [update] dispatches on, against what SDL reports. *)
Lemma refreshed_view sdl m :
  Bindings.m_currentKeyboardState m = Some SdlKeyArray ->
  exists m3,
    refreshed sdl m = Some m3 /\
    Bindings.m_currentKeyboardState m3 = Some SdlKeyArray /\
    tables m3 = tables m /\
    Bindings.m_touchPoints m3 = Bindings.m_touchPoints m /\
    Bindings.m_currentMouseState m3 = mouse_buttons sdl /\
    (forall h i, Bindings.m_gameController m = Some h -> (i < 16)%nat ->
       Bindings.isGamepadButtonDown m3 (Bindings.sdlButtonToGamepadButton i)
       = negb (controller_button sdl h i =? 0)) /\
    (forall h i, Bindings.m_gameController m = Some h -> (i < SDL_CONTROLLER_AXIS_MAX)%nat ->
       Bindings.getGamepadAxisValue m3 (Bindings.sdlAxisToGamepadAxis i)
       = (inject_Z (controller_axis sdl h i) / 32767)%Q) /\
    (Bindings.m_gameController m = None -> gamepad_snapshot m3 = gamepad_snapshot m).
Proof.
  intros Hptr. unfold refreshed.
  destruct (updateKeyboardState_some sdl m Hptr) as [prev ->]. cbn [mbind option_bind].
  set (m2 := Bindings.updateMouseState sdl (Bindings.set_previousKeyState prev m)).
  exists (Bindings.updateGamepadState sdl m2). split; [reflexivity|].
  assert (Hc2 : Bindings.m_gameController m2 = Bindings.m_gameController m)
    by apply gameController_refresh_prefix.
  split.
  { rewrite keyboard_ptr_updateGamepadState. subst m2.
    rewrite keyboard_ptr_updateMouseState, keyboard_ptr_set_previousKeyState. exact Hptr. }
  split.
  { unfold Bindings.updateGamepadState. subst m2.
    destruct m as [[h|] ?]; reflexivity. }
  split.
  { unfold Bindings.updateGamepadState. subst m2.
    destruct m as [[h|] ?]; reflexivity. }
  split.
  { unfold Bindings.updateGamepadState. subst m2.
    destruct m as [[h|] ?]; reflexivity. }
  split; [|split].
  - intros h i Hc Hi. apply updateGamepadState_button; [rewrite Hc2; exact Hc | exact Hi].
  - intros h i Hc Hi. apply updateGamepadState_axis; [rewrite Hc2; exact Hc | exact Hi].
  - intros Hc. rewrite updateGamepadState_no_handle by (rewrite Hc2; exact Hc).
    subst m2. destruct m; reflexivity.
Qed.

(** [update] completes, and the game it leaves is the game after the
    callbacks of the dispatch. *)
Lemma update_effect sdl dt m g :
  Bindings.m_currentKeyboardState m = Some SdlKeyArray ->
  exists st m3 calls,
    Bindings.update sdl dt (m, g) = Some st /\
    refreshed sdl m = Some m3 /\
    Bindings.dispatch sdl m3 dt = Some calls /\
    snd st = apply_calls calls g.
Proof.
  intros Hptr.
  destruct (refreshed_view sdl m Hptr) as (m3 & Hm3 & Hptr3 & _).
  destruct (dispatch_some sdl m3 dt Hptr3) as [calls Hcalls].
  exists (fold_left Bindings.run_call calls (m3, g)), m3, calls.
  split; [|split; [exact Hm3|split; [exact Hcalls|apply run_calls_game]]].
  rewrite update_unfold, Hm3. cbn [mbind option_bind]. rewrite Hcalls. reflexivity.
Qed.

(** The gamepad snapshots left by [update] are those it dispatched on. *)
Lemma update_snapshot sdl dt m g st m3 :
  Bindings.update sdl dt (m, g) = Some st ->
  refreshed sdl m = Some m3 ->
  gamepad_snapshot (fst st) = gamepad_snapshot m3.
Proof.
  intros Hu Hm3. rewrite update_unfold, Hm3 in Hu. cbn [mbind option_bind] in Hu.
  destruct (Bindings.dispatch sdl m3 dt) as [calls|]; [|discriminate].
  cbn [mbind option_bind] in Hu. injection Hu as <-.
  rewrite run_calls_manager. destruct (last calls); [|reflexivity].
  apply gamepad_snapshot_set_activeInputMethod.
Qed.

(** The calls of an [update] for a key, a mouse button and a translated
    gamepad button, against what SDL reports. *)
Lemma update_digital_calls sdl dt m m3 calls :
  Bindings.m_currentKeyboardState m = Some SdlKeyArray ->
  refreshed sdl m = Some m3 ->
  Bindings.dispatch sdl m3 dt = Some calls ->
  (forall key,
     calls_for (Bindings.KeyboardKey key) calls
     = match Bindings.m_keyCommands m !! key with
       | Some c =>
           if negb (keystate sdl (scancode_from_key sdl key) =? 0)
           then [Bindings.Build_Invocation (Bindings.KeyboardKey key) c dt] else []
       | None => []
       end) /\
  (forall button,
     calls_for (Bindings.MouseButton button) calls
     = match Bindings.m_mouseCommands m !! button with
       | Some c =>
           if negb (Z.land (mouse_buttons sdl) (SDL_BUTTON button) =? 0)
           then [Bindings.Build_Invocation (Bindings.MouseButton button) c dt] else []
       | None => []
       end) /\
  (forall h i, Bindings.m_gameController m = Some h -> (i < 16)%nat ->
     calls_for (Bindings.GamepadButtonInput (Bindings.sdlButtonToGamepadButton i)) calls
     = match Bindings.m_gamepadButtonCommands m !! Bindings.sdlButtonToGamepadButton i with
       | Some c =>
           if negb (controller_button sdl h i =? 0)
           then [Bindings.Build_Invocation
                   (Bindings.GamepadButtonInput (Bindings.sdlButtonToGamepadButton i)) c dt]
           else []
       | None => []
       end) /\
  (Bindings.m_gameController m = None ->
   forall button,
     calls_for (Bindings.GamepadButtonInput button) calls
     = match Bindings.m_gamepadButtonCommands m !! button with
       | Some c =>
           if Bindings.isGamepadButtonDown m button
           then [Bindings.Build_Invocation (Bindings.GamepadButtonInput button) c dt] else []
       | None => []
       end).
Proof.
  intros Hptr Hm3 Hd.
  destruct (refreshed_view sdl m Hptr) as (m3' & Hm3' & Hptr3 & Ht & _ & Hmouse & Hb & _ & Hn).
  rewrite Hm3 in Hm3'. injection Hm3' as <-.
  unfold tables in Ht. injection Ht as Hk Hmo Hgb Hga Htc.
  split; [|split; [|split]].
  - intros key. rewrite (dispatch_calls_for sdl m3 dt calls _ Hptr3 Hd).
    cbn [expected_calls]. rewrite Hk. reflexivity.
  - intros button. rewrite (dispatch_calls_for sdl m3 dt calls _ Hptr3 Hd).
    cbn [expected_calls]. rewrite Hmo. unfold Bindings.isMouseButtonDown. rewrite Hmouse.
    reflexivity.
  - intros h i Hc Hi. rewrite (dispatch_calls_for sdl m3 dt calls _ Hptr3 Hd).
    cbn [expected_calls]. rewrite Hgb, (Hb h i Hc Hi). reflexivity.
  - intros Hc button. rewrite (dispatch_calls_for sdl m3 dt calls _ Hptr3 Hd).
    cbn [expected_calls]. rewrite Hgb.
    destruct (gamepad_queries_ext m m3 button Bindings.GamepadAxis.NONE (Hn Hc)) as (-> & _).
    reflexivity.
Qed.

(** The calls of a dispatch on a manager with a single binding. *)
Lemma dispatch_single sdl m dt
    (keys : gmap Z (Bindings.CommandFunction Game))
    (mice : gmap Z (Bindings.CommandFunction Game))
    (buttons : gmap Bindings.GamepadButton.t (Bindings.CommandFunction Game))
    (axes : gmap Bindings.GamepadAxis.t (Bindings.CommandFunction Game * Q)) :
  Bindings.m_currentKeyboardState m = Some SdlKeyArray ->
  tables m = (keys, mice, buttons, axes, None) ->
  Bindings.dispatch sdl m dt
  = Some (table_calls
            (fun key _ => negb (keystate sdl (scancode_from_key sdl key) =? 0))
            (fun key c => Bindings.Build_Invocation (Bindings.KeyboardKey key) c dt)
            (map_to_list keys)
          ++ table_calls (fun button _ => Bindings.isMouseButtonDown m button)
               (fun button c => Bindings.Build_Invocation (Bindings.MouseButton button) c dt)
               (map_to_list mice)
          ++ table_calls (fun button _ => Bindings.isGamepadButtonDown m button)
               (fun button c =>
                  Bindings.Build_Invocation (Bindings.GamepadButtonInput button) c dt)
               (map_to_list buttons)
          ++ table_calls
               (fun axis data => Qltb (snd data) (Qabs (Bindings.getGamepadAxisValue m axis)))
               (fun axis data =>
                  Bindings.Build_Invocation (Bindings.GamepadAxisInput axis) (fst data)
                    (Bindings.getGamepadAxisValue m axis))
               (map_to_list axes)).
Proof.
  intros Hptr Ht. rewrite (dispatch_table sdl m dt Hptr).
  unfold tables in Ht. injection Ht as -> -> -> -> Htc.
  unfold Bindings.touch_calls. rewrite Htc, !app_nil_r. reflexivity.
Qed.

End Effects.

Section SingleBinding.
Context {Game : Type}.
Implicit Types (m : Bindings.InputManager Game) (g : Game) (c : Bindings.CommandFunction Game).

(** One key bound and nothing else: the game after [update] is the
    callback's result when the key's entry in SDL's array is non-zero, and
    the game as it was otherwise. *)
Lemma single_key_effect sdl dt m g key c :
  Bindings.m_currentKeyboardState m = Some SdlKeyArray ->
  unbound m ->
  snd <$> Bindings.update sdl dt (Bindings.bindKeyCommand key c m, g)
  = Some (if negb (keystate sdl (scancode_from_key sdl key) =? 0) then c g dt else g).
Proof.
  intros Hptr Hu. set (m' := Bindings.bindKeyCommand key c m).
  assert (Hptr' : Bindings.m_currentKeyboardState m' = Some SdlKeyArray)
    by (subst m'; destruct m; exact Hptr).
  assert (Ht : tables m' = ({[key := c]}, ∅, ∅, ∅, None)).
  { subst m'. destruct Hu as (Hk & Hmo & Hb & Ha & Htc). destruct m. cbn in *. subst.
    unfold tables. cbn. rewrite insert_empty. reflexivity. }
  destruct (update_effect sdl dt m' g Hptr') as (st & m3 & calls & Hupd & Hm3 & Hd & Hg).
  rewrite Hupd. cbn [fmap option_fmap option_map]. rewrite Hg. f_equal.
  destruct (refreshed_view sdl m' Hptr') as (m3' & Hm3' & Hptr3 & Ht3 & _).
  rewrite Hm3 in Hm3'. injection Hm3' as <-. rewrite Ht in Ht3.
  rewrite (dispatch_single sdl m3 dt _ _ _ _ Hptr3 Ht3) in Hd. injection Hd as <-.
  rewrite map_to_list_singleton, !map_to_list_empty. unfold table_calls. cbn [flat_map fst snd app].
  destruct (negb _); reflexivity.
Qed.

Lemma single_mouse_effect sdl dt m g button c :
  Bindings.m_currentKeyboardState m = Some SdlKeyArray ->
  unbound m ->
  snd <$> Bindings.update sdl dt (Bindings.bindMouseCommand button c m, g)
  = Some (if negb (Z.land (mouse_buttons sdl) (SDL_BUTTON button) =? 0) then c g dt else g).
Proof.
  intros Hptr Hu. set (m' := Bindings.bindMouseCommand button c m).
  assert (Hptr' : Bindings.m_currentKeyboardState m' = Some SdlKeyArray)
    by (subst m'; destruct m; exact Hptr).
  assert (Ht : tables m' = (∅, {[button := c]}, ∅, ∅, None)).
  { subst m'. destruct Hu as (Hk & Hmo & Hb & Ha & Htc). destruct m. cbn in *. subst.
    unfold tables. cbn. rewrite insert_empty. reflexivity. }
  destruct (update_effect sdl dt m' g Hptr') as (st & m3 & calls & Hupd & Hm3 & Hd & Hg).
  rewrite Hupd. cbn [fmap option_fmap option_map]. rewrite Hg. f_equal.
  destruct (refreshed_view sdl m' Hptr') as (m3' & Hm3' & Hptr3 & Ht3 & _ & Hmouse & _).
  rewrite Hm3 in Hm3'. injection Hm3' as <-. rewrite Ht in Ht3.
  rewrite (dispatch_single sdl m3 dt _ _ _ _ Hptr3 Ht3) in Hd. injection Hd as <-.
  rewrite map_to_list_singleton, !map_to_list_empty. unfold table_calls. cbn [flat_map fst snd app].
  unfold Bindings.isMouseButtonDown. rewrite Hmouse.
  destruct (negb _); reflexivity.
Qed.

Lemma single_button_effect sdl dt m g h i c :
  Bindings.m_currentKeyboardState m = Some SdlKeyArray ->
  unbound m ->
  Bindings.m_gameController m = Some h ->
  (i < 16)%nat ->
  snd <$> Bindings.update sdl dt
            (Bindings.bindGamepadButtonCommand (Bindings.sdlButtonToGamepadButton i) c m, g)
  = Some (if negb (controller_button sdl h i =? 0) then c g dt else g).
Proof.
  intros Hptr Hu Hc Hi.
  set (m' := Bindings.bindGamepadButtonCommand (Bindings.sdlButtonToGamepadButton i) c m).
  assert (Hptr' : Bindings.m_currentKeyboardState m' = Some SdlKeyArray)
    by (subst m'; destruct m; exact Hptr).
  assert (Hc' : Bindings.m_gameController m' = Some h)
    by (subst m'; destruct m; exact Hc).
  assert (Ht : tables m' = (∅, ∅, {[Bindings.sdlButtonToGamepadButton i := c]}, ∅, None)).
  { subst m'. destruct Hu as (Hk & Hmo & Hb & Ha & Htc). destruct m. cbn in *. subst.
    unfold tables. cbn. rewrite insert_empty. reflexivity. }
  destruct (update_effect sdl dt m' g Hptr') as (st & m3 & calls & Hupd & Hm3 & Hd & Hg).
  rewrite Hupd. cbn [fmap option_fmap option_map]. rewrite Hg. f_equal.
  destruct (refreshed_view sdl m' Hptr') as (m3' & Hm3' & Hptr3 & Ht3 & _ & _ & Hb3 & _).
  rewrite Hm3 in Hm3'. injection Hm3' as <-. rewrite Ht in Ht3.
  rewrite (dispatch_single sdl m3 dt _ _ _ _ Hptr3 Ht3) in Hd. injection Hd as <-.
  rewrite map_to_list_singleton, !map_to_list_empty. unfold table_calls. cbn [flat_map fst snd app].
  rewrite (Hb3 h i Hc' Hi).
  destruct (negb _); reflexivity.
Qed.

End SingleBinding.

(** C7 (the code departs from the specification after a disconnect).  In
    one [update] of the binding-table manager (keyboard pointer set) the
    game is left as the callbacks of the dispatch leave it, and the calls
    are, for every key, exactly one call of its callback with [deltaTime]
    when the key's entry in SDL's key array is non-zero and none otherwise
    (none for a key without a binding); likewise for every mouse button
    against the button mask SDL reports; likewise, while a controller is
    bound, for each of the sixteen translated gamepad buttons against what
    the controller reports.  With a single binding the game after [update]
    is the callback's result when the input is down and the unchanged game
    when it is not.  A counter increment bound to button A and held for
    three frames gives 3, and the counter is still 3 after the release on
    frame 4.  But once the controller is removed and none is left, the
    dispatch goes on from the last snapshot: with A held in the frame before
    the removal, the next frame, in which no device exists and SDL reports
    nothing down, calls the callback again and the counter goes from 1 to
    2. *)
Theorem C7_digital_dispatch :
  (forall (Game : Type) (sdl : Platform) (dt : Q) (m : Bindings.InputManager Game) (g : Game),
     Bindings.m_currentKeyboardState m = Some SdlKeyArray ->
     exists st calls,
       Bindings.update sdl dt (m, g) = Some st /\
       snd st = apply_calls calls g /\
       (forall key,
          calls_for (Bindings.KeyboardKey key) calls
          = match Bindings.m_keyCommands m !! key with
            | Some c =>
                if negb (keystate sdl (scancode_from_key sdl key) =? 0)
                then [Bindings.Build_Invocation (Bindings.KeyboardKey key) c dt] else []
            | None => []
            end) /\
       (forall button,
          calls_for (Bindings.MouseButton button) calls
          = match Bindings.m_mouseCommands m !! button with
            | Some c =>
                if negb (Z.land (mouse_buttons sdl) (SDL_BUTTON button) =? 0)
                then [Bindings.Build_Invocation (Bindings.MouseButton button) c dt] else []
            | None => []
            end) /\
       (forall h i, Bindings.m_gameController m = Some h -> (i < 16)%nat ->
          calls_for (Bindings.GamepadButtonInput (Bindings.sdlButtonToGamepadButton i)) calls
          = match Bindings.m_gamepadButtonCommands m !! Bindings.sdlButtonToGamepadButton i with
            | Some c =>
                if negb (controller_button sdl h i =? 0)
                then [Bindings.Build_Invocation
                        (Bindings.GamepadButtonInput (Bindings.sdlButtonToGamepadButton i)) c dt]
                else []
            | None => []
            end)) /\
  (forall (Game : Type) (sdl : Platform) (dt : Q) (m : Bindings.InputManager Game) (g : Game)
          (c : Bindings.CommandFunction Game),
     Bindings.m_currentKeyboardState m = Some SdlKeyArray ->
     unbound m ->
     (forall key,
        snd <$> Bindings.update sdl dt (Bindings.bindKeyCommand key c m, g)
        = Some (if negb (keystate sdl (scancode_from_key sdl key) =? 0) then c g dt else g)) /\
     (forall button,
        snd <$> Bindings.update sdl dt (Bindings.bindMouseCommand button c m, g)
        = Some (if negb (Z.land (mouse_buttons sdl) (SDL_BUTTON button) =? 0)
                then c g dt else g)) /\
     (forall h i, Bindings.m_gameController m = Some h -> (i < 16)%nat ->
        snd <$> Bindings.update sdl dt
                  (Bindings.bindGamepadButtonCommand (Bindings.sdlButtonToGamepadButton i) c m, g)
        = Some (if negb (controller_button sdl h i =? 0) then c g dt else g))) /\
  (snd <$> run_frames [pad_A_held; pad_A_held; pad_A_held] (counter_manager, 0) = Some 3 /\
   snd <$> run_frames [pad_A_held; pad_A_held; pad_A_held; pad_A_released] (counter_manager, 0)
   = Some 3) /\
  (snd <$> Bindings.update pad_A_held (1 # 60)%Q (counter_manager, 0) = Some 1 /\
   (fun st => Bindings.m_gameController (fst st)) <$> counter_after_disconnect = Some None /\
   num_joysticks quiet = 0%nat /\
   (forall h i, controller_button quiet h i = 0) /\
   snd <$> counter_after_disconnect = Some 2).
Proof.
  split; [|split; [|split]].
  - intros Game sdl dt m g Hptr.
    destruct (update_effect sdl dt m g Hptr) as (st & m3 & calls & Hupd & Hm3 & Hd & Hg).
    exists st, calls. split; [exact Hupd|]. split; [exact Hg|].
    destruct (update_digital_calls sdl dt m m3 calls Hptr Hm3 Hd) as (Hk & Hmo & Hb & _).
    split; [exact Hk|]. split; [exact Hmo | exact Hb].
  - intros Game sdl dt m g c Hptr Hu. split; [|split].
    + intros key. apply single_key_effect; assumption.
    + intros button. apply single_mouse_effect; assumption.
    + intros h i Hc Hi. apply single_button_effect; assumption.
  - split; vm_compute; reflexivity.
  - repeat split; vm_compute; reflexivity.
Qed.

(** The theorem at the counter manager's table-free predecessor: key [a]
    bound to the increment, pressed. *)
Lemma C7_digital_dispatch_witness :
  let m := fst (Bindings.init pad_A_released (@Bindings.InputManager_new Z)) in
  Bindings.m_currentKeyboardState m = Some SdlKeyArray /\
  unbound m /\
  Bindings.m_gameController m = Some 7%nat /\
  snd <$> Bindings.update (with_keys (only SDL_SCANCODE_A 1)) (1 # 60)%Q
            (Bindings.bindKeyCommand SDLK_a increment m, 5)
  = Some 6 /\
  snd <$> Bindings.update pad_A_held (1 # 60)%Q
            (Bindings.bindGamepadButtonCommand Bindings.GamepadButton.A increment m, 5)
  = Some 6.
Proof.
  intros m.
  assert (Hp : Bindings.m_currentKeyboardState m = Some SdlKeyArray) by reflexivity.
  assert (Hu : unbound m) by (repeat split).
  assert (Hc : Bindings.m_gameController m = Some 7%nat) by reflexivity.
  assert (Hi : (0 < 16)%nat) by lia.
  split; [exact Hp|]. split; [exact Hu|]. split; [exact Hc|]. split.
  - exact (proj1 (proj1 (proj2 C7_digital_dispatch) Z (with_keys (only SDL_SCANCODE_A 1))
                    (1 # 60)%Q m 5 increment Hp Hu) SDLK_a).
  - exact (proj2 (proj2 (proj1 (proj2 C7_digital_dispatch) Z pad_A_held
                           (1 # 60)%Q m 5 increment Hp Hu)) 7%nat 0%nat Hc Hi).
Defined.

(** ** Rebinding, to the game *)



(** ** Axis dispatch against the readings *)

Section AxisEffects.
Context {Game : Type}.
Implicit Types (m : Bindings.InputManager Game) (g : Game) (c : Bindings.CommandFunction Game).

(** The calls of an [update] for an axis, against the value it stores. *)
Lemma update_axis_calls sdl dt m g st m3 calls axis :
  Bindings.m_currentKeyboardState m = Some SdlKeyArray ->
  Bindings.update sdl dt (m, g) = Some st ->
  refreshed sdl m = Some m3 ->
  Bindings.dispatch sdl m3 dt = Some calls ->
  calls_for (Bindings.GamepadAxisInput axis) calls
  = match Bindings.m_gamepadAxisCommands m !! axis with
    | Some (c, dz) =>
        if Qltb dz (Qabs (Bindings.getGamepadAxisValue (fst st) axis))
        then [Bindings.Build_Invocation (Bindings.GamepadAxisInput axis) c
                (Bindings.getGamepadAxisValue (fst st) axis)]
        else []
    | None => []
    end.
Proof.
  intros Hptr Hupd Hm3 Hd.
  destruct (refreshed_view sdl m Hptr) as (m3' & Hm3' & Hptr3 & Ht & _).
  rewrite Hm3 in Hm3'. injection Hm3' as <-.
  unfold tables in Ht. injection Ht as _ _ _ Hga _.
  destruct (gamepad_queries_ext m3 (fst st) Bindings.GamepadButton.NONE axis
              (update_snapshot sdl dt m g st m3 Hupd Hm3)) as (_ & _ & _ & Hval).
  rewrite (dispatch_calls_for sdl m3 dt calls _ Hptr3 Hd).
  cbn [expected_calls]. rewrite Hga, Hval. reflexivity.
Qed.

(** With a controller bound the stored value of a translated axis is the
    reading over 32767. *)
Lemma update_axis_value sdl dt m g st h i :
  Bindings.m_currentKeyboardState m = Some SdlKeyArray ->
  Bindings.update sdl dt (m, g) = Some st ->
  Bindings.m_gameController m = Some h ->
  (i < SDL_CONTROLLER_AXIS_MAX)%nat ->
  Bindings.getGamepadAxisValue (fst st) (Bindings.sdlAxisToGamepadAxis i)
  = (inject_Z (controller_axis sdl h i) / 32767)%Q.
Proof.
  intros Hptr Hupd Hc Hi.
  destruct (refreshed_view sdl m Hptr) as (m3 & Hm3 & _ & _ & _ & _ & _ & Hax & _).
  destruct (gamepad_queries_ext m3 (fst st) Bindings.GamepadButton.NONE
              (Bindings.sdlAxisToGamepadAxis i)
              (update_snapshot sdl dt m g st m3 Hupd Hm3)) as (_ & _ & _ & ->).
  apply (Hax h i Hc Hi).
Qed.

(** One axis bound and nothing else. *)
Lemma single_axis_effect sdl dt m g h i c dz :
  Bindings.m_currentKeyboardState m = Some SdlKeyArray ->
  unbound m ->
  Bindings.m_gameController m = Some h ->
  (i < SDL_CONTROLLER_AXIS_MAX)%nat ->
  snd <$> Bindings.update sdl dt
            (Bindings.bindGamepadAxisCommand (Bindings.sdlAxisToGamepadAxis i) c dz m, g)
  = Some (if Qltb dz (Qabs (inject_Z (controller_axis sdl h i) / 32767))
          then c g (inject_Z (controller_axis sdl h i) / 32767)%Q else g).
Proof.
  intros Hptr Hu Hc Hi.
  set (m' := Bindings.bindGamepadAxisCommand (Bindings.sdlAxisToGamepadAxis i) c dz m).
  assert (Hptr' : Bindings.m_currentKeyboardState m' = Some SdlKeyArray)
    by (subst m'; destruct m; exact Hptr).
  assert (Hc' : Bindings.m_gameController m' = Some h)
    by (subst m'; destruct m; exact Hc).
  assert (Ht : tables m' = (∅, ∅, ∅, {[Bindings.sdlAxisToGamepadAxis i := (c, dz)]}, None)).
  { subst m'. destruct Hu as (Hk & Hmo & Hb & Ha & Htc). destruct m. cbn in *. subst.
    unfold tables. cbn. rewrite insert_empty. reflexivity. }
  destruct (update_effect sdl dt m' g Hptr') as (st & m3 & calls & Hupd & Hm3 & Hd & Hg).
  rewrite Hupd. cbn [fmap option_fmap option_map]. rewrite Hg. f_equal.
  destruct (refreshed_view sdl m' Hptr') as (m3' & Hm3' & Hptr3 & Ht3 & _ & _ & _ & Hax & _).
  rewrite Hm3 in Hm3'. injection Hm3' as <-. rewrite Ht in Ht3.
  rewrite (dispatch_single sdl m3 dt _ _ _ _ Hptr3 Ht3) in Hd. injection Hd as <-.
  rewrite map_to_list_singleton, !map_to_list_empty. unfold table_calls. cbn [flat_map fst snd app].
  rewrite (Hax h i Hc' Hi).
  destruct (Qltb _ _); reflexivity.
Qed.

End AxisEffects.

(** C3, amended.  In one [update] (keyboard pointer set) the game is left
    as the callbacks of the dispatch leave it, and the calls made for an
    axis are exactly one call of its callback when the magnitude of the
    stored axis value exceeds the binding's deadzone, and none otherwise
    (none for an axis without a binding); the payload is that stored value,
    not the elapsed time.  With a controller bound the stored value of an
    SDL axis is its 16-bit reading divided by 32767 in binary32, with no
    deadzone shaping; read as a rational, [reading / 32767] is at most 2^-24
    away from it, so: when [|reading / 32767|] is at most the deadzone there
    is no call, and when it exceeds the deadzone by more than 2^-24 there is
    exactly one call, with the payload [reading / 32767] (nothing is said in
    between, where the rounding of the quotient decides).  With no other
    binding, the game after the [update] is then the unchanged game, resp.
    the callback's result on that payload. *)
Theorem C3_axis_dispatch_raw_value (Game : Type) (sdl : Platform) (dt : Q)
    (m : Bindings.InputManager Game) (g : Game) :
  Bindings.m_currentKeyboardState m = Some SdlKeyArray ->
  (exists st calls,
     Bindings.update sdl dt (m, g) = Some st /\
     snd st = apply_calls calls g /\
     (forall axis,
        calls_for (Bindings.GamepadAxisInput axis) calls
        = match Bindings.m_gamepadAxisCommands m !! axis with
          | Some (c, dz) =>
              if Qltb dz (Qabs (Bindings.getGamepadAxisValue (fst st) axis))
              then [Bindings.Build_Invocation (Bindings.GamepadAxisInput axis) c
                      (Bindings.getGamepadAxisValue (fst st) axis)]
              else []
          | None => []
          end) /\
     (forall h i c dz,
        Bindings.m_gameController m = Some h ->
        (i < SDL_CONTROLLER_AXIS_MAX)%nat ->
        Bindings.m_gamepadAxisCommands m !! Bindings.sdlAxisToGamepadAxis i = Some (c, dz) ->
        -32768 <= controller_axis sdl h i <= 32767 ->
        let v := (inject_Z (controller_axis sdl h i) / 32767)%Q in
        ((Qabs v <= dz)%Q ->
         calls_for (Bindings.GamepadAxisInput (Bindings.sdlAxisToGamepadAxis i)) calls = []) /\
        ((dz + (1 # 16777216) < Qabs v)%Q ->
         calls_for (Bindings.GamepadAxisInput (Bindings.sdlAxisToGamepadAxis i)) calls
         = [Bindings.Build_Invocation
              (Bindings.GamepadAxisInput (Bindings.sdlAxisToGamepadAxis i)) c v]))) /\
  (forall h i c dz,
     unbound m ->
     Bindings.m_gameController m = Some h ->
     (i < SDL_CONTROLLER_AXIS_MAX)%nat ->
     -32768 <= controller_axis sdl h i <= 32767 ->
     let v := (inject_Z (controller_axis sdl h i) / 32767)%Q in
     let m' := Bindings.bindGamepadAxisCommand (Bindings.sdlAxisToGamepadAxis i) c dz m in
     ((Qabs v <= dz)%Q -> snd <$> Bindings.update sdl dt (m', g) = Some g) /\
     ((dz + (1 # 16777216) < Qabs v)%Q ->
      snd <$> Bindings.update sdl dt (m', g) = Some (c g v))).
Proof.
  intros Hptr. split.
  - destruct (update_effect sdl dt m g Hptr) as (st & m3 & calls & Hupd & Hm3 & Hd & Hg).
    exists st, calls. split; [exact Hupd|]. split; [exact Hg|].
    pose proof (fun axis => update_axis_calls sdl dt m g st m3 calls axis Hptr Hupd Hm3 Hd)
      as Hcalls.
    split; [exact Hcalls|].
    intros h i c dz Hc Hi Hb Hr v.
    rewrite Hcalls, Hb, (update_axis_value sdl dt m g st h i Hptr Hupd Hc Hi). fold v.
    split; intros Hv.
    + assert (E : Qltb dz (Qabs v) = false) by (apply Qltb_ge; exact Hv).
      rewrite E. reflexivity.
    + assert (E : Qltb dz (Qabs v) = true) by (apply Qltb_lt; lra).
      rewrite E. reflexivity.
  - intros h i c dz Hu Hc Hi Hr v m'. subst m'.
    rewrite (single_axis_effect sdl dt m g h i c dz Hptr Hu Hc Hi). fold v.
    split; intros Hv.
    + assert (E : Qltb dz (Qabs v) = false) by (apply Qltb_ge; exact Hv).
      rewrite E. reflexivity.
    + assert (E : Qltb dz (Qabs v) = true) by (apply Qltb_lt; lra).
      rewrite E. reflexivity.
Qed.

(** The amended statement at the stick scenario: the reading 20000 against
    the default deadzone. *)
Lemma C3_axis_dispatch_raw_value_witness :
  let m := fst (Bindings.init (stick_frame 0) (@Bindings.InputManager_new Q)) in
  let v := (inject_Z (controller_axis (stick_frame 20000) 7%nat 0) / 32767)%Q in
  Bindings.m_currentKeyboardState m = Some SdlKeyArray /\
  unbound m /\
  Bindings.m_gameController m = Some 7%nat /\
  (0 < SDL_CONTROLLER_AXIS_MAX)%nat /\
  -32768 <= controller_axis (stick_frame 20000) 7%nat 0 <= 32767 /\
  (Bindings.default_deadzone + (1 # 16777216) < Qabs v)%Q /\
  snd <$> Bindings.update (stick_frame 20000) (1 # 60)%Q
            (Bindings.bindGamepadAxisCommand Bindings.GamepadAxis.LEFTX record_payload
               Bindings.default_deadzone m, 0%Q)
  = Some (inject_Z 20000 / 32767)%Q.
Proof.
  intros m v.
  assert (Hp : Bindings.m_currentKeyboardState m = Some SdlKeyArray) by reflexivity.
  assert (Hu : unbound m) by (repeat split).
  assert (Hc : Bindings.m_gameController m = Some 7%nat) by reflexivity.
  assert (Hi : (0 < SDL_CONTROLLER_AXIS_MAX)%nat) by (unfold SDL_CONTROLLER_AXIS_MAX; lia).
  assert (Hr : -32768 <= controller_axis (stick_frame 20000) 7%nat 0 <= 32767) by (cbn; lia).
  assert (Hv : (Bindings.default_deadzone + (1 # 16777216) < Qabs v)%Q) by reflexivity.
  split; [exact Hp|]. split; [exact Hu|]. split; [exact Hc|]. split; [exact Hi|].
  split; [exact Hr|]. split; [exact Hv|].
  exact (proj2 (proj2 (C3_axis_dispatch_raw_value Q (stick_frame 20000) (1 # 60)%Q m 0%Q Hp)
                  7%nat 0%nat record_payload Bindings.default_deadzone Hu Hc Hi Hr) Hv).
Defined.

(** ** The binary32 quotient against the rational one *)

Lemma quotient_check_from_spec (n : nat) (raw : Z) :
  quotient_check_from n raw = true ->
  forall r, raw <= r < raw + Z.of_nat n -> quotient_check r = true.
Proof.
  revert raw. induction n as [|n IH]; intros raw H r Hr; [lia|].
  cbn [quotient_check_from] in H. apply andb_prop in H as [Hp Hrest].
  destruct (Z.eq_dec r raw) as [->|Hne]; [exact Hp|].
  apply (IH (raw + 1) Hrest). lia.
Qed.

Lemma quotient_check_all : quotient_check_from (Z.to_nat 65536) (-32768) = true.
Proof. vm_compute. reflexivity. Qed.

(** X26.  On every 16-bit reading the value [updateGamepadState] stores, the
    binary32 quotient [reading / 32767.0f], is a finite number within 2^-24
    of the rational [reading / 32767], and the comparison of the dispatch
    with the default deadzone [0.25f] gives in binary32 what it gives on the
    rationals.  For other deadzones the two can differ inside that margin:
    at the reading 9830 with the binary32 deadzone [0x3e999933] the quotient
    rounds to the deadzone itself, so the code makes no call although
    [9830 / 32767] is above the deadzone (by less than 2^-24). *)
Lemma binary32_quotient_matches_rational :
  (forall raw, -32768 <= raw <= 32767 ->
     let f := Binary32.binding_table_axis raw in
     let exact := (inject_Z raw / 32767)%Q in
     Binary32.is_finite f = true /\
     (Qabs (Binary32.to_Q f - exact) <= 1 # 16777216)%Q /\
     axis_fires32 default_deadzone32 raw = Qltb Bindings.default_deadzone (Qabs exact)) /\
  (Binary32.to_Q default_deadzone32 == Bindings.default_deadzone)%Q /\
  (valid_binary Binary32.prec Binary32.emax close_deadzone32 = true /\
   axis_fires32 close_deadzone32 9830 = false /\
   (Binary32.to_Q close_deadzone32 < Qabs (inject_Z 9830 / 32767))%Q /\
   (Qabs (inject_Z 9830 / 32767) <= Binary32.to_Q close_deadzone32 + (1 # 16777216))%Q).
Proof.
  split; [|split].
  - intros raw Hr f exact.
    pose proof (quotient_check_from_spec _ _ quotient_check_all raw) as Hp.
    unfold quotient_check in Hp. fold f exact in Hp.
    assert (H : raw <= 32767) by lia.
    specialize (Hp ltac:(lia)).
    apply andb_prop in Hp as [Hp Hc]. apply andb_prop in Hp as [Hf He].
    split; [exact Hf|]. split; [apply Qle_bool_iff; exact He|].
    apply Bool.eqb_prop. exact Hc.
  - reflexivity.
  - repeat split; vm_compute; congruence.
Qed.

(** ** Hotplug through the event queue *)



(** ** The shaping of [getAxisValue] *)

Lemma deadzone_range : (0 <= Devices.deadzone < 1)%Q.
Proof. split; [discriminate | reflexivity]. Qed.

(** The value of [getAxisValue] behind its guards. *)
Lemma getAxisValue_available (g : Devices.GamepadInput) (axis : nat) :
  Devices.GamepadInput_isAvailable g = true ->
  (axis < SDL_CONTROLLER_AXIS_MAX)%nat ->
  Devices.GamepadInput_getAxisValue g axis
  = Devices.shape (15 # 100) (inject_Z (nth axis (Devices.axisValues g) 0) * (1 / 32768)).
Proof.
  intros Ha Hx. unfold Devices.GamepadInput_getAxisValue. rewrite Ha.
  apply Nat.leb_gt in Hx. rewrite Hx. reflexivity.
Qed.

Lemma normalized_reading_range (raw : Z) :
  -32768 <= raw <= 32767 -> (Qabs (inject_Z raw * (1 / 32768)) <= 1)%Q.
Proof.
  intros H. change (inject_Z raw * (1 / 32768))%Q with (Devices.normalize raw).
  rewrite normalize_eq.
  assert (H1 : (inject_Z (-32768) <= inject_Z raw)%Q) by (rewrite <- Zle_Qle; lia).
  assert (H2 : (inject_Z raw <= inject_Z 32767)%Q) by (rewrite <- Zle_Qle; lia).
  change (inject_Z (-32768)) with (-32768 # 1)%Q in H1.
  change (inject_Z 32767) with (32767 # 1)%Q in H2.
  apply Qabs_Qle_condition. split; lra.
Qed.

(** C2.  The arithmetic of [GamepadInput::getAxisValue] (floats read as
    exact rationals), with its deadzone constant as a parameter in [0,1), is
    the formula [sign(v) * max(0, |v| - deadzone) / (1 - deadzone)]; it is 0
    for [|v| <= deadzone]; its magnitude is strictly increasing for
    [deadzone < |v1| < |v2| <= 1]; it maps 1 to 1; it is continuous at the
    deadzone boundary (both boundary points, in epsilon-delta form); and its
    magnitude never exceeds 1 for [|v| <= 1].  The function itself, on an
    available gamepad and an axis index in range holding the 16-bit reading
    [raw], returns that formula at the deadzone 0.15 and [v = raw / 32768]:
    0 when [|v| <= 0.15], of magnitude at most 1, -1 at the reading -32768,
    of strictly larger magnitude for a reading of strictly larger magnitude
    outside the deadzone, and as small as wanted for readings close enough
    to the deadzone boundary. *)
Theorem C2_deadzone_shaping (dz : Q) (Hdz : (0 <= dz < 1)%Q) :
  (forall v, (Qabs v <= 1)%Q -> (Devices.shape dz v == shaped_spec dz v)%Q) /\
  (forall v, (Qabs v <= dz)%Q -> (Devices.shape dz v == 0)%Q) /\
  (forall v1 v2, (dz < Qabs v1)%Q -> (Qabs v1 < Qabs v2)%Q -> (Qabs v2 <= 1)%Q ->
                 (Qabs (Devices.shape dz v1) < Qabs (Devices.shape dz v2))%Q) /\
  (Devices.shape dz 1 == 1)%Q /\
  (forall b, (Qabs b == dz)%Q ->
     forall eps, (0 < eps)%Q ->
       exists delta, (0 < delta)%Q /\
         forall v, (Qabs (v - b) < delta)%Q ->
                   (Qabs (Devices.shape dz v - Devices.shape dz b) < eps)%Q) /\
  (forall v, (Qabs v <= 1)%Q -> (Qabs (Devices.shape dz v) <= 1)%Q) /\
  (forall (g : Devices.GamepadInput) (axis : nat),
     Devices.GamepadInput_isAvailable g = true ->
     (axis < SDL_CONTROLLER_AXIS_MAX)%nat ->
     let raw := nth axis (Devices.axisValues g) 0 in
     -32768 <= raw <= 32767 ->
     let v := (inject_Z raw * (1 / 32768))%Q in
     let out := Devices.GamepadInput_getAxisValue g axis in
     (out == shaped_spec (15 # 100) v)%Q /\
     ((Qabs v <= 15 # 100)%Q -> (out == 0)%Q) /\
     (Qabs out <= 1)%Q /\
     (raw = -32768 -> (out == -1)%Q) /\
     (forall (g' : Devices.GamepadInput) (axis' : nat),
        Devices.GamepadInput_isAvailable g' = true ->
        (axis' < SDL_CONTROLLER_AXIS_MAX)%nat ->
        let raw' := nth axis' (Devices.axisValues g') 0 in
        -32768 <= raw' <= 32767 ->
        let v' := (inject_Z raw' * (1 / 32768))%Q in
        (15 # 100 < Qabs v)%Q -> (Qabs v < Qabs v')%Q ->
        (Qabs out < Qabs (Devices.GamepadInput_getAxisValue g' axis'))%Q)) /\
  (forall eps, (0 < eps)%Q ->
     exists delta, (0 < delta)%Q /\
       forall (g : Devices.GamepadInput) (axis : nat),
         Devices.GamepadInput_isAvailable g = true ->
         (axis < SDL_CONTROLLER_AXIS_MAX)%nat ->
         let v := (inject_Z (nth axis (Devices.axisValues g) 0%Z) * (1 / 32768))%Q in
         (Qabs (Qabs v - (15 # 100)) < delta)%Q ->
         (Qabs (Devices.GamepadInput_getAxisValue g axis) < eps)%Q).
Proof.
  pose proof (inv_pos dz Hdz) as Hi. pose proof (inv_cancel dz Hdz) as Hc.
  assert (Hmono : forall d, (0 <= d < 1)%Q -> forall v1 v2,
            (d < Qabs v1)%Q -> (Qabs v1 < Qabs v2)%Q ->
            (Qabs (Devices.shape d v1) < Qabs (Devices.shape d v2))%Q).
  { intros d Hd v1 v2 H1 H12.
    rewrite (shape_abs_outside d Hd v1) by lra.
    rewrite (shape_abs_outside d Hd v2) by lra.
    apply Qmult_lt_compat_r; [exact (inv_pos d Hd) | lra]. }
  assert (Hbound : forall d, (0 <= d < 1)%Q -> forall v,
            (Qabs v <= 1)%Q -> (Qabs (Devices.shape d v) <= 1)%Q).
  { intros d Hd v Hv.
    destruct (Qlt_le_dec (Qabs v) d) as [Hlt|Hge].
    - rewrite (shape_inside d v Hlt). discriminate.
    - rewrite (shape_abs_outside d Hd v Hge).
      apply Qle_trans with (y := ((1 - d) * / (1 - d))%Q).
      + apply Qmult_le_compat_r; [lra | apply Qlt_le_weak; exact (inv_pos d Hd)].
      + rewrite (inv_cancel d Hd). apply Qle_refl. }
  split; [|split; [|split; [|split; [|split; [|split; [|split]]]]]].
  - intros v _. apply shape_eq_spec. exact Hdz.
  - intros v. apply shape_abs_inside.
  - intros v1 v2 H1 H12 _. apply Hmono; assumption.
  - rewrite (shape_right dz 1).
    + exact Hc.
    + rewrite Qabs_pos; lra.
    + lra.
  - intros b Hb eps Heps. exists (eps * (1 - dz))%Q. split.
    { apply Qmult_lt_0_compat; lra. }
    intros v Hv.
    rewrite (shape_abs_inside dz b) by lra.
    assert (Hsub : (Qabs (Devices.shape dz v - 0) == Qabs (Devices.shape dz v))%Q).
    { apply Qabs_wd. ring. }
    rewrite Hsub.
    destruct (Qlt_le_dec (Qabs v) dz) as [Hlt|Hge].
    + rewrite (shape_inside dz v Hlt). exact Heps.
    + rewrite (shape_abs_outside dz Hdz v Hge).
      pose proof (Qabs_triangle_reverse v b) as Htri. rewrite Hb in Htri.
      apply Qlt_le_trans with (y := (eps * (1 - dz) * / (1 - dz))%Q).
      * apply Qmult_lt_compat_r; [exact Hi | lra].
      * rewrite <- Qmult_assoc, Hc. lra.
  - intros v. apply Hbound. exact Hdz.
  - intros g axis Ha Hx raw Hr v out. subst out.
    rewrite (getAxisValue_available g axis Ha Hx). fold raw. fold v.
    pose proof deadzone_range as Hd. change Devices.deadzone with (15 # 100)%Q in Hd.
    pose proof (normalized_reading_range raw Hr) as Hv1. fold v in Hv1.
    split; [apply shape_eq_spec; exact Hd|].
    split; [apply shape_abs_inside|].
    split; [apply Hbound; assumption|].
    split.
    { intros E. subst v. rewrite E. reflexivity. }
    intros g' axis' Ha' Hx' raw' Hr' v' H1 H12.
    rewrite (getAxisValue_available g' axis' Ha' Hx'). fold raw'. fold v'.
    apply Hmono; assumption.
  - intros eps Heps. exists (eps * (85 # 100))%Q. split.
    { apply Qmult_lt_0_compat; [exact Heps | reflexivity]. }
    intros g axis Ha Hx v Hv.
    rewrite (getAxisValue_available g axis Ha Hx). fold v.
    pose proof deadzone_range as Hd. change Devices.deadzone with (15 # 100)%Q in Hd.
    destruct (Qlt_le_dec (Qabs v) (15 # 100)) as [Hlt|Hge].
    + rewrite (shape_inside (15 # 100) v Hlt). exact Heps.
    + rewrite (shape_abs_outside (15 # 100) Hd v Hge).
      rewrite Qabs_pos in Hv by lra.
      assert (E : (/ (1 - (15 # 100)) == 100 # 85)%Q) by reflexivity.
      rewrite E. clearbody v. lra.
Qed.

(** The code's deadzone, 0.15, is in range, and a bound gamepad whose left
    stick reads 20000 answers with the formula's value. *)
Lemma C2_deadzone_shaping_witness :
  let g := Devices.GamepadInput_update (stick_frame 20000) Devices.GamepadInput_new in
  (0 <= Devices.deadzone < 1)%Q /\
  Devices.GamepadInput_isAvailable g = true /\
  (0 < SDL_CONTROLLER_AXIS_MAX)%nat /\
  -32768 <= nth 0 (Devices.axisValues g) 0 <= 32767 /\
  (Devices.shape Devices.deadzone 1 == 1)%Q /\
  (Devices.GamepadInput_getAxisValue g 0
   == shaped_spec (15 # 100) (inject_Z 20000 * (1 / 32768)))%Q.
Proof.
  intros g.
  pose proof deadzone_range as H.
  assert (Ha : Devices.GamepadInput_isAvailable g = true) by reflexivity.
  assert (Hx : (0 < SDL_CONTROLLER_AXIS_MAX)%nat) by (unfold SDL_CONTROLLER_AXIS_MAX; lia).
  assert (Hr : -32768 <= nth 0 (Devices.axisValues g) 0 <= 32767) by (cbn; lia).
  split; [exact H|]. split; [exact Ha|]. split; [exact Hx|]. split; [exact Hr|].
  split; [exact (proj1 (proj2 (proj2 (proj2 (C2_deadzone_shaping Devices.deadzone H)))))|].
  exact (proj1 (proj1 (proj2 (proj2 (proj2 (proj2 (proj2 (proj2
           (C2_deadzone_shaping Devices.deadzone H)))))))
           g 0%nat Ha Hx Hr)).
Defined.
